(** * RecordDataset: the TFRecord/VOC dataset adapter

    A shallow embedding of [tf_translate/vision/datasets/tfrecord_dataset.py]
    and the properties of its constructor, its annotation parser and its
    batch retrieval.

    Conventions of the embedding:
    - a Python [str] is a [string]; a character is a code point below 256;
    - a Python [int] is a [Z];
    - a Python [float] is a binary64 [spec_float], a [np.float32] a
      binary32 [spec_float];
    - a raised exception is the [Raise] outcome of a [result];
    - the object under construction is a record of optional attributes
      (an attribute that was never assigned reads as an attribute error);
    - the file system, the record reader, the XML parser, the image
      decoder and the process-wide random source are fields of a [World]. *)

From Stdlib Require Import ZArith List String Ascii Bool Lia Permutation.
From Stdlib Require Import Floats.SpecFloat.
Import ListNotations.

Local Open Scope string_scope.
Local Open Scope list_scope.
Local Open Scope Z_scope.

(** ** Outcomes *)

Inductive exn : Type :=
| AttributeError
| ValueError
| TypeError
| IndexError
| KeyError
| AxisError
| FileNotFoundError
| IsADirectoryError
| ZeroDivisionError
| ExternalError (who : string).

Inductive result (A : Type) : Type :=
| Ok (a : A)
| Raise (e : exn).
Arguments Ok {A} a.
Arguments Raise {A} e.

Definition bind {A B : Type} (r : result A) (k : A -> result B) : result B :=
  match r with
  | Ok a => k a
  | Raise e => Raise e
  end.

Declare Scope py_scope.
Delimit Scope py_scope with py.
Notation "x <- c ;; k" := (bind c (fun x => k))
  (at level 61, c at next level, right associativity) : py_scope.
Notation "' p <- c ;; k" := (bind c (fun x => let p := x in k))
  (at level 61, p pattern, c at next level, right associativity) : py_scope.

(** Reading an attribute of [self]: an attribute error when it was never
    assigned. *)
Definition getattr {A : Type} (a : option A) : result A :=
  match a with
  | Some v => Ok v
  | None => Raise AttributeError
  end.

(** ** Strings *)

Module Str.

Definition code (c : ascii) : nat := nat_of_ascii c.

(** [str.isspace] on the code points below 256. *)
Definition is_space (c : ascii) : bool :=
  let n := code c in
  (((9 <=? n) && (n <=? 13)) || ((28 <=? n) && (n <=? 32))
   || (n =? 133) || (n =? 160))%nat.

Fixpoint lstrip (s : string) : string :=
  match s with
  | EmptyString => EmptyString
  | String c s' => if is_space c then lstrip s' else s
  end.

Fixpoint rstrip (s : string) : string :=
  match s with
  | EmptyString => EmptyString
  | String c s' =>
      match rstrip s' with
      | EmptyString => if is_space c then EmptyString else String c EmptyString
      | r => String c r
      end
  end.

Definition strip (s : string) : string := lstrip (rstrip s).

(** The whitespace [int] and [float] skip around a number: the ASCII
    whitespace, and the other whitespace of the code points below 256. The
    separators 28 to 31, which [str.strip] removes, are not skipped. *)
Definition is_blank (c : ascii) : bool :=
  let n := code c in
  (((9 <=? n) && (n <=? 13)) || (n =? 32) || (n =? 133) || (n =? 160))%nat.

Fixpoint lskip (s : string) : string :=
  match s with
  | EmptyString => EmptyString
  | String c s' => if is_blank c then lskip s' else s
  end.

Fixpoint rskip (s : string) : string :=
  match s with
  | EmptyString => EmptyString
  | String c s' =>
      match rskip s' with
      | EmptyString => if is_blank c then EmptyString else String c EmptyString
      | r => String c r
      end
  end.

Definition skip_blanks (s : string) : string := lskip (rskip s).

(** [str.lower] on the code points below 256: the ASCII capitals and the
    Latin-1 capitals (all of 192..222 but the multiplication sign). *)
Definition lower_char (c : ascii) : ascii :=
  let n := code c in
  (if ((65 <=? n) && (n <=? 90))
      || ((192 <=? n) && (n <=? 222) && negb (n =? 215))
   then ascii_of_nat (n + 32) else c)%nat.

Fixpoint lower (s : string) : string :=
  match s with
  | EmptyString => EmptyString
  | String c s' => String (lower_char c) (lower s')
  end.

(** [s.replace(c, "")] for a one-character [c]. *)
Fixpoint remove_char (c : ascii) (s : string) : string :=
  match s with
  | EmptyString => EmptyString
  | String d s' =>
      if Ascii.eqb d c then remove_char c s' else String d (remove_char c s')
  end.

(** [s.split(sep)] for a one-character [sep]: never an empty list. *)
Fixpoint split (sep : ascii) (s : string) : list string :=
  match s with
  | EmptyString => [EmptyString]
  | String c s' =>
      if Ascii.eqb c sep then EmptyString :: split sep s'
      else match split sep s' with
           | tok :: rest => String c tok :: rest
           | [] => [String c EmptyString]
           end
  end.

(** The lines a text file yields when iterated: each keeps its newline. *)
Fixpoint lines (s : string) : list string :=
  match s with
  | EmptyString => []
  | String c s' =>
      if Ascii.eqb c "010"%char then String c EmptyString :: lines s'
      else match lines s' with
           | l :: ls => String c l :: ls
           | [] => [String c EmptyString]
           end
  end.

Definition digit_of (c : ascii) : option Z :=
  let n := code c in
  if ((48 <=? n) && (n <=? 57))%nat then Some (Z.of_nat n - 48) else None.

(** Decimal digits with single underscores between digits. *)
Fixpoint digits (s : string) (acc : Z) (after_digit : bool) : option Z :=
  match s with
  | EmptyString => if after_digit then Some acc else None
  | String c s' =>
      match digit_of c with
      | Some d => digits s' (10 * acc + d) true
      | None =>
          if Ascii.eqb c "_"%char && after_digit then digits s' acc false
          else None
      end
  end.

(** [int(s)]: surrounding whitespace, an optional sign, decimal digits. *)
Definition int (s : string) : result Z :=
  let t := skip_blanks s in
  let body :=
    match t with
    | String "+" r => digits r 0 false
    | String "-" r => option_map Z.opp (digits r 0 false)
    | _ => digits t 0 false
    end in
  match body with
  | Some z => Ok z
  | None => Raise ValueError
  end.

End Str.

(** ** Dictionaries

    A Python [dict] keeps its keys in insertion order; assigning to a key
    that is present keeps the key's place and replaces its value. *)

Module Dict.

Definition t : Type := list (string * Z).

Fixpoint get (d : t) (k : string) : option Z :=
  match d with
  | [] => None
  | (k', v) :: d' => if String.eqb k' k then Some v else get d' k
  end.

Definition mem (d : t) (k : string) : bool :=
  match get d k with Some _ => true | None => false end.

Fixpoint set (d : t) (k : string) (v : Z) : t :=
  match d with
  | [] => [(k, v)]
  | (k', v') :: d' =>
      if String.eqb k' k then (k', v) :: d' else (k', v') :: set d' k v
  end.

(** [{name: i for i, name in enumerate(names)}], counting from [i]. *)
Fixpoint of_enumerate (names : list string) (i : Z) (d : t) : t :=
  match names with
  | [] => d
  | name :: rest => of_enumerate rest (i + 1) (set d name i)
  end.

End Dict.

(** ** Floating point

    [float] is IEEE binary64 and [np.float32] is binary32, both with
    round-to-nearest-even, over the executable [spec_float] operations. *)

Module Float.

Definition of_Z (z : Z) : spec_float := binary_normalize 53 1024 z 0 false.

Definition sub (x y : spec_float) : spec_float := SFsub 53 1024 x y.

(** The cast done by [np.array(..., dtype=np.float32)]. *)
Definition to_float32 (x : spec_float) : spec_float :=
  match x with
  | S754_finite s m e => binary_round 24 128 s m e
  | _ => x
  end.

(** The promotion to binary64 of a value that binary64 holds exactly. *)
Definition to_float64 (x : spec_float) : spec_float :=
  match x with
  | S754_finite s m e => binary_round 53 1024 s m e
  | _ => x
  end.

(** The binary64 nearest to [m * 10 ^ e10], with sign [neg]. *)
Definition of_decimal (neg : bool) (m : Z) (e10 : Z) : spec_float :=
  match m with
  | Zpos p =>
      if 0 <=? e10
      then binary_normalize 53 1024 (cond_Zopp neg (Zpos p * 10 ^ e10)) 0 neg
      else SFdiv 53 1024 (S754_finite neg p 0)
                         (S754_finite false (Z.to_pos (10 ^ (- e10))) 0)
  | _ => S754_zero neg
  end.

(** A run of digits, single underscores allowed between two digits:
    the accumulated value, the number of digits read and what is left. *)
Fixpoint scan_digits (s : string) (acc n : Z) (after_digit : bool)
  : Z * Z * string :=
  match s with
  | EmptyString => (acc, n, s)
  | String c s' =>
      match Str.digit_of c with
      | Some d => scan_digits s' (10 * acc + d) (n + 1) true
      | None =>
          if Ascii.eqb c "_"%char && after_digit then
            match s' with
            | String c2 _ =>
                match Str.digit_of c2 with
                | Some _ => scan_digits s' acc n false
                | None => (acc, n, s)
                end
            | EmptyString => (acc, n, s)
            end
          else (acc, n, s)
      end
  end.

(** [e] or [E], an optional sign and a run of digits, up to the end. *)
Definition exponent (s : string) : option Z :=
  match s with
  | EmptyString => Some 0
  | String c r =>
      if Ascii.eqb c "e"%char || Ascii.eqb c "E"%char then
        let '(neg, r') :=
          match r with
          | String "+" t => (false, t)
          | String "-" t => (true, t)
          | _ => (false, r)
          end in
        match scan_digits r' 0 0 false with
        | (v, n, EmptyString) =>
            if 0 <? n then Some (cond_Zopp neg v) else None
        | _ => None
        end
      else None
  end.

(** [digits [. [digits]] [exponent]] or [. digits [exponent]]. *)
Definition number (neg : bool) (t : string) : option spec_float :=
  let '(ip, ni, r1) := scan_digits t 0 0 false in
  let '(m, nf, r2) :=
    match r1 with
    | String "." r => scan_digits r ip 0 false
    | _ => (ip, 0, r1)
    end in
  if (ni =? 0) && (nf =? 0) then None
  else match exponent r2 with
       | Some ex => Some (of_decimal neg m (ex - nf))
       | None => None
       end.

(** [float(s)] for a string [s]. *)
Definition of_string (s : string) : result spec_float :=
  let t := Str.skip_blanks s in
  let '(neg, body) :=
    match t with
    | String "+" r => (false, r)
    | String "-" r => (true, r)
    | _ => (false, t)
    end in
  let word := Str.lower body in
  if String.eqb word "inf" || String.eqb word "infinity"
  then Ok (S754_infinity neg)
  else if String.eqb word "nan" then Ok S754_nan
  else match number neg body with
       | Some x => Ok x
       | None => Raise ValueError
       end.

(** [float(x)] for the text of an element: [None] is a type error. *)
Definition float (x : option string) : result spec_float :=
  match x with
  | Some s => of_string s
  | None => Raise TypeError
  end.

End Float.

(** ** Arrays

    An [ndarray] is a shape and its elements in row-major order. *)

Module Np.

Record ndarray (A : Type) : Type := mk { shape : list nat; data : list A }.
Arguments mk {A} shape data.
Arguments shape {A} n.
Arguments data {A} n.

Definition ndim {A} (a : ndarray A) : nat := List.length (shape a).

(** The number of elements of an array of shape [s]. *)
Definition size (s : list nat) : nat := fold_right Nat.mul 1%nat s.

(** The first [n] consecutive blocks of [k] elements of [l]. *)
Fixpoint chunks {A} (n k : nat) (l : list A) : list (list A) :=
  match n with
  | O => []
  | S n' => firstn k l :: chunks n' k (skipn k l)
  end.

Fixpoint zip_app {A} (xs ys : list (list A)) : list (list A) :=
  match xs, ys with
  | x :: xs', y :: ys' => (x ++ y) :: zip_app xs' ys'
  | _, _ => []
  end.

Fixpoint select {A} (xs : list A) (m : list bool) : list A :=
  match xs, m with
  | x :: xs', b :: m' => if b then x :: select xs' m' else select xs' m'
  | _, _ => []
  end.

Definition shape_eqb (s1 s2 : list nat) : bool :=
  if list_eq_dec Nat.eq_dec s1 s2 then true else false.

Definition map {A B} (f : A -> B) (a : ndarray A) : ndarray B :=
  mk (shape a) (List.map f (data a)).

(** [np.array(l)] for a list of scalars. *)
Definition array1 {A} (l : list A) : ndarray A := mk [List.length l] l.

(** [np.array(rows)] for a list of equally long lists of scalars; the
    empty list gives shape [(0,)]. *)
Definition array2 {A} (rows : list (list A)) : ndarray A :=
  match rows with
  | [] => mk [0%nat] []
  | r :: _ => mk [List.length rows; List.length r] (List.concat rows)
  end.

(** [np.array(l)] for a list of arrays: the arrays stacked along a new
    leading axis. Arrays of different shapes do not stack; a numpy that
    builds a one-dimensional array of objects from them instead fails
    later, at the concatenation along axis 2. *)
Definition stack {A} (l : list (ndarray A)) : result (ndarray A) :=
  match l with
  | [] => Ok (mk [0%nat] [])
  | a :: rest =>
      if forallb (fun b => shape_eqb (shape b) (shape a)) rest
      then Ok (mk (List.length l :: shape a) (List.concat (List.map data l)))
      else Raise ValueError
  end.

(** [np.expand_dims(a, axis)] for a non-negative [axis]; an axis beyond
    the rank is an axis error. *)
Definition expand_dims {A} (a : ndarray A) (axis : nat) : result (ndarray A) :=
  if (axis <=? ndim a)%nat
  then Ok (mk (firstn axis (shape a) ++ 1%nat :: skipn axis (shape a)) (data a))
  else Raise AxisError.

(** [np.concatenate([a, b], axis=axis)] for a non-negative [axis]. *)
Definition concatenate {A} (a b : ndarray A) (axis : nat) : result (ndarray A) :=
  let sa := shape a in
  let sb := shape b in
  match sa with
  | [] => Raise ValueError
  | _ =>
      if negb (axis <? ndim a)%nat then Raise AxisError
      else if negb (ndim b =? ndim a)%nat then Raise ValueError
      else if negb (shape_eqb (firstn axis sa) (firstn axis sb)
                    && shape_eqb (skipn (S axis) sa) (skipn (S axis) sb))
      then Raise ValueError
      else
        let outer := size (firstn axis sa) in
        Ok (mk (firstn axis sa
                  ++ (nth axis sa 0 + nth axis sb 0)%nat :: skipn (S axis) sa)
               (List.concat (zip_app (chunks outer (size (skipn axis sa)) (data a))
                                (chunks outer (size (skipn axis sb)) (data b)))))
  end.

(** [a[m]] for a one-dimensional boolean array [m]: the entries of [a]
    along its first axis at which [m] holds. *)
Definition mask {A} (a : ndarray A) (m : ndarray bool) : result (ndarray A) :=
  match shape a, shape m with
  | n :: rest, [k] =>
      if (n =? k)%nat then
        let kept := select (chunks n (size rest) (data a)) (data m) in
        Ok (mk (List.length kept :: rest) (List.concat kept))
      else Raise IndexError
  | _, _ => Raise IndexError
  end.

(** [np.arange(start, stop)] for integers. *)
Definition arange (start stop : Z) : list Z :=
  List.map (fun k => start + Z.of_nat k) (seq 0 (Z.to_nat (stop - start))).

End Np.

(** ** XML elements, as [xml.etree.ElementTree] gives them *)

Module ET.

#[warnings="-register-all"]
Inductive element : Type :=
| Element (tag : string) (text : option string) (children : list element).

Definition tag (e : element) : string :=
  match e with Element t _ _ => t end.
Definition text (e : element) : option string :=
  match e with Element _ x _ => x end.
Definition children (e : element) : list element :=
  match e with Element _ _ c => c end.

(** [e.find(name)]: the first child with that tag. *)
Definition find (e : element) (name : string) : option element :=
  List.find (fun c => String.eqb (tag c) name) (children e).

(** [e.findall(name)]: the children with that tag, in document order. *)
Definition findall (e : element) (name : string) : list element :=
  List.filter (fun c => String.eqb (tag c) name) (children e).

End ET.

(** ** The world outside the adapter *)

Definition Image : Type := Np.ndarray spec_float.
Definition Boxes : Type := Np.ndarray spec_float.
Definition Labels : Type := Np.ndarray Z.

(** The callables handed to the constructor. [call] is the transform
    applied to an image with its boxes and labels; [call_image] is the
    transform applied to an image alone, unpacked to the first of its two
    results. *)
Record Transform : Type := {
  call : Image -> Boxes -> Labels -> result (Image * Boxes * Labels);
  call_image : Image -> result Image
}.
Definition TargetTransform : Type :=
  Boxes -> Labels -> result (Boxes * Labels).

Inductive node : Type :=
| File (content : string)
| Directory.

Record World : Type := {
  (** what each path names; a text file holds what [read()] returns *)
  fs : string -> option node;
  (** [TFRecordDataset(path)], the record reader *)
  TFRecordDataset : string -> result unit;
  (** [tf.FixedLenFeature([], tf.int64)] *)
  FixedLenFeature : result unit;
  (** [ET.parse(path)], the root element of the document *)
  ET_parse : string -> result ET.element;
  (** [cv2.imread] followed by [cv2.cvtColor] *)
  cv2_read : string -> result Image;
  (** [np.random.shuffle] *)
  shuffle : list Z -> list Z
}.

(** [root / name] for a relative [name]: a path that names the same file
    as the one [pathlib] forms; the empty root is the current directory. *)
Definition path_join (root name : string) : string :=
  match root with
  | EmptyString => name
  | _ => String.append root (String.append "/" name)
  end.
Arguments path_join : simpl never.

Definition isfile (w : World) (p : string) : bool :=
  match fs w p with
  | Some (File _) => true
  | _ => false
  end.

Definition exists_ (w : World) (p : string) : bool :=
  match fs w p with
  | Some _ => true
  | None => false
  end.

(** [open(p, 'r')] and the text of the file. *)
Definition open_read (w : World) (p : string) : result string :=
  match fs w p with
  | Some (File c) => Ok c
  | Some Directory => Raise IsADirectoryError
  | None => Raise FileNotFoundError
  end.

(** ** The object *)

Record RecordDataset : Type := {
  root : option string;
  batch_size : option Z;
  transform : option (option Transform);
  target_transform : option (option TargetTransform);
  num_records : option Z;
  dataset : option unit;
  keep_difficult : option bool;
  num_batches : option Z;
  ids : option (list string);
  class_names : option (list string);
  class_dict : option Dict.t;
  feature_list : option unit
}.

(** The object before [__init__] has assigned anything. *)
Definition blank : RecordDataset :=
  {| root := None; batch_size := None; transform := None;
     target_transform := None; num_records := None; dataset := None;
     keep_difficult := None; num_batches := None; ids := None;
     class_names := None; class_dict := None; feature_list := None |}.

Definition set_root v (o : RecordDataset) : RecordDataset :=
  {| root := Some v; batch_size := batch_size o; transform := transform o;
     target_transform := target_transform o; num_records := num_records o;
     dataset := dataset o; keep_difficult := keep_difficult o;
     num_batches := num_batches o; ids := ids o;
     class_names := class_names o; class_dict := class_dict o;
     feature_list := feature_list o |}.

Definition set_batch_size v (o : RecordDataset) : RecordDataset :=
  {| root := root o; batch_size := Some v; transform := transform o;
     target_transform := target_transform o; num_records := num_records o;
     dataset := dataset o; keep_difficult := keep_difficult o;
     num_batches := num_batches o; ids := ids o;
     class_names := class_names o; class_dict := class_dict o;
     feature_list := feature_list o |}.

Definition set_transform v (o : RecordDataset) : RecordDataset :=
  {| root := root o; batch_size := batch_size o; transform := Some v;
     target_transform := target_transform o; num_records := num_records o;
     dataset := dataset o; keep_difficult := keep_difficult o;
     num_batches := num_batches o; ids := ids o;
     class_names := class_names o; class_dict := class_dict o;
     feature_list := feature_list o |}.

Definition set_target_transform v (o : RecordDataset) : RecordDataset :=
  {| root := root o; batch_size := batch_size o; transform := transform o;
     target_transform := Some v; num_records := num_records o;
     dataset := dataset o; keep_difficult := keep_difficult o;
     num_batches := num_batches o; ids := ids o;
     class_names := class_names o; class_dict := class_dict o;
     feature_list := feature_list o |}.

Definition set_num_records v (o : RecordDataset) : RecordDataset :=
  {| root := root o; batch_size := batch_size o; transform := transform o;
     target_transform := target_transform o; num_records := Some v;
     dataset := dataset o; keep_difficult := keep_difficult o;
     num_batches := num_batches o; ids := ids o;
     class_names := class_names o; class_dict := class_dict o;
     feature_list := feature_list o |}.

Definition set_dataset v (o : RecordDataset) : RecordDataset :=
  {| root := root o; batch_size := batch_size o; transform := transform o;
     target_transform := target_transform o; num_records := num_records o;
     dataset := Some v; keep_difficult := keep_difficult o;
     num_batches := num_batches o; ids := ids o;
     class_names := class_names o; class_dict := class_dict o;
     feature_list := feature_list o |}.

Definition set_keep_difficult v (o : RecordDataset) : RecordDataset :=
  {| root := root o; batch_size := batch_size o; transform := transform o;
     target_transform := target_transform o; num_records := num_records o;
     dataset := dataset o; keep_difficult := Some v;
     num_batches := num_batches o; ids := ids o;
     class_names := class_names o; class_dict := class_dict o;
     feature_list := feature_list o |}.

Definition set_num_batches v (o : RecordDataset) : RecordDataset :=
  {| root := root o; batch_size := batch_size o; transform := transform o;
     target_transform := target_transform o; num_records := num_records o;
     dataset := dataset o; keep_difficult := keep_difficult o;
     num_batches := Some v; ids := ids o;
     class_names := class_names o; class_dict := class_dict o;
     feature_list := feature_list o |}.

Definition set_class_names v (o : RecordDataset) : RecordDataset :=
  {| root := root o; batch_size := batch_size o; transform := transform o;
     target_transform := target_transform o; num_records := num_records o;
     dataset := dataset o; keep_difficult := keep_difficult o;
     num_batches := num_batches o; ids := ids o;
     class_names := Some v; class_dict := class_dict o;
     feature_list := feature_list o |}.

Definition set_class_dict v (o : RecordDataset) : RecordDataset :=
  {| root := root o; batch_size := batch_size o; transform := transform o;
     target_transform := target_transform o; num_records := num_records o;
     dataset := dataset o; keep_difficult := keep_difficult o;
     num_batches := num_batches o; ids := ids o;
     class_names := class_names o; class_dict := Some v;
     feature_list := feature_list o |}.

Definition set_feature_list v (o : RecordDataset) : RecordDataset :=
  {| root := root o; batch_size := batch_size o; transform := transform o;
     target_transform := target_transform o; num_records := num_records o;
     dataset := dataset o; keep_difficult := keep_difficult o;
     num_batches := num_batches o; ids := ids o;
     class_names := class_names o; class_dict := class_dict o;
     feature_list := Some v |}.

(** ** Statements that assign to [self]

    A statement maps the object to the object it leaves and to its
    outcome; what was assigned before an exception stays assigned. *)

Definition Stmt (A : Type) : Type := RecordDataset -> RecordDataset * result A.

Definition ret {A} (a : A) : Stmt A := fun o => (o, Ok a).

Definition seq_ {A B} (c : Stmt A) (k : A -> Stmt B) : Stmt B :=
  fun o =>
    match c o with
    | (o', Ok a) => k a o'
    | (o', Raise e) => (o', Raise e)
    end.

(** An expression that reads [self] and may raise. *)
Definition eval {A} (f : RecordDataset -> result A) : Stmt A :=
  fun o => (o, f o).

(** An assignment to an attribute of [self]. *)
Definition assign (f : RecordDataset -> RecordDataset) : Stmt unit :=
  fun o => (f o, Ok tt).

Notation "x <~ c ;; k" := (seq_ c (fun x => k))
  (at level 61, c at next level, right associativity) : py_scope.
Notation "c ;;; k" := (seq_ c (fun _ => k))
  (at level 61, right associativity) : py_scope.

Local Open Scope py_scope.

(** ** Construction *)

(** [a // b] on integers. *)
Definition floordiv (a b : Z) : result Z :=
  if b =? 0 then Raise ZeroDivisionError else Ok (a / b).

Definition len {A} (l : list A) : Z := Z.of_nat (List.length l).

(** Lines 27-36: the record source of the split and its record count. *)
Definition select_split (w : World) (is_test : bool) : Stmt string :=
  r <~ eval (fun o => getattr (root o)) ;;
  if is_test then
    let image_sets_file := path_join r "val.record" in
    if isfile w (path_join r "num_val.txt") then
      f <~ eval (fun _ => open_read w (path_join r "num_val.txt")) ;;
      n <~ eval (fun _ => Str.int f) ;;
      assign (set_num_records n) ;;;
      ret image_sets_file
    else ret image_sets_file
  else
    let image_sets_file := path_join r "train.record" in
    if isfile w (path_join r "num_val.txt") then
      f <~ eval (fun _ => open_read w (path_join r "num_train.txt")) ;;
      n <~ eval (fun _ => Str.int f) ;;
      assign (set_num_records n) ;;;
      ret image_sets_file
    else ret image_sets_file.

(** Lines 38-40: the record reader and the number of batches. *)
Definition open_dataset (w : World) (image_sets_file : string)
  (keep_difficult_ : bool) : Stmt unit :=
  d <~ eval (fun _ => TFRecordDataset w image_sets_file) ;;
  assign (set_dataset d) ;;;
  assign (set_keep_difficult keep_difficult_) ;;;
  n <~ eval (fun o => l <- getattr (ids o) ;;
                      b <- getattr (batch_size o) ;;
                      floordiv (len l) b) ;;
  assign (set_num_batches n).

Definition VOC_CLASSES : list string :=
  ["BACKGROUND";
   "aeroplane"; "bicycle"; "bird"; "boat";
   "bottle"; "bus"; "car"; "cat"; "chair";
   "cow"; "diningtable"; "dog"; "horse";
   "motorbike"; "person"; "pottedplant";
   "sheep"; "sofa"; "train"; "tvmonitor"].

(** Lines 46-49: the lines of the label file, each without its trailing
    whitespace, one after the other. *)
Definition class_string (f : string) : string :=
  fold_left (fun acc line => String.append acc (Str.rstrip line))
            (Str.lines f) "".

(** Lines 53-56: the class names of a label file with text [f]. *)
Definition read_class_names (f : string) : list string :=
  let classes := Str.split "," (class_string f) in
  let classes := "BACKGROUND" :: classes in
  List.map (Str.remove_char " ") classes.

(** Lines 43-67: the class names, from the label file when there is one. *)
Definition load_class_names (w : World) : Stmt unit :=
  r <~ eval (fun o => getattr (root o)) ;;
  let label_file_name := path_join r "label_map.txt" in
  if isfile w label_file_name then
    f <~ eval (fun _ => open_read w label_file_name) ;;
    assign (set_class_names (read_class_names f))
  else
    assign (set_class_names VOC_CLASSES).

(** Line 69: the class dictionary. *)
Definition build_class_dict : Stmt unit :=
  names <~ eval (fun o => getattr (class_names o)) ;;
  assign (set_class_dict (Dict.of_enumerate names 0 [])).

(** Lines 70-72. *)
Definition build_feature_list (w : World) : Stmt unit :=
  f <~ eval (fun _ => FixedLenFeature w) ;;
  assign (set_feature_list f).

Definition __init__ (w : World) (root_ : string)
  (transform_ : option Transform) (target_transform_ : option TargetTransform)
  (is_test keep_difficult_ : bool) (batch_size_ : Z) : Stmt unit :=
  assign (set_root root_) ;;;
  assign (set_batch_size batch_size_) ;;;
  assign (set_transform transform_) ;;;
  assign (set_target_transform target_transform_) ;;;
  image_sets_file <~ select_split w is_test ;;
  open_dataset w image_sets_file keep_difficult_ ;;;
  load_class_names w ;;;
  build_class_dict ;;;
  build_feature_list w.

(** [RecordDataset(root, ...)]: the object, when [__init__] returns. *)
Definition construct (w : World) (root_ : string)
  (transform_ : option Transform) (target_transform_ : option TargetTransform)
  (is_test keep_difficult_ : bool) (batch_size_ : Z) : result RecordDataset :=
  match __init__ w root_ transform_ target_transform_
                 is_test keep_difficult_ batch_size_ blank with
  | (o, Ok _) => Ok o
  | (_, Raise e) => Raise e
  end.

(** ** Annotations *)

(** [l[i]] for a list: a negative index counts from the end. *)
Definition getitem {A} (l : list A) (i : Z) : result A :=
  let j := if i <? 0 then i + len l else i in
  if (0 <=? j) && (j <? len l) then
    match nth_error l (Z.to_nat j) with
    | Some x => Ok x
    | None => Raise IndexError
    end
  else Raise IndexError.

(** [d[k]] for a dictionary. *)
Definition lookup (d : Dict.t) (k : string) : result Z :=
  match Dict.get d k with
  | Some v => Ok v
  | None => Raise KeyError
  end.

(** The conversion of an integer to [np.uint8]: its value modulo 256,
    for an integer that fits a C long. *)
Definition to_uint8 (z : Z) : Z := z mod 256.

(** [float(bbox.find(name).text) - 1] *)
Definition coordinate (bbox : option ET.element) (name : string)
  : result spec_float :=
  b <- getattr bbox ;;
  e <- getattr (ET.find b name) ;;
  v <- Float.float (ET.text e) ;;
  Ok (Float.sub v (Float.of_Z 1)).

(** [int(s) if s else 0] *)
Definition difficult_flag (is_difficult_str : option string) : result Z :=
  match is_difficult_str with
  | None => Ok 0
  | Some EmptyString => Ok 0
  | Some s => Str.int s
  end.

Definition Detections : Type := list (list spec_float) * list Z * list Z.

(** Lines 146-161: the loop over the object elements. *)
Fixpoint annotation_loop (self : RecordDataset) (objects : list ET.element)
  (boxes : list (list spec_float)) (labels is_difficult : list Z)
  : result Detections :=
  match objects with
  | [] => Ok (boxes, labels, is_difficult)
  | object :: rest =>
      name <- getattr (ET.find object "name") ;;
      t <- getattr (ET.text name) ;;
      let class_name := Str.strip (Str.lower t) in
      d <- getattr (class_dict self) ;;
      if Dict.mem d class_name then
        let bbox := ET.find object "bndbox" in
        x1 <- coordinate bbox "xmin" ;;
        y1 <- coordinate bbox "ymin" ;;
        x2 <- coordinate bbox "xmax" ;;
        y2 <- coordinate bbox "ymax" ;;
        label <- lookup d class_name ;;
        difficult <- getattr (ET.find object "difficult") ;;
        flag <- difficult_flag (ET.text difficult) ;;
        annotation_loop self rest (boxes ++ [[x1; y1; x2; y2]])
                        (labels ++ [label]) (is_difficult ++ [flag])
      else annotation_loop self rest boxes labels is_difficult
  end.

Definition Annotation : Type := Boxes * Labels * Np.ndarray Z.

(** Lines 163-165: the three lists as arrays. *)
Definition as_arrays (d : Detections) : Annotation :=
  let '(boxes, labels, is_difficult) := d in
  (Np.array2 (List.map (List.map Float.to_float32) boxes),
   Np.array1 labels,
   Np.array1 (List.map to_uint8 is_difficult)).

Definition annotation_path (r image_id : string) : string :=
  path_join r (String.append "Annotations/" (String.append image_id ".xml")).

Definition _get_annotation (self : RecordDataset) (w : World)
  (image_id : string) : result Annotation :=
  r <- getattr (root self) ;;
  tree <- ET_parse w (annotation_path r image_id) ;;
  let objects := ET.findall tree "object" in
  d <- annotation_loop self objects [] [] [] ;;
  Ok (as_arrays d).

Definition image_path (r image_id : string) : string :=
  path_join r (String.append "JPEGImages/" (String.append image_id ".jpg")).

Definition _read_image (self : RecordDataset) (w : World)
  (image_id : string) : result Image :=
  r <- getattr (root self) ;;
  cv2_read w (image_path r image_id).

(** ** The public operations *)

Definition __len__ (self : RecordDataset) : result Z :=
  l <- getattr (ids self) ;;
  Ok (len l).

Definition get_annotation (self : RecordDataset) (w : World) (index : Z)
  : result (string * Annotation) :=
  l <- getattr (ids self) ;;
  image_id <- getitem l index ;;
  a <- _get_annotation self w image_id ;;
  Ok (image_id, a).

Definition get_image (self : RecordDataset) (w : World) (index : Z)
  : result Image :=
  l <- getattr (ids self) ;;
  image_id <- getitem l index ;;
  image <- _read_image self w image_id ;;
  t <- getattr (transform self) ;;
  match t with
  | Some f => call_image f image
  | None => Ok image
  end.

(** The lines of an index file, each without its trailing whitespace. *)
Definition _read_image_ids (w : World) (image_sets_file : string)
  : result (list string) :=
  f <- open_read w image_sets_file ;;
  Ok (fold_left (fun ids line => ids ++ [Str.rstrip line]) (Str.lines f) []).

(** ** Batch retrieval *)

Definition Batch : Type := Image * Np.ndarray spec_float.

(** Lines 90-93: the sample indices of batch [idx], before the shuffle. *)
Definition batch_range (self : RecordDataset) (idx : Z) : result (list Z) :=
  b <- getattr (batch_size self) ;;
  let end_ := (idx + 1) * b in
  l <- getattr (ids self) ;;
  let end_ := if end_ >=? len l then len l - 1 else end_ in
  Ok (Np.arange (idx * b) end_).

(** Lines 98-100: the detections whose difficulty flag is 0. *)
Definition drop_difficult (boxes : Boxes) (labels : Labels)
  (is_difficult : Np.ndarray Z) : result (Boxes * Labels) :=
  let m := Np.map (fun d => d =? 0) is_difficult in
  boxes' <- Np.mask boxes m ;;
  labels' <- Np.mask labels m ;;
  Ok (boxes', labels').

(** Lines 96-105: one sample, as it is appended to the three lists. *)
Definition fetch (self : RecordDataset) (w : World) (i : Z)
  : result (Image * Boxes * Labels) :=
  l <- getattr (ids self) ;;
  image_id <- getitem l i ;;
  a <- _get_annotation self w image_id ;;
  let '(boxes, labels, is_difficult) := a in
  k <- getattr (keep_difficult self) ;;
  bl <- (if negb k then drop_difficult boxes labels is_difficult
         else Ok (boxes, labels)) ;;
  let '(boxes, labels) := bl in
  image <- _read_image self w image_id ;;
  t <- getattr (transform self) ;;
  ibl <- match t with
         | Some f => call f image boxes labels
         | None => Ok (image, boxes, labels)
         end ;;
  let '(image, boxes, labels) := ibl in
  tt <- getattr (target_transform self) ;;
  bl <- match tt with
        | Some f => f boxes labels
        | None => Ok (boxes, labels)
        end ;;
  let '(boxes, labels) := bl in
  Ok (image, boxes, labels).

(** Lines 111-116: the batch of the accumulated samples. Concatenating
    the boxes with the integer labels promotes both to binary64. *)
Definition assemble (inputs : list Image) (target1 : list Boxes)
  (target2 : list Labels) : result Batch :=
  tmp_inputs <- Np.stack inputs ;;
  let tmp_inputs := Np.map Float.to_float32 tmp_inputs in
  tmp_target1 <- Np.stack target1 ;;
  tmp_target2 <- Np.stack target2 ;;
  tmp_target2 <- Np.expand_dims tmp_target2 2 ;;
  tmp_target <- Np.concatenate (Np.map Float.to_float64 tmp_target1)
                               (Np.map Float.of_Z tmp_target2) 2 ;;
  Ok (tmp_inputs, tmp_target).

(** Lines 95-116: the loop over the shuffled indices. Next to the outcome
    it gives the indices whose samples it looked up, in that order; the
    outcome [Ok None] is the loop running out without a return. *)
Fixpoint batch_loop (self : RecordDataset) (w : World) (idxs : list Z)
  (inputs : list Image) (target1 : list Boxes) (target2 : list Labels)
  : list Z * result (option Batch) :=
  match idxs with
  | [] => ([], Ok None)
  | i :: rest =>
      match fetch self w i with
      | Raise e => ([i], Raise e)
      | Ok (image, boxes, labels) =>
          let inputs := inputs ++ [image] in
          let target1 := target1 ++ [boxes] in
          let target2 := target2 ++ [labels] in
          match getattr (batch_size self) with
          | Raise e => ([i], Raise e)
          | Ok b =>
              if len target1 =? b then
                ([i], batch <- assemble inputs target1 target2 ;; Ok (Some batch))
              else
                let '(drawn, r) := batch_loop self w rest inputs target1 target2 in
                (i :: drawn, r)
          end
      end
  end.

Definition __getitem__ (self : RecordDataset) (w : World) (idx : Z)
  : list Z * result (option Batch) :=
  match batch_range self idx with
  | Raise e => ([], Raise e)
  | Ok idxs => batch_loop self w (shuffle w idxs) [] [] []
  end.


(** ** Notions used in the statements *)

(** The record source and the count file of a split. *)
Definition split_record (is_test : bool) : string :=
  if is_test then "val.record" else "train.record".

Definition split_count (is_test : bool) : string :=
  if is_test then "num_val.txt" else "num_train.txt".

(** The class name of an object element, as line 147 computes it. *)
Definition class_name_of (object : ET.element) : result string :=
  name <- getattr (ET.find object "name") ;;
  t <- getattr (ET.text name) ;;
  Ok (Str.strip (Str.lower t)).

(** The objects the loop keeps: those whose class name is a key. *)
Definition recognized (d : Dict.t) (object : ET.element) : bool :=
  match class_name_of object with
  | Ok c => Dict.mem d c
  | Raise _ => false
  end.

(** The text of a field of the bounding box of an object. *)
Definition field_text (object : ET.element) (field : string) : option string :=
  match ET.find object "bndbox" with
  | Some b => match ET.find b field with
              | Some e => ET.text e
              | None => None
              end
  | None => None
  end.

(** The number parsed from a field of the bounding box of an object. *)
Definition parsed (object : ET.element) (field : string) : result spec_float :=
  b <- getattr (ET.find object "bndbox") ;;
  e <- getattr (ET.find b field) ;;
  Float.float (ET.text e).

(** Lines 150-157: the box of an object. *)
Definition box_of (object : ET.element) : result (list spec_float) :=
  let bbox := ET.find object "bndbox" in
  x1 <- coordinate bbox "xmin" ;;
  y1 <- coordinate bbox "ymin" ;;
  x2 <- coordinate bbox "xmax" ;;
  y2 <- coordinate bbox "ymax" ;;
  Ok [x1; y1; x2; y2].

(** A detection: its box, its label and its difficulty flag. *)
Definition Detection : Type := list spec_float * Z * Z.

Definition box (det : Detection) : list spec_float := fst (fst det).
Definition label (det : Detection) : Z := snd (fst det).
Definition flag (det : Detection) : Z := snd det.

(** Lines 150-161: what the loop appends for an object it keeps. *)
Definition detection_of (d : Dict.t) (object : ET.element) : result Detection :=
  c <- class_name_of object ;;
  b <- box_of object ;;
  l <- lookup d c ;;
  difficult <- getattr (ET.find object "difficult") ;;
  f <- difficult_flag (ET.text difficult) ;;
  Ok (b, l, f).

(** The detections of a list of object elements, in document order. *)
Fixpoint detections (d : Dict.t) (objects : list ET.element)
  : result (list Detection) :=
  match objects with
  | [] => Ok []
  | object :: rest =>
      c <- class_name_of object ;;
      if Dict.mem d c then
        det <- detection_of d object ;;
        dets <- detections d rest ;;
        Ok (det :: dets)
      else detections d rest
  end.

(** The row returned for an object: the four numbers parsed from its
    box, each less 1 in binary64 and then rounded to binary32. *)
Definition returned_box (object : ET.element) (row : list spec_float) : Prop :=
  exists x1 y1 x2 y2,
    parsed object "xmin" = Ok x1 /\ parsed object "ymin" = Ok y1
    /\ parsed object "xmax" = Ok x2 /\ parsed object "ymax" = Ok y2
    /\ row = List.map Float.to_float32
                [Float.sub x1 (Float.of_Z 1); Float.sub y1 (Float.of_Z 1);
                 Float.sub x2 (Float.of_Z 1); Float.sub y2 (Float.of_Z 1)].

(** The flag returned for an object: that of the text of its
    [difficult] element, which is there. *)
Definition returned_flag (object : ET.element) (f : Z) : Prop :=
  exists e, ET.find object "difficult" = Some e
            /\ difficult_flag (ET.text e) = Ok f.

(** A sample, as the loop of batch retrieval appends it. *)
Definition Fetched : Type := Image * Boxes * Labels.

Definition sample_image (s : Fetched) : Image := fst (fst s).
Definition sample_boxes (s : Fetched) : Boxes := snd (fst s).
Definition sample_labels (s : Fetched) : Labels := snd s.

(** The detections an annotation holds: the rows of its boxes array,
    each with its label and its difficulty flag. *)
Definition detections_in (a : Annotation) : list Detection :=
  let '(boxes, labels, is_difficult) := a in
  combine (combine (Np.chunks (List.length (Np.data labels)) 4 (Np.data boxes))
                   (Np.data labels))
          (Np.data is_difficult).

(** A detection as the arrays store it: its box in single precision and
    its flag as an unsigned byte. *)
Definition stored (det : Detection) : Detection :=
  (List.map Float.to_float32 (box det), label det, to_uint8 (flag det)).

(** The arrays of a list of detections. *)
Definition arrays_of (dets : list Detection) : Annotation :=
  (Np.array2 (List.map box dets), Np.array1 (List.map label dets),
   Np.array1 (List.map flag dets)).

(** A detection whose difficulty flag is 0. *)
Definition easy (det : Detection) : bool := flag det =? 0.

(** The detections of an annotation that lines 98-100 keep. *)
Definition kept_detections (a : Annotation) : list Detection :=
  List.filter easy (detections_in a).

(** The boxes and the labels of the kept detections of an annotation, as
    lines 99-100 give them. *)
Definition kept_boxes (a : Annotation) : Boxes :=
  Np.mk (List.length (kept_detections a)
         :: match detections_in a with [] => [] | _ => [4%nat] end)
        (List.concat (List.map box (kept_detections a))).

Definition kept_labels (a : Annotation) : Labels :=
  Np.mk [List.length (kept_detections a)]
        (List.map label (kept_detections a)).

(** Lines 102-105: the transforms, on an image with its boxes and
    labels. *)
Definition apply_transforms (tf : option Transform)
  (ttf : option TargetTransform) (image : Image) (boxes : Boxes)
  (labels : Labels) : result Fetched :=
  ibl <- match tf with
         | Some f => call f image boxes labels
         | None => Ok (image, boxes, labels)
         end ;;
  let '(image, boxes, labels) := ibl in
  bl <- match ttf with
        | Some f => f boxes labels
        | None => Ok (boxes, labels)
        end ;;
  let '(boxes, labels) := bl in
  Ok (image, boxes, labels).

(** A transform that hands back the boxes and the labels it is given,
    so that it brings in no detection. *)
Definition keeps_targets (t : option Transform) : Prop :=
  match t with
  | None => True
  | Some f =>
      forall image boxes labels image' boxes' labels',
        call f image boxes labels = Ok (image', boxes', labels') ->
        boxes' = boxes /\ labels' = labels
  end.

Definition keeps_its_targets (t : option TargetTransform) : Prop :=
  match t with
  | None => True
  | Some f =>
      forall boxes labels boxes' labels',
        f boxes labels = Ok (boxes', labels') ->
        boxes' = boxes /\ labels' = labels
  end.

(** The row of a detection in the combined target: its box, then its
    label. *)
Definition target_row (det : Detection) : list spec_float :=
  List.map Float.to_float64 (box det) ++ [Float.of_Z (label det)].

(** ** Sample worlds *)

Module Sample.

Fixpoint assoc {A} (l : list (string * A)) (k : string) : option A :=
  match l with
  | [] => None
  | (k', v) :: l' => if String.eqb k' k then Some v else assoc l' k
  end.

(** A world with the given files and annotation documents, a record
    reader that accepts every path, one and the same decoded image for every
    image path, and a shuffle that reverses. *)
Definition pixel : Image :=
  Np.mk [1%nat; 1%nat; 3%nat] [Float.of_Z 1; Float.of_Z 2; Float.of_Z 3].

Definition world (files : list (string * node))
  (docs : list (string * ET.element)) : World :=
  {| fs := assoc files;
     TFRecordDataset := fun _ => Ok tt;
     FixedLenFeature := Ok tt;
     ET_parse := fun p => match assoc docs p with
                          | Some d => Ok d
                          | None => Raise FileNotFoundError
                          end;
     cv2_read := fun _ => Ok pixel;
     shuffle := fun l => rev l |}.

(** A root with both record files and an empty [num_val.txt]. *)
Definition empty_count : World :=
  world [("data", Directory); ("data/train.record", File "");
         ("data/val.record", File ""); ("data/num_val.txt", File "")] [].

(** A root with its training record file and nothing else. *)
Definition train_only : World :=
  world [("data", Directory); ("data/train.record", File "")] [].

(** A root with its training record file and the count of the training
    records. *)
Definition train_count : World :=
  world [("data", Directory); ("data/train.record", File "");
         ("data/num_train.txt", File "100")] [].

(** A root with both record files and both counts. *)
Definition both_counts : World :=
  world [("data", Directory); ("data/train.record", File "");
         ("data/val.record", File ""); ("data/num_train.txt", File "100");
         ("data/num_val.txt", File "20")] [].

(** A root whose label file names a class with a space inside. *)
Definition spaced_labels : World :=
  world [("data", Directory); ("data/label_map.txt", File "cat,dining table")]
        [].

Definition leaf (tag text : string) : ET.element :=
  ET.Element tag (Some text) [].

Definition bndbox (xmin ymin xmax ymax : string) : ET.element :=
  ET.Element "bndbox" None
    [leaf "xmin" xmin; leaf "ymin" ymin; leaf "xmax" xmax; leaf "ymax" ymax].

(** A cat that is not difficult, a dog that is, a zebra without a box
    and a cat without a difficulty field. *)
Definition cat : ET.element :=
  ET.Element "object" None
    [leaf "name" "Cat"; leaf "pose" "Left"; bndbox "1" "2" "30" "40";
     leaf "difficult" "0"].

Definition dog : ET.element :=
  ET.Element "object" None
    [leaf "name" " dog"; bndbox "5" "6" "7" "8"; leaf "difficult" "1"].

Definition zebra : ET.element :=
  ET.Element "object" None [leaf "name" "zebra"].

Definition plain_cat : ET.element :=
  ET.Element "object" None [leaf "name" "cat"; bndbox "1" "2" "30" "40"].

Definition empty_flag_cat : ET.element :=
  ET.Element "object" None
    [leaf "name" "cat"; bndbox "1" "2" "30" "40";
     ET.Element "difficult" None []].

(** A cat whose box starts at the pixel 16777218. *)
Definition far_cat : ET.element :=
  ET.Element "object" None
    [leaf "name" "cat"; bndbox "16777218" "2" "16777220" "40";
     leaf "difficult" "0"].

Definition document (objects : list ET.element) : ET.element :=
  ET.Element "annotation" None
    (leaf "filename" "a.jpg" :: objects).

Definition annotated : World :=
  world [("data", Directory)]
        [("data/Annotations/a.xml", document [cat; dog]);
         ("data/Annotations/b.xml", document [zebra; cat]);
         ("data/Annotations/c.xml", document [cat]);
         ("data/Annotations/d.xml", document [plain_cat]);
         ("data/Annotations/e.xml", document [far_cat]);
         ("data/Annotations/f.xml", document [empty_flag_cat])].


(** An object with the samples [a] to [f], the classes cat and dog and
    batches of one sample. *)
Definition adapter : RecordDataset :=
  {| root := Some "data"; batch_size := Some 1; transform := Some None;
     target_transform := Some None; num_records := None; dataset := Some tt;
     keep_difficult := Some false; num_batches := Some 6;
     ids := Some ["a"; "b"; "c"; "d"; "e"; "f"];
     class_names := Some ["BACKGROUND"; "cat"; "dog"];
     class_dict := Some [("BACKGROUND", 0); ("cat", 1); ("dog", 2)];
     feature_list := Some tt |}.

(** A target transform whose boxes have one axis more. *)
Definition thick_boxes : Boxes :=
  Np.mk [1%nat; 2%nat; 3%nat] (repeat (Float.of_Z 0) 6).

Definition thick_labels : Labels := Np.mk [1%nat; 3%nat] [7; 8; 9].

Definition thick : TargetTransform :=
  fun _ _ => Ok (thick_boxes, thick_labels).

Definition thick_adapter : RecordDataset :=
  {| root := Some "data"; batch_size := Some 1; transform := Some None;
     target_transform := Some (Some thick); num_records := None;
     dataset := Some tt; keep_difficult := Some false; num_batches := Some 6;
     ids := Some ["a"; "b"; "c"; "d"; "e"; "f"];
     class_names := Some ["BACKGROUND"; "cat"; "dog"];
     class_dict := Some [("BACKGROUND", 0); ("cat", 1); ("dog", 2)];
     feature_list := Some tt |}.

(** No file system at all. *)
Definition nothing : World := world [] [].

End Sample.

(** The class names as the specification words them: the line of the
    label file split on commas, each token without its surrounding
    whitespace, behind the background class. *)
Definition stated_class_names (f : string) : list string :=
  "BACKGROUND" :: List.map Str.strip (Str.split "," f).


(** ** Further notions *)

Definition newline : ascii := "010"%char.

(** Whether the character [c] occurs in [s], and how often. *)
Fixpoint has_char (c : ascii) (s : string) : bool :=
  match s with
  | EmptyString => false
  | String d s' => Ascii.eqb d c || has_char c s'
  end.

Fixpoint count_char (c : ascii) (s : string) : nat :=
  match s with
  | EmptyString => O
  | String d s' => ((if Ascii.eqb d c then 1 else 0) + count_char c s')%nat
  end.

(** Whether [s] is made of whitespace only. *)
Fixpoint all_spaces (s : string) : bool :=
  match s with
  | EmptyString => true
  | String d s' => Str.is_space d && all_spaces s'
  end.

(** An ASCII capital letter. *)
Definition is_capital (c : ascii) : bool :=
  ((65 <=? Str.code c) && (Str.code c <=? 90))%nat.

(** Whether [s] holds an ASCII capital letter. *)
Fixpoint has_capital (s : string) : bool :=
  match s with
  | EmptyString => false
  | String d s' => is_capital d || has_capital s'
  end.

(** The last position of [k] in [names]. *)
Definition last_position (names : list string) (k : string) (n : nat) : Prop :=
  nth_error names n = Some k
  /\ forall j, (n < j)%nat -> nth_error names j <> Some k.

(** The boxes and the labels of an annotation. *)
Definition annotation_boxes (a : Annotation) : Boxes := fst (fst a).
Definition annotation_labels (a : Annotation) : Labels := snd (fst a).
Definition annotation_flags (a : Annotation) : Np.ndarray Z := snd a.

(** An index file of three lines, the last without a newline. *)
Definition index_file : World :=
  Sample.world
    [("data/train.txt",
      File (String.append "a  " (String "010"
             (String.append "b" (String "009" (String "010" "c"))))))] [].

(** The sample adapter with batches of two samples. *)
Definition pairs_adapter : RecordDataset :=
  set_batch_size 2 Sample.adapter.

(** The sample adapter keeping the difficult detections. *)
Definition keeping_adapter : RecordDataset :=
  set_keep_difficult true Sample.adapter.

(** A cat whose [difficult] element holds a blank. *)
Definition blank_flag_cat : ET.element :=
  ET.Element "object" None
    [Sample.leaf "name" "cat"; Sample.bndbox "1" "2" "30" "40";
     Sample.leaf "difficult" " "].

Definition blank_flag_world : World :=
  Sample.world [("data", Directory)]
    [("data/Annotations/a.xml",
      Sample.document [Sample.zebra; blank_flag_cat; Sample.dog])].

(** A document without objects, and an adapter without class dictionary. *)
Definition no_objects_world : World :=
  Sample.world [("data", Directory)]
    [("data/Annotations/a.xml", Sample.document [])].

Definition bare_adapter : RecordDataset :=
  set_root "data" blank.

(** A label file of one line with and without its newline. *)
Definition one_line_labels : World :=
  Sample.world [("data/label_map.txt", File "cat, dog")] [].


(** * Properties *)

(** ** Construction *)

(** Case analysis on the outcome the goal branches on first. *)
Ltac break_result :=
  match goal with
  | |- context [match ?x with Ok _ => _ | Raise _ => _ end] =>
      destruct x eqn:?; cbn
  end.

Ltac run_stmt :=
  unfold __init__, select_split, open_dataset, load_class_names,
    build_class_dict, build_feature_list, seq_, eval, assign, ret; cbn.

(** No statement of the constructor assigns [ids], and the constructor
    never returns. *)
Lemma init_raises w r tf ttf is_test kd bs :
  ids (fst (__init__ w r tf ttf is_test kd bs blank)) = None
  /\ exists e, snd (__init__ w r tf ttf is_test kd bs blank) = Raise e.
Proof.
  run_stmt.
  destruct is_test; destruct (isfile w (path_join r "num_val.txt"));
    repeat break_result; cbn; eauto.
Qed.

(** When the count file is not looked at or holds an integer and the
    record reader accepts the path, the constructor ends at the read of
    [ids]. *)
Lemma init_attribute_error w r tf ttf is_test kd bs :
  (isfile w (path_join r "num_val.txt") = false
   \/ exists f n, open_read w (path_join r (split_count is_test)) = Ok f
                  /\ Str.int f = Ok n) ->
  TFRecordDataset w (path_join r (split_record is_test)) = Ok tt ->
  snd (__init__ w r tf ttf is_test kd bs blank) = Raise AttributeError.
Proof.
  intros Hc Hd. run_stmt.
  destruct is_test; cbn in Hc, Hd;
    destruct (isfile w (path_join r "num_val.txt")) eqn:Hf.
  all: destruct Hc as [Hc | (f & n & Ho & Hi)]; try discriminate.
  all: try rewrite Ho; cbn; try rewrite Hi; cbn; rewrite Hd; reflexivity.
Qed.

(** An error of the open of the count file ends the constructor. *)
Lemma init_count_unreadable w r tf ttf is_test kd bs e :
  isfile w (path_join r "num_val.txt") = true ->
  open_read w (path_join r (split_count is_test)) = Raise e ->
  snd (__init__ w r tf ttf is_test kd bs blank) = Raise e.
Proof.
  intros Hf Ho. run_stmt.
  destruct is_test; cbn in Ho; rewrite Hf; cbn; rewrite Ho; reflexivity.
Qed.

(** So does a count that is no integer. *)
Lemma init_count_no_integer w r tf ttf is_test kd bs f e :
  isfile w (path_join r "num_val.txt") = true ->
  open_read w (path_join r (split_count is_test)) = Ok f ->
  Str.int f = Raise e ->
  snd (__init__ w r tf ttf is_test kd bs blank) = Raise e.
Proof.
  intros Hf Ho Hi. run_stmt.
  destruct is_test; cbn in Ho; rewrite Hf; cbn; rewrite Ho; cbn;
    rewrite Hi; reflexivity.
Qed.

(** After the count, an error of the record reader ends the constructor:
    it is the error of the call. *)
Lemma init_reader_error w r tf ttf is_test kd bs e :
  (isfile w (path_join r "num_val.txt") = false
   \/ exists f n, open_read w (path_join r (split_count is_test)) = Ok f
                  /\ Str.int f = Ok n) ->
  TFRecordDataset w (path_join r (split_record is_test)) = Raise e ->
  snd (__init__ w r tf ttf is_test kd bs blank) = Raise e.
Proof.
  intros Hc Hd. run_stmt.
  destruct is_test; cbn in Hc, Hd;
    destruct (isfile w (path_join r "num_val.txt")) eqn:Hf.
  all: destruct Hc as [Hc | (f & n & Ho & Hi)]; try discriminate.
  all: try rewrite Ho; cbn; try rewrite Hi; cbn; rewrite Hd; reflexivity.
Qed.

Lemma init_batch_size w r tf ttf is_test kd bs :
  batch_size (fst (__init__ w r tf ttf is_test kd bs blank)) = Some bs.
Proof.
  run_stmt.
  destruct is_test; destruct (isfile w (path_join r "num_val.txt"));
    repeat break_result; cbn; eauto.
Qed.

Lemma construct_outcome w r tf ttf is_test kd bs e :
  snd (__init__ w r tf ttf is_test kd bs blank) = Raise e ->
  construct w r tf ttf is_test kd bs = Raise e.
Proof.
  unfold construct.
  destruct (__init__ w r tf ttf is_test kd bs blank) as [o [u|e']]; cbn;
    congruence.
Qed.

(** The operations on an object without [ids]. *)
Lemma no_ids_no_operation (o : RecordDataset) :
  ids o = None ->
  __len__ o = Raise AttributeError
  /\ (forall w i, snd (__getitem__ o w i) = Raise AttributeError)
  /\ (forall w i, get_image o w i = Raise AttributeError)
  /\ (forall w i, get_annotation o w i = Raise AttributeError).
Proof.
  intros H.
  unfold __len__, __getitem__, batch_range, get_image, get_annotation.
  rewrite H; cbn. repeat split; intros; try reflexivity.
  destruct (batch_size o); reflexivity.
Qed.

(** C1, amended. For every input the constructor fails and leaves [ids]
    unassigned. It raises the attribute error of [len(self.ids)] whenever
    it gets that far, that is, when no record count file is looked at or
    the file that is opened holds an integer, and the record reader takes
    the path. When the count file cannot be opened, when its text is no
    integer, or when the record reader fails, the constructor raises
    that error instead. On the object it leaves, each of [__len__],
    [__getitem__], [get_image] and [get_annotation] raises an attribute
    error, so none of them is reachable on a constructed instance. *)
Theorem C1_construction_never_returns w r tf ttf is_test kd bs :
  let o := fst (__init__ w r tf ttf is_test kd bs blank) in
  (exists e, construct w r tf ttf is_test kd bs = Raise e)
  /\ ids o = None
  /\ ((isfile w (path_join r "num_val.txt") = false
       \/ exists f n, open_read w (path_join r (split_count is_test)) = Ok f
                      /\ Str.int f = Ok n) ->
      TFRecordDataset w (path_join r (split_record is_test)) = Ok tt ->
      construct w r tf ttf is_test kd bs = Raise AttributeError)
  /\ __len__ o = Raise AttributeError
  /\ (forall w' i, snd (__getitem__ o w' i) = Raise AttributeError)
  /\ (forall w' i, get_image o w' i = Raise AttributeError)
  /\ (forall w' i, get_annotation o w' i = Raise AttributeError)
  /\ (forall e,
        isfile w (path_join r "num_val.txt") = true ->
        open_read w (path_join r (split_count is_test)) = Raise e ->
        construct w r tf ttf is_test kd bs = Raise e)
  /\ (forall f e,
        isfile w (path_join r "num_val.txt") = true ->
        open_read w (path_join r (split_count is_test)) = Ok f ->
        Str.int f = Raise e ->
        construct w r tf ttf is_test kd bs = Raise e)
  /\ (forall e,
        (isfile w (path_join r "num_val.txt") = false
         \/ exists f n,
              open_read w (path_join r (split_count is_test)) = Ok f
              /\ Str.int f = Ok n) ->
        TFRecordDataset w (path_join r (split_record is_test)) = Raise e ->
        construct w r tf ttf is_test kd bs = Raise e).
Proof.
  intros o.
  destruct (init_raises w r tf ttf is_test kd bs) as [Hids [e He]].
  split; [exists e; now apply construct_outcome|].
  split; [exact Hids|].
  split.
  { intros Hc Hd. apply construct_outcome.
    now apply init_attribute_error. }
  destruct (no_ids_no_operation o Hids) as (H1 & H2 & H3 & H4).
  repeat (split; [assumption|]).
  split; [|split].
  - intros e' Hf Ho. apply construct_outcome.
    now apply init_count_unreadable.
  - intros f e' Hf Ho Hi. apply construct_outcome.
    now apply (init_count_no_integer w r tf ttf is_test kd bs f e').
  - intros e' Hc Hd. apply construct_outcome.
    now apply init_reader_error.
Qed.

(** C1 at a root that holds its training records and no count file. *)
Lemma C1_construction_never_returns_witness :
  construct Sample.train_only "data" None None false false 32
  = Raise AttributeError.
Proof.
  destruct (C1_construction_never_returns
              Sample.train_only "data" None None false false 32)
    as (_ & _ & H & _).
  apply H; [left; reflexivity | reflexivity].
Defined.

(** C1 as stated fails where the count file of the selected split is
    empty: [int] raises a value error before [ids] is read. *)
Lemma C1_counterexample :
  construct Sample.empty_count "data" None None true false 32 = Raise ValueError
  /\ construct Sample.empty_count "data" None None true false 32
     <> Raise AttributeError.
Proof. split; [reflexivity | discriminate]. Qed.

(** C2 as stated fails: with the root directory and the record source of
    the split in place the constructor does not return, and it ends the same
    way when neither is there. *)
Lemma C2_counterexample :
  exists_ Sample.train_only "data" = true
  /\ exists_ Sample.train_only "data/train.record" = true
  /\ construct Sample.train_only "data" None None false false 32
     = Raise AttributeError
  /\ exists_ Sample.nothing "data" = false
  /\ construct Sample.nothing "data" None None false false 32
     = Raise AttributeError.
Proof. repeat split. Qed.

(** C2, amended. The constructor does not look for the root directory or
    for the record source of the split: once the count is dealt with, be
    no count file looked at or the count read, it hands the path of the
    source to the record reader and surfaces the error the reader raises
    for it. In two worlds that agree on the two count files and on what
    the reader does with that path it leaves the same object with the
    same outcome, whatever else exists or is missing. *)
Theorem C2_construction_does_not_look_for_the_source
  w w' r tf ttf is_test kd bs :
  fs w (path_join r "num_val.txt") = fs w' (path_join r "num_val.txt") ->
  fs w (path_join r "num_train.txt") = fs w' (path_join r "num_train.txt") ->
  TFRecordDataset w (path_join r (split_record is_test))
  = TFRecordDataset w' (path_join r (split_record is_test)) ->
  __init__ w r tf ttf is_test kd bs blank
  = __init__ w' r tf ttf is_test kd bs blank
  /\ construct w r tf ttf is_test kd bs = construct w' r tf ttf is_test kd bs
  /\ forall e,
       (isfile w (path_join r "num_val.txt") = false
        \/ exists f n,
             open_read w (path_join r (split_count is_test)) = Ok f
             /\ Str.int f = Ok n) ->
       TFRecordDataset w (path_join r (split_record is_test)) = Raise e ->
       construct w r tf ttf is_test kd bs = Raise e.
Proof.
  intros Hv Ht Hd.
  assert (E : __init__ w r tf ttf is_test kd bs blank
              = __init__ w' r tf ttf is_test kd bs blank).
  { run_stmt. unfold isfile, open_read.
    destruct is_test; cbn in Hd; rewrite <- ?Hv, <- ?Ht;
      destruct (fs w (path_join r "num_val.txt")) as [[c|]|]; cbn;
      try destruct (fs w (path_join r "num_train.txt")) as [[c'|]|]; cbn;
      try reflexivity;
      try (destruct (Str.int _); cbn; try reflexivity);
      rewrite Hd; destruct (TFRecordDataset w' _); reflexivity. }
  split; [exact E|]. split; [unfold construct; now rewrite E|].
  intros e Hc He. apply construct_outcome.
  now apply init_reader_error.
Qed.

(** C2 at a root with its training records and at no file system at all. *)
Lemma C2_construction_does_not_look_for_the_source_witness :
  construct Sample.train_only "data" None None false false 32
  = construct Sample.nothing "data" None None false false 32.
Proof.
  destruct (C2_construction_does_not_look_for_the_source
              Sample.train_only Sample.nothing "data" None None false false 32
              eq_refl eq_refl eq_refl) as (_ & H & _).
  exact H.
Defined.

(** The count of the validation split is stored exactly when
    [num_val.txt] is a file that holds an integer. *)
Lemma validation_count w r tf ttf kd bs n :
  num_records (fst (__init__ w r tf ttf true kd bs blank)) = Some n
  <-> isfile w (path_join r "num_val.txt") = true
      /\ exists f, open_read w (path_join r "num_val.txt") = Ok f
                   /\ Str.int f = Ok n.
Proof.
  run_stmt. destruct (isfile w (path_join r "num_val.txt")) eqn:Hf; cbn.
  - destruct (open_read w (path_join r "num_val.txt")) as [f|e] eqn:Ho; cbn.
    + destruct (Str.int f) as [m|e] eqn:Hi; cbn.
      * destruct (TFRecordDataset w _); cbn; split.
        all: try (intros [= ->]; split; [reflexivity|]; exists f; now split).
        all: intros [_ (f' & [= <-] & Hi')]; congruence.
      * split; [discriminate|]. intros [_ (f' & [= <-] & Hi')]; congruence.
    + split; [discriminate|]. intros [_ (f' & Ho' & _)]; congruence.
  - destruct (TFRecordDataset w _); cbn; split; try discriminate;
      intros [? _]; discriminate.
Qed.

(** The count of the training split is stored exactly when [num_val.txt]
    is a file and [num_train.txt] is a file that holds an integer. *)
Lemma training_count w r tf ttf kd bs n :
  num_records (fst (__init__ w r tf ttf false kd bs blank)) = Some n
  <-> isfile w (path_join r "num_val.txt") = true
      /\ exists f, open_read w (path_join r "num_train.txt") = Ok f
                   /\ Str.int f = Ok n.
Proof.
  run_stmt. destruct (isfile w (path_join r "num_val.txt")) eqn:Hf; cbn.
  - destruct (open_read w (path_join r "num_train.txt")) as [f|e] eqn:Ho; cbn.
    + destruct (Str.int f) as [m|e] eqn:Hi; cbn.
      * destruct (TFRecordDataset w _); cbn; split.
        all: try (intros [= ->]; split; [reflexivity|]; exists f; now split).
        all: intros [_ (f' & [= <-] & Hi')]; congruence.
      * split; [discriminate|]. intros [_ (f' & [= <-] & Hi')]; congruence.
    + split; [discriminate|]. intros [_ (f' & Ho' & _)]; congruence.
  - destruct (TFRecordDataset w _); cbn; split; try discriminate;
      intros [? _]; discriminate.
Qed.

(** C10 on the code. With the training split selected, [num_train.txt] in
    place with the count 100 and no [num_val.txt], no count is stored: the
    test on line 34 looks for [num_val.txt]. With [num_val.txt] in place and
    no [num_train.txt], opening [num_train.txt] fails. With the validation
    split selected the count of [num_val.txt] is stored. *)
Theorem C10_training_count_not_read :
  isfile Sample.train_count "data/num_train.txt" = true
  /\ num_records (fst (__init__ Sample.train_count "data" None None
                                false false 32 blank)) = None
  /\ isfile Sample.empty_count "data/num_train.txt" = false
  /\ construct Sample.empty_count "data" None None false false 32
     = Raise FileNotFoundError
  /\ num_records (fst (__init__ Sample.both_counts "data" None None
                                true false 32 blank)) = Some 20.
Proof. repeat split. Qed.

(** ** The class dictionary *)

Lemma dict_get_set d k v k' :
  Dict.get (Dict.set d k v) k'
  = if String.eqb k k' then Some v else Dict.get d k'.
Proof.
  induction d as [|[k0 v0] d IH]; cbn.
  - reflexivity.
  - destruct (String.eqb_spec k0 k) as [->|Hk]; cbn.
    + destruct (String.eqb k k'); reflexivity.
    + rewrite IH. destruct (String.eqb_spec k0 k') as [->|Hk'].
      * destruct (String.eqb_spec k k'); [congruence | reflexivity].
      * reflexivity.
Qed.

(** A name that is not enumerated keeps the entry it had. *)
Lemma of_enumerate_other names : forall i d k,
  ~ In k names ->
  Dict.get (Dict.of_enumerate names i d) k = Dict.get d k.
Proof.
  induction names as [|name rest IH]; intros i d k Hk; cbn.
  - reflexivity.
  - rewrite IH by (intros H; apply Hk; now right).
    rewrite dict_get_set.
    destruct (String.eqb_spec name k) as [->|]; [|reflexivity].
    exfalso. apply Hk. now left.
Qed.

(** A name maps to the last of its positions. *)
Lemma of_enumerate_last names : forall i d n k,
  nth_error names n = Some k ->
  (forall j, (n < j)%nat -> nth_error names j <> Some k) ->
  Dict.get (Dict.of_enumerate names i d) k = Some (i + Z.of_nat n).
Proof.
  induction names as [|name rest IH]; intros i d n k Hn Hlast.
  - destruct n; discriminate.
  - destruct n as [|n]; cbn in Hn |- *.
    + injection Hn as ->.
      rewrite of_enumerate_other.
      * rewrite dict_get_set, String.eqb_refl. f_equal. lia.
      * intros Hin. apply In_nth_error in Hin as [j Hj].
        apply (Hlast (S j)); [lia | exact Hj].
    + rewrite (IH (i + 1) _ n k Hn).
      * f_equal. lia.
      * intros j Hj. apply (Hlast (S j)). lia.
Qed.

Lemma nodup_nth_error_last {A} (l : list A) n k :
  NoDup l -> nth_error l n = Some k ->
  forall j, (n < j)%nat -> nth_error l j <> Some k.
Proof.
  intros Hnd Hn j Hj Hk.
  assert (n = j); [|lia].
  apply (proj1 (NoDup_nth_error l) Hnd).
  - apply nth_error_Some. congruence.
  - congruence.
Qed.

(** [replace(" ", "")] deletes the spaces and nothing else. *)
Lemma remove_char_filter c s :
  list_ascii_of_string (Str.remove_char c s)
  = List.filter (fun d => negb (Ascii.eqb d c)) (list_ascii_of_string s).
Proof.
  induction s as [|d s IH]; cbn; [reflexivity|].
  destruct (Ascii.eqb d c); cbn; now rewrite IH.
Qed.

(** C9, amended. With a label file in place, the class names are
    BACKGROUND followed by the tokens of the file: its lines, each without
    its trailing whitespace, put one after the other, split on commas, and
    every space character deleted from each token, those inside a token
    too. The dictionary maps a name to its position in that list, the last
    one when the name is there more than once; so with pairwise different
    names BACKGROUND maps to 0 and the i-th token to i + 1. *)
Theorem C9_class_dictionary_of_label_file w o r f :
  root o = Some r ->
  fs w (path_join r "label_map.txt") = Some (File f) ->
  let o' := fst (seq_ (load_class_names w) (fun _ => build_class_dict) o) in
  let tokens :=
    List.map (Str.remove_char " ") (Str.split "," (class_string f)) in
  class_names o' = Some ("BACKGROUND" :: tokens)
  /\ exists d,
       class_dict o' = Some d
       /\ (forall i name,
             nth_error ("BACKGROUND" :: tokens) i = Some name ->
             (forall j, (i < j)%nat ->
                        nth_error ("BACKGROUND" :: tokens) j <> Some name) ->
             Dict.get d name = Some (Z.of_nat i))
       /\ (NoDup ("BACKGROUND" :: tokens) ->
           Dict.get d "BACKGROUND" = Some 0
           /\ forall i tok, nth_error tokens i = Some tok ->
                            Dict.get d tok = Some (Z.of_nat i + 1)).
Proof.
  intros Hr Hf o' tokens. subst o'.
  unfold load_class_names, build_class_dict, seq_, eval, assign, isfile,
    open_read.
  rewrite Hr; cbn. rewrite Hf; cbn.
  split; [reflexivity|].
  eexists. split; [reflexivity|].
  fold tokens. split.
  - intros i name Hi Hlast.
    exact (of_enumerate_last ("BACKGROUND" :: tokens) 0 [] i name Hi Hlast).
  - intros Hnd. split.
    + refine (of_enumerate_last ("BACKGROUND" :: tokens) 0 [] 0%nat _
                                eq_refl _).
      now apply nodup_nth_error_last.
    + intros i tok Hi.
      replace (Z.of_nat i + 1) with (0 + Z.of_nat (S i)) by lia.
      refine (of_enumerate_last ("BACKGROUND" :: tokens) 0 [] (S i) tok Hi _).
      now apply nodup_nth_error_last.
Qed.

(** C9 at a label file with the one line [cat,dining table]. *)
Lemma C9_class_dictionary_of_label_file_witness :
  class_names
    (fst (seq_ (load_class_names Sample.spaced_labels)
               (fun _ => build_class_dict) (set_root "data" blank)))
  = Some ["BACKGROUND"; "cat"; "diningtable"].
Proof.
  destruct (C9_class_dictionary_of_label_file
              Sample.spaced_labels (set_root "data" blank) "data"
              "cat,dining table" eq_refl eq_refl) as [H _].
  exact H.
Defined.

(** C9 as stated fails on the label file [cat,dining table]: the second
    token, stripped, is [dining table] and would map to 2, but the
    dictionary has no such name; it maps [diningtable] to 2. *)
Lemma C9_counterexample :
  let o' := fst (seq_ (load_class_names Sample.spaced_labels)
                      (fun _ => build_class_dict) (set_root "data" blank)) in
  nth_error (stated_class_names "cat,dining table") 2 = Some "dining table"
  /\ exists d, class_dict o' = Some d
               /\ Dict.get d "dining table" = None
               /\ Dict.get d "diningtable" = Some 2.
Proof.
  cbn. split; [reflexivity|]. eexists. repeat split.
Qed.

(** ** Annotation parsing *)

Lemma coordinate_parsed (o : ET.element) (field : string) :
  coordinate (ET.find o "bndbox") field
  = (v <- parsed o field ;; Ok (Float.sub v (Float.of_Z 1))).
Proof.
  unfold coordinate, parsed.
  destruct (ET.find o "bndbox") as [b|]; cbn; [|reflexivity].
  destruct (ET.find b field) as [e|]; cbn; [|reflexivity].
  destruct (Float.float (ET.text e)); reflexivity.
Qed.

(** The loop appends the detections of the objects, in document order. *)
Lemma annotation_loop_detections self d objects :
  class_dict self = Some d ->
  forall boxes labels is_difficult,
    annotation_loop self objects boxes labels is_difficult
    = (dets <- detections d objects ;;
       Ok (boxes ++ List.map box dets, labels ++ List.map label dets,
           is_difficult ++ List.map flag dets)).
Proof.
  intros Hd. induction objects as [|o rest IH]; intros bs ls fs; cbn.
  - now rewrite !app_nil_r.
  - unfold class_name_of, detection_of, class_name_of, box_of.
    destruct (ET.find o "name") as [name|]; cbn; [|reflexivity].
    destruct (ET.text name) as [t|]; cbn; [|reflexivity].
    rewrite Hd; cbn.
    destruct (Dict.mem d (Str.strip (Str.lower t))); [|apply IH].
    destruct (coordinate _ "xmin"); cbn; [|reflexivity].
    destruct (coordinate _ "ymin"); cbn; [|reflexivity].
    destruct (coordinate _ "xmax"); cbn; [|reflexivity].
    destruct (coordinate _ "ymax"); cbn; [|reflexivity].
    destruct (lookup d _); cbn; [|reflexivity].
    destruct (ET.find o "difficult") as [e|]; cbn; [|reflexivity].
    destruct (difficult_flag (ET.text e)); cbn; [|reflexivity].
    rewrite IH. destruct (detections d rest) as [dets|]; cbn; [|reflexivity].
    now rewrite <- !app_assoc.
Qed.

(** The detections are those of the recognized objects, one each. *)
Lemma detections_recognized d objects : forall dets,
  detections d objects = Ok dets ->
  Forall2 (fun o det => detection_of d o = Ok det)
          (List.filter (recognized d) objects) dets.
Proof.
  induction objects as [|o rest IH]; intros dets H; cbn in H |- *.
  - injection H as <-. constructor.
  - unfold recognized.
    destruct (class_name_of o) as [c|]; cbn in H; [|discriminate].
    destruct (Dict.mem d c).
    + destruct (detection_of d o) as [det|] eqn:Hdet; cbn in H; [|discriminate].
      destruct (detections d rest) as [dets'|]; cbn in H; [|discriminate].
      injection H as <-. constructor; [exact Hdet | now apply IH].
    + now apply IH.
Qed.


Lemma get_annotation_detections self w r d image_id tree :
  root self = Some r -> class_dict self = Some d ->
  ET_parse w (annotation_path r image_id) = Ok tree ->
  _get_annotation self w image_id
  = (dets <- detections d (ET.findall tree "object") ;;
     Ok (as_arrays (List.map box dets, List.map label dets,
                    List.map flag dets))).
Proof.
  intros Hr Hd Ht. unfold _get_annotation. rewrite Hr; cbn. rewrite Ht; cbn.
  rewrite (annotation_loop_detections self d _ Hd).
  destruct (detections d _); reflexivity.
Qed.

Lemma findall_app tag text (pre post : list ET.element) name :
  ET.findall (ET.Element tag text (pre ++ post)) name
  = ET.findall (ET.Element tag text pre) name
    ++ ET.findall (ET.Element tag text post) name.
Proof. unfold ET.findall; cbn. apply filter_app. Qed.

Lemma Forall2_combine {A B} (R : A -> B -> Prop) (xs : list A) (ys : list B) :
  Forall2 R xs ys -> forall x y, In (x, y) (combine xs ys) -> R x y.
Proof.
  induction 1 as [|x y xs ys Hxy _ IH]; cbn; intros a b Hin.
  - contradiction.
  - destruct Hin as [[= <- <-]|Hin]; [exact Hxy | now apply IH].
Qed.

Lemma Forall2_map_r {A B C} (R : A -> C -> Prop) (g : B -> C)
  (xs : list A) (ys : list B) :
  Forall2 (fun x y => R x (g y)) xs ys -> Forall2 R xs (List.map g ys).
Proof. induction 1; cbn; constructor; auto. Qed.

Lemma detection_box d o det :
  detection_of d o = Ok det ->
  returned_box o (List.map Float.to_float32 (box det))
  /\ List.length (box det) = 4%nat.
Proof.
  unfold detection_of, box_of. rewrite !coordinate_parsed.
  destruct (class_name_of o); cbn; [|discriminate].
  destruct (parsed o "xmin") as [x1|] eqn:H1; cbn; [|discriminate].
  destruct (parsed o "ymin") as [y1|] eqn:H2; cbn; [|discriminate].
  destruct (parsed o "xmax") as [x2|] eqn:H3; cbn; [|discriminate].
  destruct (parsed o "ymax") as [y2|] eqn:H4; cbn; [|discriminate].
  destruct (lookup d a); cbn; [|discriminate].
  destruct (ET.find o "difficult") as [e|]; cbn; [|discriminate].
  destruct (difficult_flag (ET.text e)); cbn; [|discriminate].
  intros [= <-]. split; [|reflexivity].
  exists x1, y1, x2, y2. repeat split; assumption.
Qed.

Lemma detection_flag d o det :
  detection_of d o = Ok det -> returned_flag o (flag det).
Proof.
  unfold detection_of.
  destruct (class_name_of o); cbn; [|discriminate].
  destruct (box_of o); cbn; [|discriminate].
  destruct (lookup d a); cbn; [|discriminate].
  destruct (ET.find o "difficult") as [e|] eqn:He; cbn; [|discriminate].
  destruct (difficult_flag (ET.text e)) eqn:Hf; cbn; [|discriminate].
  intros [= <-]. exists e. now split.
Qed.

Lemma array2_data {A} (rows : list (list A)) :
  Np.data (Np.array2 rows) = List.concat rows.
Proof. destruct rows; reflexivity. Qed.

Lemma parsed_field_text o field :
  parsed o field
  = match ET.find o "bndbox" with
    | Some b => match ET.find b field with
                | Some _ => Float.float (field_text o field)
                | None => Raise AttributeError
                end
    | None => Raise AttributeError
    end.
Proof.
  unfold parsed, field_text.
  destruct (ET.find o "bndbox") as [b|]; cbn; [|reflexivity].
  destruct (ET.find b field); reflexivity.
Qed.

(** C6, amended. When annotation parsing returns, the rows of the boxes
    array are those of the recognized objects, in document order, and each
    row holds, in the order x1, y1, x2, y2, the numbers parsed from xmin,
    ymin, xmax and ymax, each less 1 in double precision and then rounded
    to single precision, as the array of boxes is of type float32. A field
    xmin with the text 1 gives x1 = 0. *)
Theorem C6_coordinates_are_rounded_differences
  self w r d image_id tree boxes labels flags :
  root self = Some r -> class_dict self = Some d ->
  ET_parse w (annotation_path r image_id) = Ok tree ->
  _get_annotation self w image_id = Ok (boxes, labels, flags) ->
  let kept := List.filter (recognized d) (ET.findall tree "object") in
  exists rows,
    Np.data boxes = List.concat rows
    /\ Forall2 returned_box kept rows
    /\ forall o row, In (o, row) (combine kept rows) ->
                     field_text o "xmin" = Some "1" ->
                     nth_error row 0 = Some (S754_zero false).
Proof.
  intros Hr Hd Ht H kept.
  rewrite (get_annotation_detections self w r d image_id tree Hr Hd Ht) in H.
  destruct (detections d (ET.findall tree "object")) as [dets|] eqn:Hdets;
    cbn in H; [|discriminate].
  injection H as <- _ _.
  apply detections_recognized in Hdets. fold kept in Hdets.
  assert (Hrows : Forall2 returned_box kept
                    (List.map (List.map Float.to_float32) (List.map box dets))).
  { rewrite map_map. apply Forall2_map_r.
    eapply Forall2_impl; [|exact Hdets].
    intros o det Hdet. exact (proj1 (detection_box d o det Hdet)). }
  exists (List.map (List.map Float.to_float32) (List.map box dets)).
  split; [apply array2_data|]. split; [exact Hrows|].
  intros o row Hin Hx.
  destruct (Forall2_combine _ _ _ Hrows o row Hin)
    as (x1 & y1 & x2 & y2 & H1 & _ & _ & _ & ->).
  rewrite parsed_field_text, Hx in H1.
  destruct (ET.find o "bndbox") as [b|]; [|discriminate].
  destruct (ET.find b "xmin"); [|discriminate].
  injection H1 as <-. reflexivity.
Qed.

(** C6 at the sample [a], whose first object has xmin = 1. *)
Lemma C6_coordinates_are_rounded_differences_witness :
  exists rows,
    List.concat rows
    = List.map Float.to_float32
        [Float.of_Z 0; Float.of_Z 1; Float.of_Z 29; Float.of_Z 39;
         Float.of_Z 4; Float.of_Z 5; Float.of_Z 6; Float.of_Z 7]
    /\ Forall2 returned_box [Sample.cat; Sample.dog] rows.
Proof.
  destruct (C6_coordinates_are_rounded_differences
              Sample.adapter Sample.annotated "data" _ "a" _ _ _ _
              eq_refl eq_refl eq_refl eq_refl) as (rows & Hdata & Hrows & _).
  exists rows. split; [symmetry; exact Hdata | exact Hrows].
Defined.

(** C6 as stated fails at xmin = 16777218: the number parsed less 1 is
    16777217, and the coordinate returned is 16777216, the nearest
    single-precision number. *)
Lemma C6_counterexample :
  exists boxes labels flags x1,
    get_annotation Sample.adapter Sample.annotated 4
    = Ok ("e", (boxes, labels, flags))
    /\ nth_error (Np.data boxes) 0 = Some x1
    /\ parsed Sample.far_cat "xmin" = Ok (Float.of_Z 16777218)
    /\ Float.sub (Float.of_Z 16777218) (Float.of_Z 1) = Float.of_Z 16777217
    /\ Float.to_float64 x1 = Float.of_Z 16777216
    /\ SFcompare (Float.to_float64 x1) (Float.of_Z 16777217) = Some Lt.
Proof.
  do 4 eexists. split; [reflexivity|]. split; [reflexivity|]. repeat split.
Qed.







Lemma Forall2_In_l {A B} (R : A -> B -> Prop) (xs : list A) (ys : list B) x :
  Forall2 R xs ys -> In x xs -> exists y, R x y.
Proof.
  induction 1 as [|a b xs ys Hab _ IH]; cbn; intros Hin.
  - contradiction.
  - destruct Hin as [<-|Hin]; [now exists b | now apply IH].
Qed.

(** C8, amended. For every kept detection the flag is that of the text of
    the [difficult] element of the object: 0 when the element has no text,
    the integer its text parses to otherwise, stored as an unsigned byte.
    The element has to be there: an object that is kept and has no
    [difficult] element makes annotation parsing raise. *)
Theorem C8_difficulty_flag_of_the_text
  self w r d image_id tree :
  root self = Some r -> class_dict self = Some d ->
  ET_parse w (annotation_path r image_id) = Ok tree ->
  let kept := List.filter (recognized d) (ET.findall tree "object") in
  (forall boxes labels flags,
     _get_annotation self w image_id = Ok (boxes, labels, flags) ->
     exists fl, Np.data flags = List.map to_uint8 fl
                /\ Forall2 returned_flag kept fl)
  /\ ((exists o, In o kept /\ ET.find o "difficult" = None) ->
      exists e, _get_annotation self w image_id = Raise e)
  /\ difficult_flag None = Ok 0
  /\ difficult_flag (Some "") = Ok 0
  /\ forall s, s <> "" -> difficult_flag (Some s) = Str.int s.
Proof.
  intros Hr Hd Ht kept.
  assert (Hret : forall boxes labels flags,
     _get_annotation self w image_id = Ok (boxes, labels, flags) ->
     exists fl, Np.data flags = List.map to_uint8 fl
                /\ Forall2 returned_flag kept fl).
  { intros boxes labels flags H.
    rewrite (get_annotation_detections self w r d image_id tree Hr Hd Ht) in H.
    destruct (detections d (ET.findall tree "object")) as [dets|] eqn:Hdets;
      cbn in H; [|discriminate].
    injection H as _ _ <-.
    apply detections_recognized in Hdets. fold kept in Hdets.
    exists (List.map flag dets). split; [reflexivity|].
    apply Forall2_map_r. eapply Forall2_impl; [|exact Hdets].
    intros o det Hdet. exact (detection_flag d o det Hdet). }
  split; [exact Hret|]. split.
  - intros (o & Hin & Hnone).
    destruct (_get_annotation self w image_id) as [[[boxes labels] flags]|e]
      eqn:H; [|now exists e].
    destruct (Hret boxes labels flags eq_refl) as (fl & _ & Hfl).
    destruct (Forall2_In_l _ _ _ o Hfl Hin) as (f & e & He & _).
    congruence.
  - repeat split. intros s Hs. destruct s; [congruence | reflexivity].
Qed.

(** C8 at the sample [f], a cat whose [difficult] element is empty. *)
Lemma C8_difficulty_flag_of_the_text_witness :
  exists fl, [0] = List.map to_uint8 fl
             /\ Forall2 returned_flag [Sample.empty_flag_cat] fl.
Proof.
  destruct (C8_difficulty_flag_of_the_text
              Sample.adapter Sample.annotated "data" _ "f" _
              eq_refl eq_refl eq_refl) as [H _].
  exact (H _ _ _ eq_refl).
Defined.

(** C8 as stated fails for a recognized object without a [difficult]
    element: annotation access raises an attribute error, it does not
    return the flag 0. *)
Lemma C8_counterexample :
  recognized [("BACKGROUND", 0); ("cat", 1); ("dog", 2)] Sample.plain_cat = true
  /\ ET.find Sample.plain_cat "difficult" = None
  /\ box_of Sample.plain_cat
     = Ok [Float.of_Z 0; Float.of_Z 1; Float.of_Z 29; Float.of_Z 39]
  /\ get_annotation Sample.adapter Sample.annotated 3 = Raise AttributeError.
Proof. repeat split. Qed.

(** ** Batch retrieval *)

Lemma arange_In start stop i :
  In i (Np.arange start stop) <-> start <= i < stop.
Proof.
  unfold Np.arange. rewrite in_map_iff. split.
  - intros (k & <- & Hk). apply in_seq in Hk. lia.
  - intros H. exists (Z.to_nat (i - start)). split; [lia|].
    apply in_seq. lia.
Qed.

Lemma arange_length start stop :
  len (Np.arange start stop) = Z.max 0 (stop - start).
Proof. unfold len, Np.arange. rewrite length_map, length_seq. lia. Qed.

(** Lines 90-92 clamp the end of the range to [N - 1]. *)
Lemma batch_range_min self b bs l :
  batch_size self = Some bs -> ids self = Some l ->
  batch_range self b
  = Ok (Np.arange (b * bs) (Z.min ((b + 1) * bs) (len l - 1))).
Proof.
  intros Hb Hl. unfold batch_range. rewrite Hb, Hl; cbn.
  do 2 f_equal.
  destruct (Z.geb_spec ((b + 1) * bs) (len l)); lia.
Qed.

Section Loop.

Variable self : RecordDataset.
Variable w : World.
Variable bs : Z.
Hypothesis Hbs : batch_size self = Some bs.

(** The loop looks up a prefix of the indices it is given. *)
Lemma batch_loop_drawn idxs : forall inputs t1 t2,
  exists rest, idxs = fst (batch_loop self w idxs inputs t1 t2) ++ rest.
Proof.
  induction idxs as [|i idxs IH]; intros inputs t1 t2; cbn.
  - now exists [].
  - destruct (fetch self w i) as [[[image boxes] labels]|e]; cbn;
      [|now exists idxs].
    rewrite Hbs; cbn.
    destruct (len (t1 ++ [boxes]) =? bs); cbn; [now exists idxs|].
    destruct (IH (inputs ++ [image]) (t1 ++ [boxes]) (t2 ++ [labels]))
      as [rest Hrest].
    destruct (batch_loop self w idxs _ _ _) as [drawn r]; cbn in *.
    exists rest. now f_equal.
Qed.

(** When the loop runs out it has looked up every index; when it returns
    a batch, the samples it has accumulated are [bs] many. *)
Lemma batch_loop_returns idxs : forall inputs t1 t2 r,
  snd (batch_loop self w idxs inputs t1 t2) = Ok r ->
  match r with
  | None => fst (batch_loop self w idxs inputs t1 t2) = idxs
  | Some _ => len t1 + len (fst (batch_loop self w idxs inputs t1 t2)) = bs
  end.
Proof.
  induction idxs as [|i idxs IH]; intros inputs t1 t2 r; cbn.
  - intros [= <-]. reflexivity.
  - destruct (fetch self w i) as [[[image boxes] labels]|e]; cbn;
      [|discriminate].
    rewrite Hbs; cbn.
    destruct (Z.eqb_spec (len (t1 ++ [boxes])) bs) as [E|E]; cbn.
    + destruct (assemble _ _ _); cbn; [|discriminate].
      intros [= <-]. unfold len in *. rewrite length_app in E. cbn in *. lia.
    + specialize (IH (inputs ++ [image]) (t1 ++ [boxes]) (t2 ++ [labels]) r).
      destruct (batch_loop self w idxs _ _ _) as [drawn r']; cbn in *.
      intros H. specialize (IH H). destruct r.
      * unfold len in *. rewrite length_app in IH. cbn in *. lia.
      * now f_equal.
Qed.

(** Fewer indices than a batch still needs: the loop runs out. *)
Lemma batch_loop_runs_out idxs : forall inputs t1 t2,
  len t1 + len idxs < bs ->
  (forall i, In i idxs -> exists s, fetch self w i = Ok s) ->
  snd (batch_loop self w idxs inputs t1 t2) = Ok None.
Proof.
  induction idxs as [|i idxs IH]; intros inputs t1 t2 Hlen Hfetch; cbn.
  - reflexivity.
  - destruct (Hfetch i (or_introl eq_refl)) as [[[image boxes] labels] ->].
    cbn. rewrite Hbs; cbn.
    unfold len in Hlen; cbn in Hlen.
    destruct (Z.eqb_spec (len (t1 ++ [boxes])) bs) as [E|E]; cbn.
    + unfold len in E. rewrite length_app in E. cbn in E. lia.
    + specialize (IH (inputs ++ [image]) (t1 ++ [boxes]) (t2 ++ [labels])).
      destruct (batch_loop self w idxs _ _ _) as [drawn r']; cbn in *.
      apply IH.
      * unfold len. rewrite length_app. cbn. lia.
      * intros j Hj. apply Hfetch. now right.
Qed.

End Loop.

(** Fetching the index [i] reads the annotation and the image of the
    sample [ids[i]]. *)
Lemma fetch_reads_the_sample self w l i s :
  ids self = Some l -> fetch self w i = Ok s ->
  exists image_id a image,
    getitem l i = Ok image_id
    /\ _get_annotation self w image_id = Ok a
    /\ _read_image self w image_id = Ok image.
Proof.
  intros Hl. unfold fetch. rewrite Hl; cbn [getattr bind].
  destruct (getitem l i) as [image_id|] eqn:Hi; cbn [bind]; [|discriminate].
  destruct (_get_annotation self w image_id) as [[[bx lb] fl]|] eqn:Ha;
    cbn [bind]; [|discriminate].
  destruct (getattr (keep_difficult self)) as [k|]; cbn [bind]; [|discriminate].
  destruct (if negb k then _ else _) as [[bx' lb']|]; cbn [bind];
    [|discriminate].
  destruct (_read_image self w image_id) as [image|] eqn:Hr; cbn [bind];
    [|discriminate].
  intros _. now exists image_id, (bx, lb, fl), image.
Qed.

Section Fetched.

Variable self : RecordDataset.
Variable w : World.
Variable bs : Z.
Hypothesis Hbs : batch_size self = Some bs.

(** When the loop ends without an error, every index it looked up was
    fetched. *)
Lemma batch_loop_fetched idxs : forall inputs t1 t2 r,
  snd (batch_loop self w idxs inputs t1 t2) = Ok r ->
  Forall (fun i => exists s, fetch self w i = Ok s)
         (fst (batch_loop self w idxs inputs t1 t2)).
Proof.
  induction idxs as [|i idxs IH]; intros inputs t1 t2 r; cbn.
  - constructor.
  - destruct (fetch self w i) as [[[image boxes] labels]|e] eqn:Hf; cbn;
      [|discriminate].
    rewrite Hbs; cbn.
    destruct (len (t1 ++ [boxes]) =? bs); cbn.
    + intros _. constructor; [eauto | constructor].
    + specialize (IH (inputs ++ [image]) (t1 ++ [boxes]) (t2 ++ [labels]) r).
      destruct (batch_loop self w idxs _ _ _) as [drawn r']; cbn in *.
      intros H. constructor; [eauto | now apply IH].
Qed.

(** With fewer indices than a batch still needs, an error of the loop is
    the error of the fetch of the index it looked up last; the indices
    before it were fetched. *)
Lemma batch_loop_raises idxs : forall inputs t1 t2 e,
  len t1 + len idxs < bs ->
  snd (batch_loop self w idxs inputs t1 t2) = Raise e ->
  exists pre i,
    fst (batch_loop self w idxs inputs t1 t2) = pre ++ [i]
    /\ Forall (fun j => exists s, fetch self w j = Ok s) pre
    /\ fetch self w i = Raise e.
Proof.
  induction idxs as [|i idxs IH]; intros inputs t1 t2 e Hlen; cbn.
  - discriminate.
  - unfold len in Hlen; cbn [List.length] in Hlen.
    destruct (fetch self w i) as [[[image boxes] labels]|e'] eqn:Hf; cbn.
    + rewrite Hbs; cbn.
      destruct (Z.eqb_spec (len (t1 ++ [boxes])) bs) as [E|E]; cbn.
      * unfold len in E. rewrite length_app in E. cbn in E. lia.
      * specialize (IH (inputs ++ [image]) (t1 ++ [boxes]) (t2 ++ [labels]) e).
        destruct (batch_loop self w idxs _ _ _) as [drawn r']; cbn in *.
        intros H. destruct IH as (pre & j & -> & Hpre & Hj); [|exact H|].
        -- unfold len. rewrite length_app. cbn. lia.
        -- exists (i :: pre), j. repeat split; [|exact Hj].
           constructor; [eauto | exact Hpre].
    + intros [= <-]. exists [], i. repeat split; [constructor | exact Hf].
Qed.

End Fetched.

(** C3. For every batch index [b] the indices of the batch are those of
    the range from [b * batch_size] up to, and without,
    [min ((b + 1) * batch_size) (N - 1)]: the loop looks up indices of
    that range only and, unless a sample fails, all of them, fetching for
    each the annotation and the image of the sample of that index. When
    the range holds fewer than [batch_size] indices the call returns no
    batch: it returns nothing when every sample of the range can be
    fetched, and raises the error of the first sample that cannot. *)
Theorem C3_batch_range_and_partial_batch self w b bs l :
  batch_size self = Some bs -> ids self = Some l ->
  (forall idxs, Permutation (shuffle w idxs) idxs) ->
  let range := Np.arange (b * bs) (Z.min ((b + 1) * bs) (len l - 1)) in
  let drawn := fst (__getitem__ self w b) in
  let outcome := snd (__getitem__ self w b) in
  (forall i, In i range <-> b * bs <= i < Z.min ((b + 1) * bs) (len l - 1))
  /\ batch_range self b = Ok range
  /\ (forall i, In i drawn -> In i range)
  /\ (forall r, outcome = Ok r -> Permutation drawn range)
  /\ (len range < bs ->
      (forall batch, outcome <> Ok (Some batch))
      /\ ((forall i, In i range -> exists s, fetch self w i = Ok s) ->
          outcome = Ok None))
  /\ (forall r, outcome = Ok r ->
                forall i, In i range -> exists s, fetch self w i = Ok s)
  /\ (len range < bs ->
      forall e, outcome = Raise e ->
                exists pre i,
                  drawn = pre ++ [i] /\ In i range
                  /\ Forall (fun j => exists s, fetch self w j = Ok s) pre
                  /\ fetch self w i = Raise e)
  /\ (forall i s,
        fetch self w i = Ok s ->
        exists image_id a image,
          getitem l i = Ok image_id
          /\ _get_annotation self w image_id = Ok a
          /\ _read_image self w image_id = Ok image).
Proof.
  intros Hb Hl Hperm range drawn outcome.
  assert (Hrange : batch_range self b = Ok range)
    by now apply batch_range_min.
  assert (Hlen : len (shuffle w range) = len range).
  { unfold len. f_equal. apply Permutation_length, Hperm. }
  assert (Hle : len range <= Z.max 0 bs).
  { unfold range. rewrite arange_length. lia. }
  subst drawn outcome. unfold __getitem__. rewrite Hrange.
  destruct (batch_loop_drawn self w bs Hb (shuffle w range) [] [] [])
    as [rest Hrest].
  assert (Hin : forall i,
            In i (fst (batch_loop self w (shuffle w range) [] [] [])) ->
            In i range).
  { intros i Hi. apply (Permutation_in i (Hperm range)).
    rewrite Hrest. apply in_or_app. now left. }
  assert (Hall : forall r,
            snd (batch_loop self w (shuffle w range) [] [] []) = Ok r ->
            Permutation (fst (batch_loop self w (shuffle w range) [] [] []))
                        range).
  { intros r Hr.
    pose proof (batch_loop_returns self w bs Hb _ _ _ _ _ Hr) as H.
    destruct r as [batch|].
    + assert (rest = []) as ->.
      { apply (f_equal len) in Hrest. unfold len in *.
        rewrite length_app in Hrest. cbn in H.
        destruct rest; [reflexivity | cbn in Hrest; lia]. }
      rewrite app_nil_r in Hrest. rewrite <- Hrest. apply Hperm.
    + rewrite H. apply Hperm. }
  split; [intros i; apply arange_In|]. split; [reflexivity|].
  split; [exact Hin|]. split; [exact Hall|].
  split; [intros Hlt; split|split; [|split]].
  - intros batch Hr.
    pose proof (batch_loop_returns self w bs Hb _ _ _ _ _ Hr) as H.
    cbn in H. apply (f_equal len) in Hrest. unfold len in *.
    rewrite length_app in Hrest. lia.
  - intros Hfetch. apply (batch_loop_runs_out self w bs Hb).
    + cbn [List.length len Z.of_nat]. unfold len in *. lia.
    + intros i Hi. apply Hfetch. apply (Permutation_in i (Hperm range) Hi).
  - intros r Hr i Hi.
    pose proof (batch_loop_fetched self w bs Hb _ _ _ _ _ Hr) as Hf.
    rewrite Forall_forall in Hf. apply Hf.
    apply (Permutation_in i (Permutation_sym (Hall r Hr)) Hi).
  - intros Hlt e He.
    destruct (batch_loop_raises self w bs Hb (shuffle w range) [] [] [] e)
      as (pre & i & Hd & Hpre & Hf); [|exact He|].
    + cbn [List.length len Z.of_nat]. unfold len in *. lia.
    + exists pre, i. split; [exact Hd|]. split; [|now split].
      apply Hin. rewrite Hd. apply in_or_app. right. now left.
  - intros i s. now apply fetch_reads_the_sample.
Qed.

(** C3 at the third batch index of six samples in batches of two: its
    range holds the index 4 alone, whose sample is fetched, and nothing is
    returned. *)
Lemma C3_batch_range_and_partial_batch_witness :
  fst (__getitem__ pairs_adapter Sample.annotated 2) = [4]
  /\ snd (__getitem__ pairs_adapter Sample.annotated 2) = Ok None.
Proof.
  split; [reflexivity|].
  destruct (C3_batch_range_and_partial_batch
              pairs_adapter Sample.annotated 2 2 _ eq_refl eq_refl
              (fun idxs => Permutation_sym (Permutation_rev idxs)))
    as (_ & _ & _ & _ & H & _).
  apply H; [reflexivity|].
  intros i [<-|[]]. eexists. reflexivity.
Defined.

(** A returned batch is assembled from the samples of the indices the
    loop looked up. *)
Lemma batch_loop_batch self w idxs : forall inputs t1 t2 batch,
  snd (batch_loop self w idxs inputs t1 t2) = Ok (Some batch) ->
  exists samples,
    Forall2 (fun i s => fetch self w i = Ok s)
            (fst (batch_loop self w idxs inputs t1 t2)) samples
    /\ assemble (inputs ++ List.map sample_image samples)
                (t1 ++ List.map sample_boxes samples)
                (t2 ++ List.map sample_labels samples) = Ok batch.
Proof.
  induction idxs as [|i idxs IH]; intros inputs t1 t2 batch; cbn.
  - discriminate.
  - destruct (fetch self w i) as [[[image boxes] labels]|e] eqn:Hf; cbn;
      [|discriminate].
    destruct (getattr (batch_size self)) as [bs|]; cbn; [|discriminate].
    destruct (len (t1 ++ [boxes]) =? bs); cbn.
    + destruct (assemble _ _ _) as [b'|] eqn:Ha; cbn; [|discriminate].
      intros [= <-]. exists [(image, boxes, labels)]. split.
      * constructor; [exact Hf | constructor].
      * exact Ha.
    + specialize (IH (inputs ++ [image]) (t1 ++ [boxes]) (t2 ++ [labels]) batch).
      destruct (batch_loop self w idxs _ _ _) as [drawn r]; cbn in *.
      intros H. destruct (IH H) as (samples & Hs & Ha).
      exists ((image, boxes, labels) :: samples). split.
      * constructor; assumption.
      * cbn. now rewrite <- !app_assoc in Ha.
Qed.

Lemma getitem_batch self w b batch :
  snd (__getitem__ self w b) = Ok (Some batch) ->
  exists samples,
    Forall2 (fun i s => fetch self w i = Ok s)
            (fst (__getitem__ self w b)) samples
    /\ assemble (List.map sample_image samples)
                (List.map sample_boxes samples)
                (List.map sample_labels samples) = Ok batch.
Proof.
  unfold __getitem__.
  destruct (batch_range self b) as [idxs|]; cbn; [|discriminate].
  apply (batch_loop_batch self w (shuffle w idxs) [] [] []).
Qed.

Lemma assemble_steps inputs target1 target2 ins target :
  assemble inputs target1 target2 = Ok (ins, target) ->
  exists t1 t2 t2',
    Np.stack target1 = Ok t1 /\ Np.stack target2 = Ok t2
    /\ Np.expand_dims t2 2 = Ok t2'
    /\ Np.concatenate (Np.map Float.to_float64 t1) (Np.map Float.of_Z t2') 2
       = Ok target.
Proof.
  unfold assemble.
  destruct (Np.stack inputs); cbn [bind]; [|discriminate].
  destruct (Np.stack target1) as [t1|]; cbn [bind]; [|discriminate].
  destruct (Np.stack target2) as [t2|]; cbn [bind]; [|discriminate].
  destruct (Np.expand_dims t2 2) as [t2'|] eqn:He; cbn [bind]; [|discriminate].
  destruct (Np.concatenate _ _ 2) as [t|] eqn:Hc; cbn [bind]; [|discriminate].
  intros [= _ <-]. exists t1, t2, t2'. auto.
Qed.

Lemma expand_dims_shape {A} (a a' : Np.ndarray A) axis :
  Np.expand_dims a axis = Ok a' ->
  (axis <= Np.ndim a)%nat
  /\ Np.shape a' = firstn axis (Np.shape a) ++ 1%nat :: skipn axis (Np.shape a)
  /\ Np.data a' = Np.data a.
Proof.
  unfold Np.expand_dims.
  destruct (Nat.leb_spec axis (Np.ndim a)); [|discriminate].
  intros [= <-]. auto.
Qed.

Lemma concatenate_shape {A} (a b c : Np.ndarray A) axis :
  Np.concatenate a b axis = Ok c ->
  (axis < Np.ndim a)%nat /\ Np.ndim b = Np.ndim a
  /\ firstn axis (Np.shape a) = firstn axis (Np.shape b)
  /\ skipn (S axis) (Np.shape a) = skipn (S axis) (Np.shape b)
  /\ Np.shape c
     = firstn axis (Np.shape a)
       ++ (nth axis (Np.shape a) 0 + nth axis (Np.shape b) 0)%nat
          :: skipn (S axis) (Np.shape a)
  /\ Np.data c
     = List.concat
         (Np.zip_app
            (Np.chunks (Np.size (firstn axis (Np.shape a)))
                       (Np.size (skipn axis (Np.shape a))) (Np.data a))
            (Np.chunks (Np.size (firstn axis (Np.shape a)))
                       (Np.size (skipn axis (Np.shape b))) (Np.data b))).
Proof.
  unfold Np.concatenate, Np.shape_eqb.
  destruct (Np.shape a) as [|n sa] eqn:Hs; [discriminate|]. rewrite <- Hs.
  destruct (Nat.ltb_spec axis (Np.ndim a)); cbn [negb]; [|discriminate].
  destruct (Nat.eqb_spec (Np.ndim b) (Np.ndim a)); cbn [negb]; [|discriminate].
  destruct (list_eq_dec Nat.eq_dec (firstn axis (Np.shape a)) _);
    cbn [negb andb]; [|discriminate].
  destruct (list_eq_dec Nat.eq_dec (skipn (S axis) (Np.shape a)) _);
    cbn [negb andb]; [|discriminate].
  intros [= <-]. cbn [Np.shape Np.data]. auto 10.
Qed.

(** C4, amended. In every batch that is returned the combined target is
    the stacked boxes concatenated, along axis 2, with the stacked labels
    to which a singleton axis was added at position 2. Its size along
    axis 2 is that of the stacked boxes plus 1 and its other axes are
    theirs. Axis 2 is the trailing axis when the stacked boxes have three
    axes, as with boxes of shape (n, 4) and labels of shape (n,) per
    sample; then the trailing axis of the combined target is the trailing
    axis of the boxes plus 1. *)
Theorem C4_combined_target_along_axis_2 self w b inputs target :
  snd (__getitem__ self w b) = Ok (Some (inputs, target)) ->
  exists samples t1 t2 t2',
    Forall2 (fun i s => fetch self w i = Ok s)
            (fst (__getitem__ self w b)) samples
    /\ Np.stack (List.map sample_boxes samples) = Ok t1
    /\ Np.stack (List.map sample_labels samples) = Ok t2
    /\ Np.expand_dims t2 2 = Ok t2'
    /\ Np.shape t2'
       = firstn 2 (Np.shape t2) ++ 1%nat :: skipn 2 (Np.shape t2)
    /\ Np.concatenate (Np.map Float.to_float64 t1) (Np.map Float.of_Z t2') 2
       = Ok target
    /\ nth 2 (Np.shape target) 0%nat = (nth 2 (Np.shape t1) 0 + 1)%nat
    /\ Np.ndim target = Np.ndim t1
    /\ (forall k, k <> 2%nat ->
                  nth k (Np.shape target) 0%nat = nth k (Np.shape t1) 0%nat)
    /\ (Np.ndim t1 = 3%nat ->
        last (Np.shape target) 0%nat = (last (Np.shape t1) 0 + 1)%nat).
Proof.
  intros H.
  destruct (getitem_batch self w b _ H) as (samples & Hs & Ha).
  destruct (assemble_steps _ _ _ _ _ Ha) as (t1 & t2 & t2' & H1 & H2 & He & Hc).
  exists samples, t1, t2, t2'.
  destruct (expand_dims_shape _ _ _ He) as (Hn2 & Hs2 & _).
  destruct (concatenate_shape _ _ _ _ Hc) as (Hn1 & _ & _ & _ & Hst & _).
  unfold Np.ndim in *. cbn [Np.map Np.shape] in Hn1, Hst.
  rewrite Hs2 in Hst.
  destruct (Np.shape t1) as [|a [|a' [|c rest]]]; cbn in Hn1; try lia.
  destruct (Np.shape t2) as [|x [|y r2]]; cbn in Hn2; try lia.
  cbn in Hst. rewrite Hst.
  refine (conj Hs (conj H1 (conj H2 (conj He (conj Hs2 (conj Hc _)))))).
  split; [reflexivity|]. split; [reflexivity|]. split.
  - intros [|[|[|k]]] Hk; cbn; congruence.
  - cbn. intros [= Hr]. destruct rest; [reflexivity | discriminate].
Qed.

(** C4 at the first batch of the sample adapter. *)
Lemma C4_combined_target_along_axis_2_witness :
  exists inputs target (t1 : Boxes),
    snd (__getitem__ Sample.adapter Sample.annotated 0)
    = Ok (Some (inputs, target))
    /\ Np.shape t1 = [1%nat; 1%nat; 4%nat]
    /\ nth 2 (Np.shape target) 0%nat = (nth 2 (Np.shape t1) 0 + 1)%nat.
Proof.
  destruct (C4_combined_target_along_axis_2
              Sample.adapter Sample.annotated 0 _ _ eq_refl)
    as (samples & t1 & t2 & t2' & Hs & H1 & _ & _ & _ & _ & H & _).
  do 2 eexists. exists t1. split; [reflexivity|]. split; [|exact H].
  inversion Hs as [|i s idxs ss Hf Hrest]; subst.
  inversion Hrest; subst.
  cbv in Hf. injection Hf as <-.
  cbv in H1. injection H1 as <-. reflexivity.
Defined.

(** C4 as stated fails with a target transform whose boxes have three
    axes per sample: the batch is returned, the stacked boxes have the
    shape (1, 1, 2, 3) and the combined target the shape (1, 1, 3, 3), so
    that the trailing axis of the combined target is that of the boxes, not
    one more. *)
Lemma C4_counterexample :
  exists inputs target (t1 : Boxes),
    snd (__getitem__ Sample.thick_adapter Sample.annotated 0)
    = Ok (Some (inputs, target))
    /\ Np.stack [Sample.thick_boxes] = Ok t1
    /\ Np.shape t1 = [1%nat; 1%nat; 2%nat; 3%nat]
    /\ Np.shape target = [1%nat; 1%nat; 3%nat; 3%nat]
    /\ last (Np.shape target) 0%nat = last (Np.shape t1) 0%nat.
Proof.
  do 3 eexists. split; [reflexivity|]. split; [reflexivity|]. repeat split.
Qed.

(** *** Rows in row-major order *)

Lemma firstn_skipn_row {A} (r tail : list A) k :
  List.length r = k ->
  firstn k (r ++ tail) = r /\ skipn k (r ++ tail) = tail.
Proof.
  intros <-. split.
  - rewrite firstn_app, Nat.sub_diag, firstn_all. cbn. apply app_nil_r.
  - rewrite skipn_app, Nat.sub_diag, skipn_all. reflexivity.
Qed.

Lemma chunks_concat {A} k (rows : list (list A)) :
  Forall (fun r => List.length r = k) rows ->
  Np.chunks (List.length rows) k (List.concat rows) = rows.
Proof.
  induction 1 as [|r rows Hr _ IH]; cbn.
  - reflexivity.
  - destruct (firstn_skipn_row r (List.concat rows) k Hr) as [-> ->].
    now rewrite IH.
Qed.

Lemma chunks_singletons {A} (l : list A) :
  Np.chunks (List.length l) 1 l = List.map (fun x => [x]) l.
Proof.
  induction l as [|x l IH]; cbn; [reflexivity|]. now rewrite IH.
Qed.

Lemma select_map {A B} (f : A -> B) (xs : list A) : forall m,
  Np.select (List.map f xs) m = List.map f (Np.select xs m).
Proof.
  induction xs as [|x xs IH]; intros [|[|] m]; cbn; try reflexivity.
  - now rewrite IH.
  - apply IH.
Qed.

Lemma select_filter {A} (p : A -> bool) (xs : list A) :
  Np.select xs (List.map p xs) = List.filter p xs.
Proof.
  induction xs as [|x xs IH]; cbn; [reflexivity|].
  destruct (p x); now rewrite IH.
Qed.

Lemma zip_app_map {A B} (f g : A -> list B) (xs : list A) :
  Np.zip_app (List.map f xs) (List.map g xs)
  = List.map (fun x => f x ++ g x) xs.
Proof.
  induction xs as [|x xs IH]; cbn; [reflexivity|]. now rewrite IH.
Qed.

Lemma concat_singletons {A} (l : list A) :
  List.concat (List.map (fun x => [x]) l) = l.
Proof.
  induction l as [|x l IH]; cbn; [reflexivity|]. now rewrite IH.
Qed.

Lemma combine3_map {A B C D} (f : A -> B) (g : A -> C) (h : A -> D)
  (xs : list A) :
  combine (combine (List.map f xs) (List.map g xs)) (List.map h xs)
  = List.map (fun x => (f x, g x, h x)) xs.
Proof.
  induction xs as [|x xs IH]; cbn; [reflexivity|]. now rewrite IH.
Qed.

Lemma stack_shapes {A} (l : list (Np.ndarray A)) t a :
  Np.stack l = Ok t -> In a l ->
  Np.shape t = List.length l :: Np.shape a
  /\ Np.data t = List.concat (List.map Np.data l).
Proof.
  unfold Np.stack. destruct l as [|a0 rest]; [intros _ []|].
  destruct (forallb _ rest) eqn:Hall; [|discriminate].
  intros [= <-] Hin. cbn [Np.shape Np.data]. split; [|reflexivity].
  f_equal. destruct Hin as [<-|Hin]; [reflexivity|].
  rewrite forallb_forall in Hall. specialize (Hall a Hin).
  unfold Np.shape_eqb in Hall.
  destruct (list_eq_dec Nat.eq_dec _ _); [congruence | discriminate].
Qed.

(** *** The arrays of an annotation *)

Lemma annotation_loop_rows self objects : forall bs ls fs bs' ls' fs',
  annotation_loop self objects bs ls fs = Ok (bs', ls', fs') ->
  exists dets,
    Forall (fun det => List.length (box det) = 4%nat) dets
    /\ bs' = bs ++ List.map box dets /\ ls' = ls ++ List.map label dets
    /\ fs' = fs ++ List.map flag dets.
Proof.
  induction objects as [|o rest IH]; intros bs ls fs bs' ls' fs'; cbn.
  - intros [= <- <- <-]. exists []. cbn. now rewrite !app_nil_r.
  - destruct (ET.find o "name") as [name|]; cbn; [|discriminate].
    destruct (ET.text name) as [t|]; cbn; [|discriminate].
    destruct (class_dict self) as [d|]; cbn; [|discriminate].
    destruct (Dict.mem d (Str.strip (Str.lower t))); [|apply IH].
    destruct (coordinate _ "xmin") as [x1|]; cbn; [|discriminate].
    destruct (coordinate _ "ymin") as [y1|]; cbn; [|discriminate].
    destruct (coordinate _ "xmax") as [x2|]; cbn; [|discriminate].
    destruct (coordinate _ "ymax") as [y2|]; cbn; [|discriminate].
    destruct (lookup d _) as [lb|]; cbn; [|discriminate].
    destruct (ET.find o "difficult") as [e|]; cbn; [|discriminate].
    destruct (difficult_flag (ET.text e)) as [fl|]; cbn; [|discriminate].
    intros H. destruct (IH _ _ _ _ _ _ H) as (dets & Hlen & -> & -> & ->).
    exists (([x1; y1; x2; y2], lb, fl) :: dets). cbn.
    rewrite <- !app_assoc. repeat split. constructor; [reflexivity | exact Hlen].
Qed.

Lemma map_stored_box dets :
  List.map (List.map Float.to_float32) (List.map box dets)
  = List.map box (List.map stored dets).
Proof. now rewrite !map_map. Qed.

(** An annotation that is returned is the arrays of its detections. *)
Lemma get_annotation_rows self w image_id a :
  _get_annotation self w image_id = Ok a ->
  exists dets,
    Forall (fun det => List.length (box det) = 4%nat) dets
    /\ a = arrays_of dets /\ detections_in a = dets.
Proof.
  unfold _get_annotation.
  destruct (getattr (root self)) as [r|]; cbn [bind]; [|discriminate].
  destruct (ET_parse w _) as [tree|]; cbn [bind]; [|discriminate].
  destruct (annotation_loop self _ [] [] []) as [[[bs ls] fs]|] eqn:Hl;
    cbn [bind]; [|discriminate].
  destruct (annotation_loop_rows self _ _ _ _ _ _ _ Hl)
    as (dets & Hlen & -> & -> & ->).
  assert (E : as_arrays ([] ++ List.map box dets, [] ++ List.map label dets,
                         [] ++ List.map flag dets)
              = arrays_of (List.map stored dets)).
  { unfold as_arrays, arrays_of. cbn [app].
    rewrite map_stored_box. now rewrite !map_map. }
  rewrite E. intros H. assert (Ea : a = arrays_of (List.map stored dets))
    by congruence. subst a. clear H E Hl.
  exists (List.map stored dets).
  assert (Hlen' : Forall (fun det => List.length (box det) = 4%nat)
                         (List.map stored dets)).
  { apply Forall_map. eapply Forall_impl; [|exact Hlen].
    intros det H. cbn. now rewrite length_map. }
  split; [exact Hlen'|]. split; [reflexivity|].
  revert Hlen'. generalize (List.map stored dets). clear.
  intros ds Hlen. unfold arrays_of, detections_in.
  rewrite array2_data. cbn [Np.array1 Np.data].
  replace (List.length (List.map label ds))
    with (List.length (List.map box ds)) by now rewrite !length_map.
  rewrite chunks_concat by now apply Forall_map.
  rewrite combine3_map. rewrite <- (map_id ds) at 2.
  apply map_ext. now intros [[bx lb] fl].
Qed.

Lemma mask_rows {A} n rest (xs : list A) (m : list bool) rows :
  List.length m = n ->
  Np.chunks n (Np.size rest) xs = rows ->
  Np.mask (Np.mk (n :: rest) xs) (Np.mk [List.length m] m)
  = Ok (Np.mk (List.length (Np.select rows m) :: rest)
              (List.concat (Np.select rows m))).
Proof.
  intros Hm <-. unfold Np.mask. cbn [Np.shape Np.data].
  now rewrite Hm, Nat.eqb_refl.
Qed.

(** Lines 98-100 on the arrays of an annotation: the boxes and the
    labels of the detections whose flag is 0, the same detections in
    both. *)
Lemma drop_difficult_rows dets :
  Forall (fun det => List.length (box det) = 4%nat) dets ->
  let '(boxes, labels, is_difficult) := arrays_of dets in
  let kept := List.filter easy dets in
  drop_difficult boxes labels is_difficult
  = Ok (Np.mk (List.length kept :: match dets with [] => [] | _ => [4%nat] end)
              (List.concat (List.map box kept)),
        Np.mk [List.length kept] (List.map label kept)).
Proof.
  intros Hlen. unfold arrays_of, drop_difficult, Np.array1, Np.map.
  cbn [Np.shape Np.data].
  set (m := List.map (fun d => d =? 0) (List.map flag dets)).
  assert (Em : m = List.map easy dets) by (unfold m; now rewrite map_map).
  assert (Lm : List.length (List.map flag dets) = List.length m)
    by (unfold m; now rewrite !length_map).
  rewrite Lm.
  assert (Hb : Np.mask (Np.array2 (List.map box dets))
                       (Np.mk [List.length m] m)
               = Ok (Np.mk (List.length (List.filter easy dets)
                            :: match dets with [] => [] | _ => [4%nat] end)
                           (List.concat (List.map box (List.filter easy dets))))).
  { destruct dets as [|d0 ds]; [reflexivity|].
    unfold Np.array2. cbn [List.map].
    rewrite (Forall_inv Hlen).
    rewrite (mask_rows _ [4%nat] _ m (List.map box (d0 :: ds))).
    - rewrite Em, select_map, select_filter. now rewrite length_map.
    - rewrite Em. cbn [List.map List.length]. now rewrite !length_map.
    - change (Np.size [4%nat]) with 4%nat.
      apply (chunks_concat 4 (List.map box (d0 :: ds))).
      now apply Forall_map. }
  rewrite Hb; cbn [bind].
  rewrite (mask_rows _ [] _ m
             (List.map (fun x => [x]) (List.map label dets))).
  - cbn [bind]. rewrite Em, select_map, select_map, select_filter.
    now rewrite concat_singletons, !length_map.
  - rewrite Em. now rewrite !length_map.
  - change (Np.size []) with 1%nat. apply chunks_singletons.
Qed.

(** One sample of an adapter that drops the difficult detections: the
    transforms are handed the boxes and the labels of the detections of
    the annotation whose flag is 0. *)
Lemma fetch_masked self w i s tf ttf :
  keep_difficult self = Some false ->
  transform self = Some tf -> target_transform self = Some ttf ->
  fetch self w i = Ok s ->
  exists image_id a image,
    get_annotation self w i = Ok (image_id, a)
    /\ Forall (fun det => List.length (box det) = 4%nat) (detections_in a)
    /\ _read_image self w image_id = Ok image
    /\ apply_transforms tf ttf image (kept_boxes a) (kept_labels a) = Ok s.
Proof.
  intros Hk Ht Htt. unfold fetch, get_annotation.
  destruct (getattr (ids self)) as [l|]; cbn [bind]; [|discriminate].
  destruct (getitem l i) as [image_id|]; cbn [bind]; [|discriminate].
  destruct (_get_annotation self w image_id) as [a|] eqn:Ha; cbn [bind];
    [|discriminate].
  destruct (get_annotation_rows self w image_id a Ha) as (dets & Hlen & -> & Hd).
  pose proof (drop_difficult_rows dets Hlen) as Hdrop.
  intros H. exists image_id, (arrays_of dets).
  unfold kept_boxes, kept_labels, kept_detections. rewrite Hd.
  unfold arrays_of in Hdrop, H.
  rewrite Hk, Ht, Htt in H; cbn [getattr bind negb] in H.
  rewrite Hdrop in H; cbn [bind] in H.
  destruct (_read_image self w image_id) as [image|]; cbn [bind] in H;
    [|discriminate].
  exists image. split; [reflexivity|]. split; [exact Hlen|].
  split; [reflexivity|]. exact H.
Qed.

(** Transforms that keep their targets return those boxes and labels. *)
Lemma apply_transforms_keeps tf ttf image boxes labels s :
  keeps_targets tf -> keeps_its_targets ttf ->
  apply_transforms tf ttf image boxes labels = Ok s ->
  sample_boxes s = boxes /\ sample_labels s = labels.
Proof.
  intros Hkeep Hkeep'. unfold apply_transforms.
  destruct tf as [f|]; cbn [bind].
  - destruct (call f image boxes labels) as [[[i' b'] l']|e] eqn:Hc;
      cbn [bind]; [|discriminate].
    destruct (Hkeep _ _ _ _ _ _ Hc) as [-> ->].
    destruct ttf as [g|]; cbn [bind].
    + destruct (g boxes labels) as [[b' l']|e] eqn:Hg; cbn [bind];
        [|discriminate].
      destruct (Hkeep' _ _ _ _ Hg) as [-> ->]. intros [= <-]. now split.
    + intros [= <-]. now split.
  - destruct ttf as [g|]; cbn [bind].
    + destruct (g boxes labels) as [[b' l']|e] eqn:Hg; cbn [bind];
        [|discriminate].
      destruct (Hkeep' _ _ _ _ Hg) as [-> ->]. intros [= <-]. now split.
    + intros [= <-]. now split.
Qed.

Lemma concat_map_concat {A B} (f : A -> list B) (K : list (list A)) :
  List.concat (List.map f (List.concat K))
  = List.concat (List.map (fun k => List.concat (List.map f k)) K).
Proof.
  induction K as [|k K IH]; cbn; [reflexivity|].
  now rewrite map_app, concat_app, IH.
Qed.

Lemma length_concat_rows {A} (K : list (list A)) k0 :
  Forall (fun k => List.length k = k0) K ->
  List.length (List.concat K) = (List.length K * k0)%nat.
Proof.
  induction 1 as [|k K Hk _ IH]; cbn; [reflexivity|].
  rewrite length_app, IH, Hk. reflexivity.
Qed.

(** The rows of the combined target of [K], the kept detections of each
    sample, [k0] per sample. *)
Lemma combined_rows (K : list (list Detection)) k0 t1 t2' target :
  Forall (Forall (fun det => List.length (box det) = 4%nat)) K ->
  Forall (fun k => List.length k = k0) K ->
  Np.shape t1 = [List.length K; k0; 4%nat] ->
  Np.data t1 = List.concat (List.map (fun k => List.concat (List.map box k)) K) ->
  Np.shape t2' = [List.length K; k0; 1%nat] ->
  Np.data t2' = List.concat (List.map (List.map label) K) ->
  Np.concatenate (Np.map Float.to_float64 t1) (Np.map Float.of_Z t2') 2
  = Ok target ->
  Np.data target
  = List.concat (List.map (fun k => List.concat (List.map target_row k)) K).
Proof.
  intros Hlen Hk Hs1 Hd1 Hs2 Hd2 Hc.
  destruct (concatenate_shape _ _ _ _ Hc) as (_ & _ & _ & _ & _ & ->).
  cbn [Np.map Np.shape Np.data]. rewrite Hs1, Hs2, Hd1, Hd2.
  change (Np.size (firstn 2 [List.length K; k0; 4%nat]))
    with (List.length K * (k0 * 1))%nat.
  change (Np.size (skipn 2 [List.length K; k0; 4%nat])) with (4 * 1)%nat.
  change (Np.size (skipn 2 [List.length K; k0; 1%nat])) with (1 * 1)%nat.
  rewrite !Nat.mul_1_r.
  rewrite <- (length_concat_rows K k0 Hk).
  rewrite <- concat_map_concat, <- concat_map.
  set (all := List.concat K).
  assert (Hall : Forall (fun det => List.length (box det) = 4%nat) all).
  { unfold all. clear -Hlen. induction Hlen as [|k K Hk _ IH]; cbn.
    - constructor.
    - apply Forall_app. now split. }
  rewrite (concat_map Float.to_float64 (List.map box all)).
  replace (List.length all)
    with (List.length (List.map (List.map Float.to_float64) (List.map box all)))
    at 1 by now rewrite !length_map.
  rewrite (chunks_concat 4).
  - replace (List.length all)
      with (List.length (List.map Float.of_Z (List.map label all)))
      by now rewrite !length_map.
    rewrite chunks_singletons, !map_map.
    rewrite (zip_app_map (fun x => List.map Float.to_float64 (box x))
                         (fun x => [Float.of_Z (label x)]) all).
    unfold all. now rewrite concat_map_concat.
  - rewrite map_map. apply Forall_map. eapply Forall_impl; [|exact Hall].
    intros det H. cbn. now rewrite length_map.
Qed.

Lemma Forall2_map_eq {A B C} (f : A -> C) (g : B -> C) xs ys :
  Forall2 (fun x y => f x = g y) xs ys -> List.map f xs = List.map g ys.
Proof. induction 1; cbn; congruence. Qed.

(** The combined target of samples that are the kept detections of
    their annotations. *)
Lemma plain_batch_data (anns : list Annotation) ins target :
  Forall (fun a => Forall (fun det => List.length (box det) = 4%nat)
                          (detections_in a)) anns ->
  assemble ins (List.map kept_boxes anns) (List.map kept_labels anns)
  = Ok target ->
  Np.data (snd target)
  = List.concat
      (List.map (fun a => List.concat (List.map target_row (kept_detections a)))
                anns).
Proof.
  intros Hlen Ha. destruct target as [inputs target].
  destruct (assemble_steps _ _ _ _ _ Ha) as (t1 & t2 & t2' & H1 & H2 & He & Hc).
  cbn [snd].
  destruct (concatenate_shape _ _ _ _ Hc) as (Hn & _).
  unfold Np.ndim in Hn. cbn [Np.map Np.shape] in Hn.
  destruct anns as [|a0 anns'].
  { cbn in H1. injection H1 as <-. cbn in Hn. lia. }
  set (anns := a0 :: anns') in *.
  set (k0 := List.length (kept_detections a0)).
  assert (Hsh1 : forall a, In a anns ->
            Np.shape t1 = List.length anns :: Np.shape (kept_boxes a)).
  { intros a Hin.
    destruct (stack_shapes _ t1 (kept_boxes a) H1) as [E _].
    - now apply in_map.
    - now rewrite length_map in E. }
  assert (H4 : Np.shape t1 = [List.length anns; k0; 4%nat]).
  { rewrite (Hsh1 a0 (or_introl eq_refl)) in Hn |- *.
    unfold kept_boxes in *. cbn [Np.shape] in *. fold k0.
    destruct (detections_in a0); cbn in Hn; [lia | reflexivity]. }
  assert (Hk : Forall (fun k => List.length k = k0)
                      (List.map kept_detections anns)).
  { apply Forall_map, Forall_forall. intros a Hin.
    pose proof (Hsh1 a Hin) as E. rewrite H4 in E.
    unfold kept_boxes in E. cbn [Np.shape] in E. congruence. }
  assert (Hl4 : Forall (Forall (fun det => List.length (box det) = 4%nat))
                       (List.map kept_detections anns)).
  { apply Forall_map. eapply Forall_impl; [|exact Hlen].
    intros a Hall. unfold kept_detections.
    apply Forall_forall. intros det Hin. apply filter_In in Hin.
    rewrite Forall_forall in Hall. now apply Hall. }
  destruct (stack_shapes _ t1 (kept_boxes a0) H1) as [_ Hd1];
    [now left|].
  destruct (stack_shapes _ t2 (kept_labels a0) H2) as [Hs2 Hd2];
    [now left|].
  destruct (expand_dims_shape _ _ _ He) as (_ & Hs2' & Hd2').
  rewrite Hs2 in Hs2'. rewrite length_map in Hs2'. cbn in Hs2'. fold k0 in Hs2'.
  rewrite <- (map_map kept_detections
                (fun k => List.concat (List.map target_row k))).
  apply (combined_rows (List.map kept_detections anns) k0 t1 t2' target);
    rewrite ?length_map; try assumption.
  - rewrite Hd1. now rewrite !map_map.
  - rewrite Hd2', Hd2. now rewrite !map_map.
Qed.

(** C5. With [keep_difficult] false the mask of the detections whose
    difficulty flag is 0 is applied to the boxes and to the labels of
    every sample that is fetched, to both alike: the transforms are handed
    the boxes and the labels of exactly those detections. With transforms
    that bring in no detection, as they hand back the targets they are
    given, the combined target of a returned batch holds, sample by sample
    in the order the samples were looked up, the rows of exactly those
    detections, the box of a detection followed by its label; no detection
    whose flag is 1 is among them. *)
Theorem C5_difficult_detections_are_dropped self w tf ttf :
  keep_difficult self = Some false ->
  transform self = Some tf -> target_transform self = Some ttf ->
  (forall i s,
     fetch self w i = Ok s ->
     exists image_id a image,
       get_annotation self w i = Ok (image_id, a)
       /\ _read_image self w image_id = Ok image
       /\ apply_transforms tf ttf image (kept_boxes a) (kept_labels a) = Ok s
       /\ Np.data (kept_boxes a)
          = List.concat (List.map box (kept_detections a))
       /\ Np.data (kept_labels a) = List.map label (kept_detections a)
       /\ (forall det, In det (kept_detections a)
                       <-> In det (detections_in a) /\ flag det = 0))
  /\ (keeps_targets tf -> keeps_its_targets ttf ->
      forall b inputs target,
        snd (__getitem__ self w b) = Ok (Some (inputs, target)) ->
        exists anns,
          Forall2 (fun i a => exists image_id,
                                get_annotation self w i = Ok (image_id, a))
                  (fst (__getitem__ self w b)) anns
          /\ Np.data target
             = List.concat
                 (List.map (fun a => List.concat
                                       (List.map target_row (kept_detections a)))
                           anns)
          /\ Forall (fun a =>
                       forall det, In det (detections_in a) -> flag det = 1 ->
                                   ~ In det (kept_detections a)) anns).
Proof.
  intros Hk Ht Htt. split.
  - intros i s Hf.
    destruct (fetch_masked self w i s tf ttf Hk Ht Htt Hf)
      as (image_id & a & image & Hga & _ & Hi & Ha).
    exists image_id, a, image.
    repeat (split; [assumption || reflexivity|]).
    intros det. unfold kept_detections, easy.
    rewrite filter_In, Z.eqb_eq. reflexivity.
  - intros Hkeep Hkeep' b inputs target H.
    destruct (getitem_batch self w b _ H) as (samples & Hs & Ha).
    assert (Hanns : exists anns,
      Forall2 (fun i a => exists image_id,
                            get_annotation self w i = Ok (image_id, a))
              (fst (__getitem__ self w b)) anns
      /\ Forall2 (fun s a => sample_boxes s = kept_boxes a) samples anns
      /\ Forall2 (fun s a => sample_labels s = kept_labels a) samples anns
      /\ Forall (fun a => Forall (fun det => List.length (box det) = 4%nat)
                                 (detections_in a)) anns).
    { clear Ha H. induction Hs as [|i s idxs ss Hf _ IH].
      - exists []. repeat split; constructor.
      - destruct IH as (anns & Hg & Hb & Hl & H4).
        destruct (fetch_masked self w i s tf ttf Hk Ht Htt Hf)
          as (image_id & a & image & Hga & Ha4 & _ & Hat).
        destruct (apply_transforms_keeps _ _ _ _ _ _ Hkeep Hkeep' Hat)
          as [Hab Hal].
        exists (a :: anns). repeat split; constructor; eauto. }
    destruct Hanns as (anns & Hg & Hb & Hl & H4).
    exists anns. split; [exact Hg|].
    rewrite (Forall2_map_eq _ _ _ _ Hb), (Forall2_map_eq _ _ _ _ Hl) in Ha.
    split; [exact (plain_batch_data anns _ _ H4 Ha)|].
    apply Forall_forall; intros a _ det; unfold kept_detections, easy.
    intros _ Hf Hin. apply filter_In in Hin as [_ Hz].
    apply Z.eqb_eq in Hz. lia.
Qed.

(** C5 at the first batch of the sample adapter: a cat that is not
    difficult and a dog that is. *)
Lemma C5_difficult_detections_are_dropped_witness :
  exists inputs target,
    snd (__getitem__ Sample.adapter Sample.annotated 0)
    = Ok (Some (inputs, target))
    /\ Np.data target
       = List.map Float.of_Z [0; 1; 29; 39; 1].
Proof.
  destruct (C5_difficult_detections_are_dropped
              Sample.adapter Sample.annotated None None
              eq_refl eq_refl eq_refl) as [_ Hbatch].
  destruct (Hbatch I I 0 _ _ eq_refl) as (anns & Hg & Hd & _).
  do 2 eexists. split; [reflexivity|].
  inversion Hg as [|i a idxs anns' [image_id Ha] Hrest]; subst.
  inversion Hrest; subst.
  cbv in Ha. injection Ha as _ <-.
  rewrite Hd. reflexivity.
Defined.

(** ** Strings *)

Lemma rstrip_idempotent s : Str.rstrip (Str.rstrip s) = Str.rstrip s.
Proof.
  induction s as [|c s IH]; cbn; [reflexivity|].
  destruct (Str.rstrip s) as [|d r] eqn:E.
  - destruct (Str.is_space c) eqn:Hc; cbn; [reflexivity|]. now rewrite Hc.
  - cbn [Str.rstrip]. cbn [Str.rstrip] in IH. now rewrite IH.
Qed.

Lemma has_char_rstrip x s :
  has_char x (Str.rstrip s) = true -> has_char x s = true.
Proof.
  induction s as [|c s IH]; cbn; [trivial|].
  destruct (Str.rstrip s) as [|d r].
  - destruct (Str.is_space c); cbn; [discriminate|].
    rewrite orb_false_r. intros ->. reflexivity.
  - cbn [has_char]. intros H. apply orb_true_iff in H as [H|H].
    + now rewrite H.
    + rewrite (IH H). apply orb_true_r.
Qed.

Lemma has_char_lstrip x s :
  has_char x (Str.lstrip s) = true -> has_char x s = true.
Proof.
  induction s as [|c s IH]; cbn; [trivial|].
  destruct (Str.is_space c); [|trivial].
  intros H. rewrite (IH H). apply orb_true_r.
Qed.

Lemma has_char_strip x s :
  has_char x (Str.strip s) = true -> has_char x s = true.
Proof. intros H. now apply has_char_rstrip, has_char_lstrip. Qed.

Lemma rstrip_app_space s c :
  Str.is_space c = true ->
  Str.rstrip (String.append s (String c EmptyString)) = Str.rstrip s.
Proof.
  intros Hc. induction s as [|d s IH]; cbn.
  - now rewrite Hc.
  - now rewrite IH.
Qed.

Lemma has_char_append x s t :
  has_char x (String.append s t) = has_char x s || has_char x t.
Proof.
  induction s as [|c s IH]; cbn; [reflexivity|].
  now rewrite IH, orb_assoc.
Qed.

(** A line has no newline but, possibly, its last character. *)
Lemma lines_shape s :
  Forall (fun l => exists body,
                     has_char newline body = false
                     /\ (l = body
                         \/ l = String.append body (String newline EmptyString)))
         (Str.lines s).
Proof.
  induction s as [|c s IH]; cbn; [constructor|].
  change "010"%char with newline.
  destruct (Ascii.eqb c newline) eqn:Hc.
  - apply Ascii.eqb_eq in Hc as ->.
    constructor; [|exact IH]. exists EmptyString. split; [reflexivity|now right].
  - destruct (Str.lines s) as [|l ls].
    + constructor; [|constructor]. exists (String c EmptyString).
      split; [cbn; now rewrite Hc | now left].
    + inversion IH as [|? ? (body & Hb & Hl) Hls]; subst.
      constructor; [|exact Hls].
      exists (String c body). split; [cbn; now rewrite Hc, Hb|].
      destruct Hl as [->| ->]; [now left | now right].
Qed.

Lemma lines_no_newline s :
  has_char newline s = false ->
  Str.lines s = match s with EmptyString => [] | _ => [s] end.
Proof.
  induction s as [|c s IH]; cbn; [reflexivity|].
  intros H. apply orb_false_iff in H as [Hc Hs].
  change "010"%char with newline. rewrite Hc, (IH Hs). now destruct s.
Qed.

Lemma lines_no_newline_then_newline s :
  has_char newline s = false ->
  Str.lines (String.append s (String newline EmptyString))
  = [String.append s (String newline EmptyString)].
Proof.
  induction s as [|c s IH]; cbn; [reflexivity|].
  intros H. apply orb_false_iff in H as [Hc Hs].
  change "010"%char with newline. now rewrite Hc, (IH Hs).
Qed.

Lemma fold_left_append_map {A B} (f : A -> B) (xs : list A) : forall acc,
  fold_left (fun ids x => ids ++ [f x]) xs acc = acc ++ List.map f xs.
Proof.
  induction xs as [|x xs IH]; intros acc; cbn.
  - now rewrite app_nil_r.
  - now rewrite IH, <- app_assoc.
Qed.

(** ** The index file *)

(** X1. [_read_image_ids] raises when the file is missing; when it
    returns, it gives one identifier per line of the file, in order, and
    no identifier holds a newline or ends in whitespace. *)
Theorem read_image_ids_are_stripped_lines w p :
  (fs w p = None -> _read_image_ids w p = Raise FileNotFoundError)
  /\ forall ids,
       _read_image_ids w p = Ok ids ->
       exists f,
         fs w p = Some (File f)
         /\ ids = List.map Str.rstrip (Str.lines f)
         /\ List.length ids = List.length (Str.lines f)
         /\ Forall (fun id => has_char newline id = false
                              /\ Str.rstrip id = id) ids.
Proof.
  unfold _read_image_ids, open_read. split.
  - now intros ->.
  - intros ids. destruct (fs w p) as [[f|]|]; cbn [bind]; try discriminate.
    rewrite fold_left_append_map. cbn [app]. intros [= <-].
    exists f. split; [reflexivity|]. split; [reflexivity|].
    split; [apply length_map|].
    apply Forall_map. eapply Forall_impl; [|apply lines_shape].
    intros l (body & Hb & Hl). split; [|apply rstrip_idempotent].
    destruct (has_char newline (Str.rstrip l)) eqn:E; [|reflexivity].
    destruct Hl as [->| ->].
    + apply has_char_rstrip in E. congruence.
    + rewrite rstrip_app_space in E by reflexivity.
      apply has_char_rstrip in E. congruence.
Qed.

(** X1 at an index file of three lines. *)
Lemma read_image_ids_are_stripped_lines_witness :
  exists f, fs index_file "data/train.txt" = Some (File f)
            /\ ["a"; "b"; "c"] = List.map Str.rstrip (Str.lines f).
Proof.
  destruct (read_image_ids_are_stripped_lines index_file "data/train.txt")
    as [_ H].
  destruct (H _ eq_refl) as (f & Hf & Hids & _).
  exists f. now split.
Defined.

(** ** What the constructor leaves *)

(** X2. Whatever its input, the constructor leaves an object whose root,
    batch size and transforms are the arguments and on which the number
    of batches, the class names, the class dictionary and the feature list
    are not assigned: lines 42-72 are never reached. *)
Theorem init_stops_before_the_classes w r tf ttf is_test kd bs :
  let o := fst (__init__ w r tf ttf is_test kd bs blank) in
  root o = Some r /\ batch_size o = Some bs
  /\ transform o = Some tf /\ target_transform o = Some ttf
  /\ num_batches o = None /\ class_names o = None
  /\ class_dict o = None /\ feature_list o = None.
Proof.
  run_stmt.
  destruct is_test; destruct (isfile w (path_join r "num_val.txt"));
    repeat break_result; cbn; repeat split.
Qed.

(** ** Class names and their ids *)

Lemma last_position_exists names k :
  In k names -> exists n, last_position names k n.
Proof.
  induction names as [|name rest IH]; intros Hin; [contradiction|].
  destruct (in_dec string_dec k rest) as [Hr|Hr].
  - destruct (IH Hr) as (n & Hn & Hlast). exists (S n). split; [exact Hn|].
    intros [|j] Hj; [lia|]. apply Hlast. lia.
  - destruct Hin as [->|Hin]; [|contradiction].
    exists 0%nat. split; [reflexivity|].
    intros [|j] Hj Hk; [lia|]. apply Hr. eapply nth_error_In, Hk.
Qed.

Lemma last_position_unique names k n m :
  last_position names k n -> last_position names k m -> n = m.
Proof.
  intros [Hn Hln] [Hm Hlm].
  destruct (Nat.lt_trichotomy n m) as [H|[H|H]]; [|exact H|].
  - now destruct (Hln m H).
  - now destruct (Hlm n H).
Qed.

(** X3. The class dictionary built from the class names maps a name to
    the last of its positions in them and knows no other key: looking a
    name up and indexing the class names with the id gives the name
    back, and every id is a position of the list. *)
Theorem class_dict_maps_names_to_positions o names :
  class_names o = Some names ->
  exists d,
    class_dict (fst (build_class_dict o)) = Some d
    /\ (forall k v, Dict.get d k = Some v
                    <-> exists n, v = Z.of_nat n /\ last_position names k n)
    /\ (forall k, Dict.mem d k = true <-> In k names)
    /\ (forall k v, Dict.get d k = Some v ->
                    0 <= v < len names
                    /\ nth_error names (Z.to_nat v) = Some k).
Proof.
  intros Hn. unfold build_class_dict, seq_, eval, assign. rewrite Hn; cbn.
  eexists. split; [reflexivity|].
  assert (Hget : forall k v,
    Dict.get (Dict.of_enumerate names 0 []) k = Some v
    <-> exists n, v = Z.of_nat n /\ last_position names k n).
  { intros k v. split.
    - intros Hg. destruct (in_dec string_dec k names) as [Hin|Hin].
      + destruct (last_position_exists names k Hin) as (n & Hp).
        exists n. split; [|exact Hp]. destruct Hp as [H1 H2].
        rewrite (of_enumerate_last names 0 [] n k H1 H2) in Hg.
        injection Hg as <-. lia.
      + rewrite (of_enumerate_other names 0 [] k Hin) in Hg. discriminate.
    - intros (n & -> & H1 & H2).
      now rewrite (of_enumerate_last names 0 [] n k H1 H2). }
  split; [exact Hget|]. split.
  - intros k. unfold Dict.mem. split.
    + destruct (Dict.get _ k) as [v|] eqn:Hg; [|discriminate]. intros _.
      apply Hget in Hg as (n & _ & H1 & _). eapply nth_error_In, H1.
    + intros Hin. destruct (last_position_exists names k Hin) as (n & Hp).
      now rewrite (proj2 (Hget k (Z.of_nat n)) (ex_intro _ n (conj eq_refl Hp))).
  - intros k v Hg. apply Hget in Hg as (n & -> & H1 & _).
    rewrite Nat2Z.id. split; [|exact H1].
    assert (n < List.length names)%nat by (apply nth_error_Some; congruence).
    unfold len. lia.
Qed.

(** X3 at three class names. *)
Lemma class_dict_maps_names_to_positions_witness :
  exists d,
    class_dict (fst (build_class_dict Sample.adapter)) = Some d
    /\ forall k v, Dict.get d k = Some v ->
                   0 <= v < 3
                   /\ nth_error ["BACKGROUND"; "cat"; "dog"] (Z.to_nat v)
                      = Some k.
Proof.
  destruct (class_dict_maps_names_to_positions
              Sample.adapter ["BACKGROUND"; "cat"; "dog"] eq_refl)
    as (d & Hd & _ & _ & H).
  exists d. split; [exact Hd | exact H].
Defined.

Lemma split_length sep s :
  List.length (Str.split sep s) = S (count_char sep s).
Proof.
  induction s as [|c s IH]; cbn; [reflexivity|].
  destruct (Ascii.eqb c sep); cbn; [now rewrite IH|].
  destruct (Str.split sep s); cbn in *; lia.
Qed.

Lemma split_no_sep sep s :
  Forall (fun t => has_char sep t = false) (Str.split sep s).
Proof.
  induction s as [|c s IH]; cbn; [now constructor|].
  destruct (Ascii.eqb c sep) eqn:Hc; [now constructor|].
  destruct (Str.split sep s) as [|tok rest].
  - constructor; [cbn; now rewrite Hc | constructor].
  - inversion IH; subst. constructor; [cbn; now rewrite Hc | assumption].
Qed.

Lemma has_char_remove_same c s : has_char c (Str.remove_char c s) = false.
Proof.
  induction s as [|d s IH]; cbn; [reflexivity|].
  destruct (Ascii.eqb d c) eqn:Hd; [exact IH|]. cbn. now rewrite Hd.
Qed.

Lemma has_char_remove x c s :
  has_char x s = false -> has_char x (Str.remove_char c s) = false.
Proof.
  induction s as [|d s IH]; cbn; [trivial|].
  intros H. apply orb_false_iff in H as [Hd Hs].
  destruct (Ascii.eqb d c); [now apply IH|]. cbn. now rewrite Hd, IH.
Qed.

(** X4. With a label file in place there are at least two class names,
    the background class and one more than the file has commas, an empty
    file giving the empty name; no class name holds a comma or a space. *)
Theorem label_file_class_names w o r f :
  root o = Some r ->
  fs w (path_join r "label_map.txt") = Some (File f) ->
  exists names,
    class_names (fst (load_class_names w o)) = Some names
    /\ List.length names = (2 + count_char "," (class_string f))%nat
    /\ Forall (fun name => has_char "," name = false
                           /\ has_char " " name = false) names.
Proof.
  intros Hr Hf. unfold load_class_names, seq_, eval, assign, isfile, open_read.
  rewrite Hr; cbn. rewrite Hf; cbn.
  eexists. split; [reflexivity|]. split.
  - cbn. now rewrite length_map, split_length.
  - constructor; [now split|].
    apply Forall_map. eapply Forall_impl; [|apply split_no_sep].
    intros t Ht. split; [now apply has_char_remove | apply has_char_remove_same].
Qed.

(** X4 at the label file [cat,dining table]. *)
Lemma label_file_class_names_witness :
  exists names,
    class_names (fst (load_class_names Sample.spaced_labels
                                       (set_root "data" blank))) = Some names
    /\ List.length names = 3%nat.
Proof.
  destruct (label_file_class_names Sample.spaced_labels
              (set_root "data" blank) "data" "cat,dining table"
              eq_refl eq_refl) as (names & Hn & Hl & _).
  exists names. split; [exact Hn | exact Hl].
Defined.

Lemma class_string_one_line f :
  has_char newline f = false ->
  class_string f = Str.rstrip f
  /\ class_string (String.append f (String newline EmptyString)) = Str.rstrip f.
Proof.
  intros H. unfold class_string.
  rewrite (lines_no_newline_then_newline f H), (lines_no_newline f H). split.
  - now destruct f.
  - cbn. now apply rstrip_app_space.
Qed.

(** X5. For a label file of one line, the newline that ends the line and
    any whitespace before it make no difference to the class names: they
    are the tokens of the line without its trailing whitespace. *)
Theorem label_line_ending_is_ignored f :
  has_char newline f = false ->
  read_class_names (String.append f (String newline EmptyString))
  = read_class_names f
  /\ read_class_names (Str.rstrip f) = read_class_names f
  /\ read_class_names f
     = "BACKGROUND"
       :: List.map (Str.remove_char " ") (Str.split "," (Str.rstrip f)).
Proof.
  intros H. destruct (class_string_one_line f H) as [E1 E2].
  unfold read_class_names. rewrite E1, E2. split; [reflexivity|].
  split; [|reflexivity].
  assert (Hr : has_char newline (Str.rstrip f) = false).
  { destruct (has_char newline (Str.rstrip f)) eqn:E; [|reflexivity].
    apply has_char_rstrip in E. congruence. }
  destruct (class_string_one_line _ Hr) as [E3 _].
  now rewrite E3, rstrip_idempotent.
Qed.

(** X5 at the line [cat, dog]. *)
Lemma label_line_ending_is_ignored_witness :
  read_class_names (String.append "cat, dog  " (String newline EmptyString))
  = ["BACKGROUND"; "cat"; "dog"].
Proof.
  destruct (label_line_ending_is_ignored "cat, dog  " eq_refl) as [E _].
  rewrite E. reflexivity.
Defined.

(** X6. Without a regular file [label_map.txt], be it missing or a
    directory, the class names are the 21 default names and the dictionary
    numbers them from 0 to 20 in their order. *)
Theorem default_classes_without_label_file w o r :
  root o = Some r ->
  isfile w (path_join r "label_map.txt") = false ->
  let o' := fst (seq_ (load_class_names w) (fun _ => build_class_dict) o) in
  class_names o' = Some VOC_CLASSES
  /\ class_dict o' = Some (combine VOC_CLASSES (Np.arange 0 21))
  /\ forall i name, nth_error VOC_CLASSES i = Some name ->
                    Dict.get (combine VOC_CLASSES (Np.arange 0 21)) name
                    = Some (Z.of_nat i).
Proof.
  intros Hr Hf. unfold load_class_names, build_class_dict, seq_, eval, assign.
  rewrite Hr; cbn [getattr fst snd]. rewrite Hf. cbn [fst snd class_names set_class_names].
  split; [reflexivity|]. split; [reflexivity|].
  intros i name Hi.
  do 21 (destruct i as [|i]; [injection Hi as <-; reflexivity|]).
  destruct i; discriminate.
Qed.

(** X6 with a directory in the place of the label file. *)
Lemma default_classes_without_label_file_witness :
  class_names
    (fst (seq_ (load_class_names
                  (Sample.world [("data/label_map.txt", Directory)] []))
               (fun _ => build_class_dict) (set_root "data" blank)))
  = Some VOC_CLASSES.
Proof.
  destruct (default_classes_without_label_file
              (Sample.world [("data/label_map.txt", Directory)] [])
              (set_root "data" blank) "data" eq_refl eq_refl) as [H _].
  exact H.
Defined.

(** ** Class names in annotations *)

Lemma lower_char_not_capital c : is_capital (Str.lower_char c) = false.
Proof. destruct c as [[] [] [] [] [] [] [] []]; reflexivity. Qed.

Lemma has_capital_lower s : has_capital (Str.lower s) = false.
Proof.
  induction s as [|c s IH]; cbn; [reflexivity|].
  now rewrite lower_char_not_capital, IH.
Qed.

Lemma has_capital_char s :
  has_capital s = true <->
  exists c, is_capital c = true /\ has_char c s = true.
Proof.
  induction s as [|d s IH]; cbn.
  - split; [discriminate | intros (c & _ & H); discriminate].
  - rewrite orb_true_iff, IH. split.
    + intros [H|(c & Hc & Hs)].
      * exists d. now rewrite Ascii.eqb_refl.
      * exists c. rewrite Hs. now rewrite orb_true_r.
    + intros (c & Hc & H). apply orb_true_iff in H as [H|H].
      * apply Ascii.eqb_eq in H as ->. now left.
      * right. now exists c.
Qed.

Lemma class_name_no_capital o c :
  class_name_of o = Ok c -> has_capital c = false.
Proof.
  unfold class_name_of.
  destruct (ET.find o "name") as [name|]; cbn; [|discriminate].
  destruct (ET.text name) as [t|]; cbn; [|discriminate].
  intros [= <-].
  destruct (has_capital (Str.strip (Str.lower t))) eqn:E; [|reflexivity].
  apply has_capital_char in E as (x & Hx & Hs).
  apply has_char_strip in Hs.
  assert (has_capital (Str.lower t) = true)
    by (apply has_capital_char; now exists x).
  now rewrite has_capital_lower in H.
Qed.

(** X7. The class name looked up for an object never holds an ASCII
    capital letter, so a key of the class dictionary that holds one is
    never matched: an object is not recognized under such a key,
    and a dictionary with such keys only recognizes no object at all. *)
Theorem capital_keys_are_never_matched (d : Dict.t) (o : ET.element) :
  (forall c, class_name_of o = Ok c -> has_capital c = false)
  /\ (forall k, has_capital k = true -> class_name_of o <> Ok k)
  /\ ((forall k, Dict.mem d k = true -> has_capital k = true) ->
      recognized d o = false).
Proof.
  split; [apply class_name_no_capital|]. split.
  - intros k Hk Hc. apply class_name_no_capital in Hc. congruence.
  - intros Hd. unfold recognized.
    destruct (class_name_of o) as [c|] eqn:Hc; [|reflexivity].
    destruct (Dict.mem d c) eqn:Hm; [|reflexivity].
    apply class_name_no_capital in Hc. apply Hd in Hm. congruence.
Qed.

(** X7 at a dictionary that holds the background class only. *)
Lemma capital_keys_are_never_matched_witness :
  recognized [("BACKGROUND", 0)]
             (ET.Element "object" None [Sample.leaf "name" "BACKGROUND"])
  = false.
Proof.
  destruct (capital_keys_are_never_matched
              [("BACKGROUND", 0)]
              (ET.Element "object" None [Sample.leaf "name" "BACKGROUND"]))
    as (_ & _ & H).
  apply H. intros k Hk. unfold Dict.mem in Hk. cbn [Dict.get] in Hk.
  revert Hk.
  destruct (String.eqb_spec "BACKGROUND" k) as [E|E];
    [subst k; reflexivity | discriminate].
Defined.

Lemma detection_label d o det :
  detection_of d o = Ok det ->
  exists c, class_name_of o = Ok c /\ Dict.get d c = Some (label det).
Proof.
  unfold detection_of, lookup.
  destruct (class_name_of o) as [c|]; cbn; [|discriminate].
  destruct (box_of o); cbn; [|discriminate].
  destruct (Dict.get d c) as [v|] eqn:Hg; cbn; [|discriminate].
  destruct (ET.find o "difficult") as [e|]; cbn; [|discriminate].
  destruct (difficult_flag (ET.text e)); cbn; [|discriminate].
  intros [= <-]. now exists c.
Qed.

(** X8. With the class dictionary of class names that start with the
    background class, as the constructor builds it, every label that
    annotation parsing returns is a position of the class names other
    than 0: the background id is never returned and no label is out of
    range. *)
Theorem labels_are_foreground_positions
  self w r tokens image_id tree boxes labels flags :
  root self = Some r ->
  class_dict self = Some (Dict.of_enumerate ("BACKGROUND" :: tokens) 0 []) ->
  ET_parse w (annotation_path r image_id) = Ok tree ->
  _get_annotation self w image_id = Ok (boxes, labels, flags) ->
  Forall (fun l => 1 <= l <= len tokens
                   /\ exists c, nth_error tokens (Z.to_nat (l - 1)) = Some c
                                /\ has_capital c = false)
         (Np.data labels).
Proof.
  intros Hr Hd Ht H.
  rewrite (get_annotation_detections self w r _ image_id tree Hr Hd Ht) in H.
  destruct (detections _ (ET.findall tree "object")) as [dets|] eqn:Hdets;
    cbn in H; [|discriminate].
  injection H as _ <- _. cbn [Np.array1 Np.data].
  apply detections_recognized in Hdets.
  apply Forall_map.
  assert (Hall : forall o det,
            detection_of (Dict.of_enumerate ("BACKGROUND" :: tokens) 0 []) o
            = Ok det ->
            1 <= label det <= len tokens
            /\ exists c, nth_error tokens (Z.to_nat (label det - 1)) = Some c
                         /\ has_capital c = false).
  { intros o det Hdet. apply detection_label in Hdet as (c & Hc & Hg).
    apply class_name_no_capital in Hc.
    destruct (in_dec string_dec c ("BACKGROUND" :: tokens)) as [Hin|Hin].
    - destruct (last_position_exists _ c Hin) as (n & H1 & H2).
      rewrite (of_enumerate_last _ 0 [] n c H1 H2) in Hg.
      injection Hg as Hg. rewrite <- Hg.
      destruct n as [|n]; [cbn in H1; injection H1 as <-; discriminate|].
      cbn in H1.
      assert (n < List.length tokens)%nat by (apply nth_error_Some; congruence).
      unfold len. split; [lia|]. exists c.
      replace (Z.to_nat (Z.of_nat (S n) - 1)) with n by lia. now split.
    - rewrite (of_enumerate_other _ 0 [] c Hin) in Hg. discriminate. }
  revert Hdets. generalize (List.filter
    (recognized (Dict.of_enumerate ("BACKGROUND" :: tokens) 0 []))
    (ET.findall tree "object")).
  intros objs Hf. induction Hf as [|o det objs dets Hdet _ IH];
    constructor; eauto.
Qed.

(** X8 at the sample [a]: a cat and a dog. *)
Lemma labels_are_foreground_positions_witness :
  Forall (fun l => 1 <= l <= 2
                   /\ exists c, nth_error ["cat"; "dog"] (Z.to_nat (l - 1))
                                = Some c /\ has_capital c = false)
         [1; 2].
Proof.
  exact (labels_are_foreground_positions
           Sample.adapter Sample.annotated "data" ["cat"; "dog"] "a" _ _ _ _
           eq_refl eq_refl eq_refl eq_refl).
Defined.

(** ** The arrays of an annotation *)

(** X9. The three arrays that annotation parsing returns are aligned:
    with n detections the labels and the flags have the shape (n,) and n
    elements each, and the boxes have 4n elements and the shape (n, 4),
    but the shape (0,) when there is no detection. *)
Theorem annotation_arrays_are_aligned self w image_id boxes labels flags :
  _get_annotation self w image_id = Ok (boxes, labels, flags) ->
  exists n,
    Np.shape labels = [n] /\ List.length (Np.data labels) = n
    /\ Np.shape flags = [n] /\ List.length (Np.data flags) = n
    /\ List.length (Np.data boxes) = (4 * n)%nat
    /\ Np.shape boxes = match n with O => [0%nat] | _ => [n; 4%nat] end
    /\ Forall (fun f => 0 <= f < 256) (Np.data flags).
Proof.
  unfold _get_annotation.
  destruct (getattr (root self)) as [r|]; cbn [bind]; [|discriminate].
  destruct (ET_parse w _) as [tree|]; cbn [bind]; [|discriminate].
  destruct (annotation_loop self _ [] [] []) as [[[bs ls] fs]|] eqn:Hl;
    cbn [bind]; [|discriminate].
  destruct (annotation_loop_rows self _ _ _ _ _ _ _ Hl)
    as (dets & Hlen & -> & -> & ->).
  cbn [app as_arrays]. intros [= <- <- <-].
  exists (List.length dets). cbn [Np.array1 Np.shape Np.data].
  rewrite !length_map. repeat (split; [reflexivity|]).
  split; [|split].
  - rewrite array2_data. clear Hl.
    induction Hlen as [|det dets Hd _ IH]; cbn; [reflexivity|].
    rewrite length_app, length_map, Hd, IH. lia.
  - destruct dets as [|det dets]; [reflexivity|].
    cbn. rewrite !length_map. now rewrite (Forall_inv Hlen).
  - apply Forall_map, Forall_forall. intros det _. unfold to_uint8.
    apply Z.mod_pos_bound. lia.
Qed.

(** X9 at the sample [a]. *)
Lemma annotation_arrays_are_aligned_witness :
  exists n boxes labels flags,
    _get_annotation Sample.adapter Sample.annotated "a"
    = Ok (boxes, labels, flags)
    /\ Np.shape labels = [n] /\ Np.shape flags = [n]
    /\ List.length (Np.data boxes) = (4 * n)%nat.
Proof.
  destruct (annotation_arrays_are_aligned
              Sample.adapter Sample.annotated "a" _ _ _ eq_refl)
    as (n & H1 & _ & H2 & _ & H3 & _).
  exists n. do 3 eexists. split; [reflexivity|]. now repeat split.
Defined.

(** X10. A document without object elements gives three empty arrays of
    the shape (0,), and the class dictionary is not read: the same holds
    on an object on which it was never assigned. *)
Theorem annotation_without_objects self w r image_id tree :
  root self = Some r ->
  ET_parse w (annotation_path r image_id) = Ok tree ->
  ET.findall tree "object" = [] ->
  _get_annotation self w image_id
  = Ok (Np.mk [0%nat] [], Np.mk [0%nat] [], Np.mk [0%nat] []).
Proof.
  intros Hr Ht Ho. unfold _get_annotation.
  rewrite Hr; cbn. rewrite Ht; cbn. now rewrite Ho.
Qed.

(** X10 at an object that has a root and nothing else. *)
Lemma annotation_without_objects_witness :
  class_dict bare_adapter = None
  /\ _get_annotation bare_adapter no_objects_world "a"
     = Ok (Np.mk [0%nat] [], Np.mk [0%nat] [], Np.mk [0%nat] []).
Proof.
  split; [reflexivity|].
  exact (annotation_without_objects bare_adapter no_objects_world "data" "a" _
           eq_refl eq_refl eq_refl).
Defined.

(** ** Sample indices *)

Lemma getitem_out_of_range {A} (l : list A) i :
  i < - len l \/ len l <= i -> getitem l i = Raise IndexError.
Proof.
  intros H. unfold getitem.
  destruct (Z.ltb_spec i 0);
    destruct (Z.leb_spec 0 (i + len l)); destruct (Z.leb_spec 0 i);
    destruct (Z.ltb_spec (i + len l) (len l));
    destruct (Z.ltb_spec i (len l)); cbn; try reflexivity; unfold len in *; lia.
Qed.

Lemma getitem_negative {A} (l : list A) i :
  - len l <= i < 0 -> getitem l i = getitem l (i + len l).
Proof.
  intros H. unfold getitem.
  destruct (Z.ltb_spec i 0); [|lia].
  destruct (Z.ltb_spec (i + len l) 0); [lia|]. reflexivity.
Qed.

(** X11. An index below [-N] or from [N] on is an index error in
    annotation access, in image access and in the fetch of a sample, and
    no file is read; an index from [-N] to [-1] counts from the end, like
    the index that is [N] more. *)
Theorem sample_index_bounds self w l index :
  ids self = Some l ->
  ((index < - len l \/ len l <= index) ->
   get_annotation self w index = Raise IndexError
   /\ get_image self w index = Raise IndexError
   /\ fetch self w index = Raise IndexError)
  /\ (- len l <= index < 0 ->
      get_annotation self w index = get_annotation self w (index + len l)
      /\ get_image self w index = get_image self w (index + len l)
      /\ fetch self w index = fetch self w (index + len l)).
Proof.
  intros Hl. unfold get_annotation, get_image, fetch. rewrite Hl; cbn [getattr bind].
  split; intros H.
  - rewrite (getitem_out_of_range l index H). repeat split.
  - rewrite (getitem_negative l index H). repeat split.
Qed.

(** X11 at six samples. *)
Lemma sample_index_bounds_witness :
  get_annotation Sample.adapter Sample.annotated 6 = Raise IndexError
  /\ get_annotation Sample.adapter Sample.annotated (-6)
     = get_annotation Sample.adapter Sample.annotated 0.
Proof.
  destruct (sample_index_bounds Sample.adapter Sample.annotated _ 6 eq_refl)
    as [H1 _].
  destruct (sample_index_bounds Sample.adapter Sample.annotated _ (-6) eq_refl)
    as [_ H2].
  split.
  - apply H1. right. unfold len. cbn. lia.
  - apply H2. unfold len. cbn. lia.
Defined.

(** ** Which calls return a batch *)

Lemma batch_loop_some_draws self w idxs inputs t1 t2 batch :
  snd (batch_loop self w idxs inputs t1 t2) = Ok (Some batch) ->
  fst (batch_loop self w idxs inputs t1 t2) <> [].
Proof.
  destruct idxs as [|i idxs]; cbn; [discriminate|].
  destruct (fetch self w i) as [[[image boxes] labels]|e]; cbn;
    [|discriminate].
  destruct (getattr (batch_size self)) as [bs|]; cbn; [|discriminate].
  destruct (len (t1 ++ [boxes]) =? bs); cbn; [discriminate|].
  destruct (batch_loop self w idxs _ _ _); cbn. discriminate.
Qed.

Lemma drawn_in_range self w b bs l i :
  batch_size self = Some bs -> ids self = Some l ->
  (forall idxs, Permutation (shuffle w idxs) idxs) ->
  In i (fst (__getitem__ self w b)) ->
  b * bs <= i < Z.min ((b + 1) * bs) (len l - 1).
Proof.
  intros Hb Hl Hperm. unfold __getitem__.
  rewrite (batch_range_min self b bs l Hb Hl).
  destruct (batch_loop_drawn self w bs Hb (shuffle w
              (Np.arange (b * bs) (Z.min ((b + 1) * bs) (len l - 1)))) [] [] [])
    as [rest Hrest].
  intros Hi. apply arange_In. apply (Permutation_in i (Hperm _)).
  rewrite Hrest. apply in_or_app. now left.
Qed.

(** A returned batch has looked up [bs] samples, and the range had room
    for them. *)
Lemma batch_room self w b bs l batch :
  batch_size self = Some bs -> ids self = Some l ->
  (forall idxs, Permutation (shuffle w idxs) idxs) ->
  snd (__getitem__ self w b) = Ok (Some batch) ->
  1 <= bs /\ (b + 1) * bs < len l
  /\ len (fst (__getitem__ self w b)) = bs.
Proof.
  intros Hb Hl Hperm. unfold __getitem__.
  rewrite (batch_range_min self b bs l Hb Hl).
  set (range := Np.arange (b * bs) (Z.min ((b + 1) * bs) (len l - 1))).
  intros H.
  pose proof (batch_loop_returns self w bs Hb _ _ _ _ _ H) as Hn.
  pose proof (batch_loop_some_draws self w _ _ _ _ _ H) as Hne.
  destruct (batch_loop_drawn self w bs Hb (shuffle w range) [] [] [])
    as [rest Hrest].
  assert (Hlen : len (shuffle w range) = len range).
  { unfold len. f_equal. apply Permutation_length, Hperm. }
  unfold range in Hlen at 2. rewrite arange_length in Hlen.
  apply (f_equal len) in Hrest. unfold len in Hrest, Hn, Hlen |- *.
  rewrite length_app in Hrest. cbn [List.length] in Hn.
  destruct (fst (batch_loop self w (shuffle w range) [] [] [])) as [|i0 dr];
    [congruence|]. cbn [List.length] in *. lia.
Qed.

(** X12. A call returns a batch only when the batch size is at least 1
    and [(b + 1) * batch_size] is below the number of samples: the samples
    looked up are then [batch_size] many. So a batch that would reach the
    end of the samples is not returned. For a batch index that is not
    negative every index looked up is a position from 0 to [N - 2], whose
    sample is [ids] at that position: the last sample is never looked up,
    and with a number of samples that is a multiple of the batch size
    the last group of samples gives no batch. *)
Theorem batch_needs_a_sample_to_spare self w b bs l :
  batch_size self = Some bs -> ids self = Some l ->
  (forall idxs, Permutation (shuffle w idxs) idxs) ->
  (forall batch,
     snd (__getitem__ self w b) = Ok (Some batch) ->
     1 <= bs /\ (b + 1) * bs < len l
     /\ len (fst (__getitem__ self w b)) = bs)
  /\ (len l <= (b + 1) * bs ->
      forall batch, snd (__getitem__ self w b) <> Ok (Some batch))
  /\ (0 <= b ->
      forall i, In i (fst (__getitem__ self w b)) ->
                0 <= i < len l - 1
                /\ getitem l i = getattr (nth_error l (Z.to_nat i))
                /\ Z.to_nat i <> (List.length l - 1)%nat).
Proof.
  intros Hb Hl Hperm.
  split; [intros batch; now apply batch_room|]. split.
  - intros Hle batch H.
    destruct (batch_room self w b bs l batch Hb Hl Hperm H) as (_ & Hlt & _).
    lia.
  - intros Hb0 i Hi.
    pose proof (drawn_in_range self w b bs l i Hb Hl Hperm Hi) as Hr.
    assert (H0 : 0 <= i < len l - 1).
    { destruct (Z.le_gt_cases 1 bs); [nia|].
      assert (Z.min ((b + 1) * bs) (len l - 1) <= b * bs) by nia. lia. }
    split; [exact H0|]. split.
    + unfold getitem.
      destruct (Z.ltb_spec i 0); [lia|].
      destruct (Z.leb_spec 0 i); [|lia].
      destruct (Z.ltb_spec i (len l)); [|lia]. cbn [andb].
      destruct (nth_error l (Z.to_nat i)) eqn:E; [reflexivity|].
      apply nth_error_None in E. unfold len in *. lia.
    + unfold len in H0. lia.
Qed.

(** X12 at six samples in batches of two: the third pair gives no batch. *)
Lemma batch_needs_a_sample_to_spare_witness :
  ~ exists batch,
      snd (__getitem__ pairs_adapter Sample.annotated 2) = Ok (Some batch).
Proof.
  destruct (batch_needs_a_sample_to_spare
              pairs_adapter Sample.annotated 2 2 _ eq_refl eq_refl
              (fun idxs => Permutation_sym (Permutation_rev idxs)))
    as (_ & H & _).
  intros [batch Hb]. apply (H ltac:(unfold len; cbn; lia) batch Hb).
Defined.

(** X13. With a batch size of at least 1, two batch indices that are
    not negative look up no sample in common: an index that both look
    up makes them equal, and the indices they look up are positions from
    0 to [N - 2], so that different indices are different samples. *)
Theorem batches_do_not_overlap self w b b' bs l i :
  batch_size self = Some bs -> ids self = Some l -> 1 <= bs ->
  0 <= b -> 0 <= b' ->
  (forall idxs, Permutation (shuffle w idxs) idxs) ->
  In i (fst (__getitem__ self w b)) ->
  In i (fst (__getitem__ self w b')) ->
  b = b' /\ 0 <= i < len l - 1.
Proof.
  intros Hb Hl Hbs Hb0 Hb0' Hperm Hi Hi'.
  pose proof (drawn_in_range self w b bs l i Hb Hl Hperm Hi).
  pose proof (drawn_in_range self w b' bs l i Hb Hl Hperm Hi').
  split; nia.
Qed.

(** X13 at the sample adapter: the index 3 is looked up by batch 3. *)
Lemma batches_do_not_overlap_witness :
  In 3 (fst (__getitem__ Sample.adapter Sample.annotated 3)) /\ 3 = 3.
Proof.
  assert (H : In 3 (fst (__getitem__ Sample.adapter Sample.annotated 3)))
    by (cbv; now left).
  split; [exact H|].
  exact (proj1 (batches_do_not_overlap
                  Sample.adapter Sample.annotated 3 3 1 _ 3
                  eq_refl eq_refl ltac:(lia) ltac:(lia) ltac:(lia)
                  (fun idxs => Permutation_sym (Permutation_rev idxs)) H H)).
Defined.

(** ** The shape of a batch *)

Lemma assemble_inputs inputs target1 target2 ins target :
  assemble inputs target1 target2 = Ok (ins, target) ->
  exists t, Np.stack inputs = Ok t /\ ins = Np.map Float.to_float32 t.
Proof.
  unfold assemble.
  destruct (Np.stack inputs) as [t|]; cbn [bind]; [|discriminate].
  destruct (Np.stack target1) as [t1|]; cbn [bind]; [|discriminate].
  destruct (Np.stack target2) as [t2|]; cbn [bind]; [|discriminate].
  destruct (Np.expand_dims t2 2) as [t2'|]; cbn [bind]; [|discriminate].
  destruct (Np.concatenate _ _ 2) as [tg|]; cbn [bind]; [|discriminate].
  intros [= <- _]. now exists t.
Qed.

(** X14. In a returned batch the first axis of the inputs and of the
    combined target is the batch size; the images of the samples all have
    one shape, which makes the other axes of the inputs, and the inputs
    hold their elements rounded to single precision, sample after
    sample. *)
Theorem batch_first_axis_is_batch_size self w b bs inputs target :
  batch_size self = Some bs ->
  snd (__getitem__ self w b) = Ok (Some (inputs, target)) ->
  exists samples image_shape,
    Forall2 (fun i s => fetch self w i = Ok s)
            (fst (__getitem__ self w b)) samples
    /\ len samples = bs
    /\ Forall (fun s => Np.shape (sample_image s) = image_shape) samples
    /\ Np.shape inputs = Z.to_nat bs :: image_shape
    /\ Np.data inputs
       = List.map Float.to_float32
           (List.concat (List.map (fun s => Np.data (sample_image s)) samples))
    /\ nth 0 (Np.shape target) 0%nat = Z.to_nat bs.
Proof.
  intros Hb H.
  destruct (getitem_batch self w b _ H) as (samples & Hs & Ha).
  assert (Hn : len samples = bs).
  { unfold __getitem__ in H, Hs.
    destruct (batch_range self b) as [idxs|]; [|discriminate].
    pose proof (batch_loop_returns self w bs Hb _ _ _ _ _ H) as Hn.
    apply Forall2_length in Hs.
    unfold len in *. cbn [List.length] in Hn. lia. }
  destruct (assemble_inputs _ _ _ _ _ Ha) as (t & Ht & ->).
  destruct (assemble_steps _ _ _ _ _ Ha) as (t1 & t2 & t2' & H1 & _ & _ & Hc).
  destruct samples as [|s0 ss].
  { destruct (concatenate_shape _ _ _ _ Hc) as (Hlt & _).
    cbn in H1. injection H1 as <-. cbn in Hlt. lia. }
  exists (s0 :: ss), (Np.shape (sample_image s0)).
  split; [exact Hs|]. split; [exact Hn|].
  assert (Hsh : forall s, In s (s0 :: ss) ->
            Np.shape t = List.length (s0 :: ss) :: Np.shape (sample_image s)).
  { intros s Hin.
    destruct (stack_shapes _ t (sample_image s) Ht) as [E _].
    - now apply in_map.
    - now rewrite length_map in E. }
  assert (Hlen : List.length (s0 :: ss) = Z.to_nat bs)
    by (unfold len in Hn; lia).
  split; [|split; [|split]].
  - apply Forall_forall. intros s Hin.
    pose proof (Hsh s Hin) as E. rewrite (Hsh s0 (or_introl eq_refl)) in E.
    congruence.
  - cbn [Np.map Np.shape]. rewrite (Hsh s0 (or_introl eq_refl)). now rewrite Hlen.
  - cbn [Np.map Np.data].
    destruct (stack_shapes _ t (sample_image s0) Ht) as [_ E]; [now left|].
    now rewrite E, map_map.
  - destruct (concatenate_shape _ _ _ _ Hc) as (Hlt & _ & _ & _ & -> & _).
    unfold Np.ndim in Hlt. cbn [Np.map Np.shape] in *.
    destruct (stack_shapes _ t1 (sample_boxes s0) H1) as [E _]; [now left|].
    rewrite length_map in E. rewrite E in *. cbn in Hlt |- *.
    destruct (Np.shape (sample_boxes s0)) as [|x rest]; cbn in *; [lia|].
    exact Hlen.
Qed.

(** X14 at the first batch of the sample adapter. *)
Lemma batch_first_axis_is_batch_size_witness :
  exists inputs target,
    snd (__getitem__ Sample.adapter Sample.annotated 0)
    = Ok (Some (inputs, target))
    /\ nth 0 (Np.shape inputs) 0%nat = 1%nat
    /\ nth 0 (Np.shape target) 0%nat = 1%nat.
Proof.
  destruct (batch_first_axis_is_batch_size
              Sample.adapter Sample.annotated 0 1 _ _ eq_refl eq_refl)
    as (samples & sh & _ & _ & _ & Hi & _ & Ht).
  do 2 eexists. split; [reflexivity|]. split; [|exact Ht].
  now rewrite Hi.
Defined.

(** ** Keeping the difficult detections *)

Lemma Forall2_In_r_ex {A B} (R : A -> B -> Prop) xs ys x :
  Forall2 R xs ys -> In x xs -> exists y, In y ys /\ R x y.
Proof.
  induction 1 as [|a b xs ys Hab _ IH]; cbn; intros Hin; [contradiction|].
  destruct Hin as [<-|Hin].
  - exists b. split; [now left | exact Hab].
  - destruct (IH Hin) as (y & Hy & Hr). exists y. split; [now right | exact Hr].
Qed.

(** The combined target of samples whose boxes and labels are those of
    the detections [K], sample by sample. *)
Lemma rows_batch_data (K : list (list Detection)) bxs lbs ins target :
  Forall (Forall (fun det => List.length (box det) = 4%nat)) K ->
  Forall2 (fun k bx =>
             exists rest,
               (rest = [] \/ rest = [4%nat])
               /\ bx = Np.mk (List.length k :: rest)
                             (List.concat (List.map box k))) K bxs ->
  Forall2 (fun k lb => lb = Np.mk [List.length k] (List.map label k)) K lbs ->
  assemble ins bxs lbs = Ok target ->
  Np.data (snd target)
  = List.concat (List.map (fun k => List.concat (List.map target_row k)) K).
Proof.
  intros Hlen Hb Hl Ha. destruct target as [inputs target]. cbn [snd].
  destruct (assemble_steps _ _ _ _ _ Ha) as (t1 & t2 & t2' & H1 & H2 & He & Hc).
  destruct (concatenate_shape _ _ _ _ Hc) as (Hn & _).
  unfold Np.ndim in Hn. cbn [Np.map Np.shape] in Hn.
  pose proof (Forall2_length Hb) as Lb. pose proof (Forall2_length Hl) as Ll.
  destruct K as [|k0 K'].
  { inversion Hb; subst. cbn in H1. injection H1 as <-. cbn in Hn. lia. }
  set (K := k0 :: K') in *.
  assert (Hsh1 : forall k, In k K ->
            exists rest, (rest = [] \/ rest = [4%nat])
                         /\ Np.shape t1 = List.length K :: List.length k :: rest).
  { intros k Hin.
    destruct (Forall2_In_r_ex _ _ _ k Hb Hin) as (bx & Hbx & rest & Hr & ->).
    destruct (stack_shapes _ t1 _ H1 Hbx) as [E _].
    exists rest. split; [exact Hr|]. now rewrite E, Lb. }
  assert (H4 : Np.shape t1 = [List.length K; List.length k0; 4%nat]).
  { destruct (Hsh1 k0 (or_introl eq_refl)) as (rest & [->| ->] & E);
      rewrite E in Hn |- *; cbn in Hn; [lia | reflexivity]. }
  assert (Hk : Forall (fun k => List.length k = List.length k0) K).
  { apply Forall_forall. intros k Hin.
    destruct (Hsh1 k Hin) as (rest & _ & E). rewrite H4 in E. congruence. }
  assert (Hd1 : Np.data t1
                = List.concat (List.map (fun k => List.concat (List.map box k)) K)).
  { destruct (Forall2_In_r_ex _ _ _ k0 Hb (or_introl eq_refl)) as (bx & Hbx & _).
    destruct (stack_shapes _ t1 _ H1 Hbx) as [_ ->]. f_equal.
    symmetry. apply Forall2_map_eq. eapply Forall2_impl; [|exact Hb].
    intros k b (rest & _ & ->). reflexivity. }
  assert (Hlb : lbs = List.map (fun k => Np.mk [List.length k] (List.map label k)) K).
  { rewrite <- (map_id lbs). symmetry. apply Forall2_map_eq.
    eapply Forall2_impl; [|exact Hl]. intros k b ->. reflexivity. }
  rewrite Hlb in H2.
  destruct (stack_shapes _ t2 (Np.mk [List.length k0] (List.map label k0)) H2)
    as [Hs2 Hd2]; [now left|].
  destruct (expand_dims_shape _ _ _ He) as (_ & Hs2' & Hd2').
  rewrite Hs2 in Hs2'. rewrite length_map in Hs2'. cbn in Hs2'.
  apply (combined_rows K (List.length k0) t1 t2' target); try assumption.
  rewrite Hd2', Hd2. now rewrite map_map.
Qed.

(** One sample of an adapter that keeps the difficult detections: the
    transforms are handed the boxes and the labels of the annotation. *)
Lemma fetch_unmasked self w i s tf ttf :
  keep_difficult self = Some true ->
  transform self = Some tf -> target_transform self = Some ttf ->
  fetch self w i = Ok s ->
  exists image_id a image,
    get_annotation self w i = Ok (image_id, a)
    /\ _read_image self w image_id = Ok image
    /\ apply_transforms tf ttf image (annotation_boxes a) (annotation_labels a)
       = Ok s.
Proof.
  intros Hk Ht Htt. unfold fetch, get_annotation.
  destruct (getattr (ids self)) as [l|]; cbn [bind]; [|discriminate].
  destruct (getitem l i) as [image_id|]; cbn [bind]; [|discriminate].
  destruct (_get_annotation self w image_id) as [[[bx lb] fl]|]; cbn [bind];
    [|discriminate].
  rewrite Hk, Ht, Htt; cbn [getattr bind negb].
  destruct (_read_image self w image_id) as [image|] eqn:Hi; cbn [bind];
    [|discriminate].
  intros H. exists image_id, (bx, lb, fl), image.
  split; [reflexivity|]. split; [exact Hi|]. exact H.
Qed.

Lemma annotation_of_detections self w i image_id a :
  get_annotation self w i = Ok (image_id, a) ->
  Forall (fun det => List.length (box det) = 4%nat) (detections_in a)
  /\ (exists rest,
        (rest = [] \/ rest = [4%nat])
        /\ annotation_boxes a
           = Np.mk (List.length (detections_in a) :: rest)
                   (List.concat (List.map box (detections_in a))))
  /\ annotation_labels a
     = Np.mk [List.length (detections_in a)]
             (List.map label (detections_in a)).
Proof.
  unfold get_annotation.
  destruct (getattr (ids self)) as [l|]; cbn [bind]; [|discriminate].
  destruct (getitem l i) as [id|]; cbn [bind]; [|discriminate].
  destruct (_get_annotation self w id) as [a'|] eqn:Ha; cbn [bind];
    [|discriminate].
  intros [= _ <-].
  destruct (get_annotation_rows self w id a' Ha) as (dets & Hlen & -> & Hd).
  rewrite Hd. split; [exact Hlen|]. unfold arrays_of, annotation_boxes,
    annotation_labels. cbn [fst snd]. split.
  - destruct dets as [|d0 ds].
    + exists []. split; [now left | reflexivity].
    + exists [4%nat]. split; [now right|]. cbn [Np.array2 List.map].
      rewrite (Forall_inv Hlen). cbn [List.length]. now rewrite !length_map.
  - unfold Np.array1. now rewrite length_map.
Qed.

(** X15. With [keep_difficult] true no detection is dropped: the
    transforms are handed the boxes and the labels of the annotation as
    they are, and with transforms that hand back the targets they are
    given the combined target of a returned batch holds the rows of all
    the detections of its samples, the difficult ones too, in the order
    the samples were looked up. *)
Theorem difficult_detections_are_kept_on_request self w tf ttf :
  keep_difficult self = Some true ->
  transform self = Some tf -> target_transform self = Some ttf ->
  (forall i s,
     fetch self w i = Ok s ->
     exists image_id a image,
       get_annotation self w i = Ok (image_id, a)
       /\ _read_image self w image_id = Ok image
       /\ apply_transforms tf ttf image
            (annotation_boxes a) (annotation_labels a) = Ok s)
  /\ (keeps_targets tf -> keeps_its_targets ttf ->
      forall b inputs target,
        snd (__getitem__ self w b) = Ok (Some (inputs, target)) ->
        exists anns,
          Forall2 (fun i a => exists image_id,
                                get_annotation self w i = Ok (image_id, a))
                  (fst (__getitem__ self w b)) anns
          /\ Np.data target
             = List.concat
                 (List.map (fun a => List.concat
                                       (List.map target_row (detections_in a)))
                           anns)).
Proof.
  intros Hk Ht Htt. split; [intros i s; now apply fetch_unmasked|].
  intros Hkeep Hkeep' b inputs target H.
  destruct (getitem_batch self w b _ H) as (samples & Hs & Ha).
  assert (Hanns : exists anns,
    Forall2 (fun i a => exists image_id,
                          get_annotation self w i = Ok (image_id, a))
            (fst (__getitem__ self w b)) anns
    /\ Forall (fun a => Forall (fun det => List.length (box det) = 4%nat)
                               (detections_in a)) anns
    /\ Forall2 (fun a bx => exists rest,
                  (rest = [] \/ rest = [4%nat])
                  /\ bx = Np.mk (List.length (detections_in a) :: rest)
                                (List.concat (List.map box (detections_in a))))
               anns (List.map sample_boxes samples)
    /\ Forall2 (fun a lb => lb = Np.mk [List.length (detections_in a)]
                                      (List.map label (detections_in a)))
               anns (List.map sample_labels samples)).
  { clear Ha H. induction Hs as [|i s idxs ss Hf _ IH].
    - exists []. repeat split; constructor.
    - destruct IH as (anns & Hg & H4 & Hb & Hl).
      destruct (fetch_unmasked self w i s tf ttf Hk Ht Htt Hf)
        as (image_id & a & image & Hga & _ & Hat).
      destruct (apply_transforms_keeps _ _ _ _ _ _ Hkeep Hkeep' Hat)
        as [Hab Hal].
      destruct (annotation_of_detections self w i image_id a Hga)
        as (Ha4 & (rest & Hr & Hbx) & Hlb).
      exists (a :: anns). cbn [List.map]. repeat split; constructor; eauto.
      + exists rest. split; [exact Hr|]. congruence.
      + congruence. }
  destruct Hanns as (anns & Hg & H4 & Hb & Hl).
  exists anns. split; [exact Hg|].
  rewrite <- (map_map detections_in
                (fun k => List.concat (List.map target_row k))).
  apply (rows_batch_data (List.map detections_in anns)
           (List.map sample_boxes samples) (List.map sample_labels samples)
           (List.map sample_image samples) (inputs, target)).
  - now apply Forall_map.
  - clear -Hb. induction Hb; cbn; constructor; auto.
  - clear -Hl. induction Hl; cbn; constructor; auto.
  - exact Ha.
Qed.

(** X15 at the first batch of the adapter that keeps the difficult
    detections: the cat and the difficult dog. *)
Lemma difficult_detections_are_kept_on_request_witness :
  exists inputs target,
    snd (__getitem__ keeping_adapter Sample.annotated 0)
    = Ok (Some (inputs, target))
    /\ Np.data target
       = List.map Float.of_Z [0; 1; 29; 39; 1; 4; 5; 6; 7; 2].
Proof.
  destruct (difficult_detections_are_kept_on_request
              keeping_adapter Sample.annotated None None
              eq_refl eq_refl eq_refl) as [_ Hbatch].
  destruct (Hbatch I I 0 _ _ eq_refl) as (anns & Hg & Hd).
  do 2 eexists. split; [reflexivity|].
  inversion Hg as [|i a idxs anns' [image_id Ha] Hrest]; subst.
  inversion Hrest; subst.
  cbv in Ha. injection Ha as _ <-.
  rewrite Hd. reflexivity.
Defined.

(** ** Objects that do not parse *)

Lemma detections_first_failure d o post e : forall pre dets,
  detections d pre = Ok dets ->
  (class_name_of o = Raise e
   \/ (recognized d o = true /\ detection_of d o = Raise e)) ->
  detections d (pre ++ o :: post) = Raise e.
Proof.
  induction pre as [|a pre IH]; intros dets Hpre Ho; cbn [app detections].
  - destruct Ho as [Hc|[Hr Hd]].
    + now rewrite Hc.
    + unfold recognized in Hr.
      destruct (class_name_of o) as [c|]; [|discriminate]. cbn [bind].
      rewrite Hr, Hd. reflexivity.
  - cbn [detections] in Hpre.
    destruct (class_name_of a) as [c|]; cbn [bind] in Hpre |- *;
      [|discriminate].
    destruct (Dict.mem d c).
    + destruct (detection_of d a) as [det|]; cbn [bind] in Hpre |- *;
        [|discriminate].
      destruct (detections d pre) as [dets'|] eqn:Hp; cbn [bind] in Hpre;
        [|discriminate].
      now rewrite (IH dets' eq_refl Ho).
    + exact (IH dets Hpre Ho).
Qed.

(** X16. Annotation parsing gives no partial result: when the objects
    before it parse, the first object without a name text, or recognized
    and with a box, a label or a flag that fails, makes the whole call
    raise the error of that object, whatever comes after it. *)
Theorem first_failing_object_fails_the_parse
  self w r d image_id tree pre o post dets e :
  root self = Some r -> class_dict self = Some d ->
  ET_parse w (annotation_path r image_id) = Ok tree ->
  ET.findall tree "object" = pre ++ o :: post ->
  detections d pre = Ok dets ->
  (class_name_of o = Raise e
   \/ (recognized d o = true /\ detection_of d o = Raise e)) ->
  _get_annotation self w image_id = Raise e.
Proof.
  intros Hr Hd Ht Hobjs Hpre Ho.
  rewrite (get_annotation_detections self w r d image_id tree Hr Hd Ht), Hobjs.
  now rewrite (detections_first_failure d o post e pre dets Hpre Ho).
Qed.

(** X16 at the sample [d], a cat without difficulty field. *)
Lemma first_failing_object_fails_the_parse_witness :
  _get_annotation Sample.adapter Sample.annotated "d" = Raise AttributeError.
Proof.
  apply (first_failing_object_fails_the_parse
           Sample.adapter Sample.annotated "data" _ "d" _ [] Sample.plain_cat
           [] [] AttributeError eq_refl eq_refl eq_refl eq_refl eq_refl).
  right. split; reflexivity.
Defined.

Lemma rstrip_empty_all_spaces s :
  Str.rstrip s = EmptyString <-> all_spaces s = true.
Proof.
  induction s as [|c s IH]; cbn; [tauto|].
  destruct (Str.rstrip s) as [|d r].
  - destruct (Str.is_space c); cbn; [tauto|]. split; discriminate.
  - split; [discriminate|]. intros H. apply andb_true_iff in H as [_ H].
    apply IH in H. discriminate.
Qed.

Lemma lstrip_empty_all_spaces s :
  Str.lstrip s = EmptyString -> all_spaces s = true.
Proof.
  induction s as [|c s IH]; cbn; [trivial|].
  destruct (Str.is_space c); [exact IH | discriminate].
Qed.

Lemma strip_empty_all_spaces s :
  Str.strip s = EmptyString -> all_spaces s = true.
Proof.
  unfold Str.strip. intros H. apply lstrip_empty_all_spaces in H.
  destruct (Str.rstrip s) as [|d r] eqn:E.
  - now apply rstrip_empty_all_spaces.
  - assert (Hr : Str.rstrip (Str.rstrip s) = EmptyString)
      by (rewrite E; now apply rstrip_empty_all_spaces).
    rewrite rstrip_idempotent, E in Hr. discriminate.
Qed.

Lemma all_spaces_lskip s :
  all_spaces s = true -> all_spaces (Str.lskip s) = true.
Proof.
  induction s as [|c s IH]; cbn; [trivial|].
  intros H. destruct (Str.is_blank c); [|exact H].
  apply andb_true_iff in H as [_ H]. now apply IH.
Qed.

Lemma all_spaces_rskip s :
  all_spaces s = true -> all_spaces (Str.rskip s) = true.
Proof.
  induction s as [|c s IH]; cbn; [trivial|].
  intros H. apply andb_true_iff in H as [Hc H]. specialize (IH H).
  destruct (Str.rskip s) as [|d r].
  - destruct (Str.is_blank c); cbn; [reflexivity | now rewrite Hc].
  - cbn [all_spaces] in *. now rewrite Hc.
Qed.

(** A sign, a digit and an underscore are no whitespace. *)
Lemma space_starts_no_integer c r :
  Str.is_space c = true ->
  match String c r with
  | String "+" t => Str.digits t 0 false
  | String "-" t => option_map Z.opp (Str.digits t 0 false)
  | _ => Str.digits (String c r) 0 false
  end = None.
Proof.
  destruct c as [[] [] [] [] [] [] [] []]; intros H;
    solve [discriminate H | reflexivity].
Qed.

Lemma blank_text_is_no_integer s :
  Str.strip s = EmptyString -> Str.int s = Raise ValueError.
Proof.
  intros H. apply strip_empty_all_spaces in H.
  apply all_spaces_rskip, all_spaces_lskip in H.
  unfold Str.int. fold (Str.skip_blanks s) in H.
  destruct (Str.skip_blanks s) as [|c r]; [reflexivity|].
  cbn [all_spaces] in H. apply andb_true_iff in H as [Hc _].
  now rewrite (space_starts_no_integer c r Hc).
Qed.

(** X17. A [difficult] element whose text is not empty but blank is not
    defaulted to 0: the text goes to [int], which raises a value error,
    and annotation access raises it when the object is recognized, its
    box parses and the objects before it parse. *)
Theorem blank_difficulty_text_is_a_value_error
  self w r d image_id tree pre o post dets bx el s :
  root self = Some r -> class_dict self = Some d ->
  ET_parse w (annotation_path r image_id) = Ok tree ->
  ET.findall tree "object" = pre ++ o :: post ->
  detections d pre = Ok dets ->
  recognized d o = true -> box_of o = Ok bx ->
  ET.find o "difficult" = Some el -> ET.text el = Some s ->
  s <> EmptyString -> Str.strip s = EmptyString ->
  difficult_flag (Some s) = Raise ValueError
  /\ _get_annotation self w image_id = Raise ValueError.
Proof.
  intros Hr Hd Ht Hobjs Hpre Hrec Hbx Hel Hs Hne Hblank.
  assert (Hf : difficult_flag (Some s) = Raise ValueError).
  { destruct s; [congruence|]. cbn [difficult_flag].
    now apply blank_text_is_no_integer. }
  split; [exact Hf|].
  rewrite (get_annotation_detections self w r d image_id tree Hr Hd Ht), Hobjs.
  rewrite (detections_first_failure d o post ValueError pre dets Hpre);
    [reflexivity|].
  right. split; [exact Hrec|].
  unfold recognized in Hrec. unfold detection_of, lookup.
  destruct (class_name_of o) as [c|]; [|discriminate]. cbn [bind].
  rewrite Hbx; cbn [bind]. unfold Dict.mem in Hrec.
  destruct (Dict.get d c); [|discriminate]. cbn [bind].
  rewrite Hel; cbn [getattr bind]. now rewrite Hs, Hf.
Qed.

(** X17 at a cat whose difficulty text is one blank. *)
Lemma blank_difficulty_text_is_a_value_error_witness :
  _get_annotation Sample.adapter blank_flag_world "a" = Raise ValueError.
Proof.
  destruct (blank_difficulty_text_is_a_value_error
              Sample.adapter blank_flag_world "data" _ "a" _
              [Sample.zebra] blank_flag_cat [Sample.dog] [] _ _ " "
              eq_refl eq_refl eq_refl eq_refl eq_refl eq_refl eq_refl
              eq_refl eq_refl ltac:(discriminate) eq_refl) as [_ H].
  exact H.
Defined.

(** ** The number of batches *)

(** X18. On an object that has its [ids], lines 38-40 store the number
    of samples divided by the batch size, rounded down, as the number of
    batches, and raise a zero division error for the batch size 0. With
    a batch size of at least 1 every batch index that returns a batch is
    below that number, and when the batch size divides the number of
    samples the last of these batch indices returns no batch. *)
Theorem num_batches_and_returned_batches w p kd o l bs :
  ids o = Some l -> batch_size o = Some bs ->
  TFRecordDataset w p = Ok tt ->
  let o' := fst (open_dataset w p kd o) in
  (bs = 0 -> snd (open_dataset w p kd o) = Raise ZeroDivisionError)
  /\ (bs <> 0 ->
      snd (open_dataset w p kd o) = Ok tt
      /\ num_batches o' = Some (len l / bs))
  /\ (1 <= bs ->
      (forall idxs, Permutation (shuffle w idxs) idxs) ->
      forall b batch,
        snd (__getitem__ o' w b) = Ok (Some batch) ->
        b < len l / bs
        /\ (len l mod bs = 0 -> b < len l / bs - 1)).
Proof.
  intros Hl Hb Hd o'. subst o'.
  unfold open_dataset, seq_, eval, assign, floordiv.
  rewrite Hd; cbn. rewrite Hl, Hb; cbn.
  split; [intros ->; reflexivity|]. split.
  - intros Hne. destruct (Z.eqb_spec bs 0); [contradiction|]. now split.
  - intros Hbs Hperm b batch.
    destruct (Z.eqb_spec bs 0); [lia|]. cbn. intros H.
    set (o' := set_num_batches _ _) in H.
    destruct (batch_room o' w b bs l batch Hb Hl Hperm H) as (_ & Hlt & _).
    split.
    + assert (b + 1 <= len l / bs)
        by (apply Z.div_le_lower_bound; lia). lia.
    + intros Hm. apply Z.div_exact in Hm; [|lia]. nia.
Qed.

(** X18 at six samples in batches of two. *)
Lemma num_batches_and_returned_batches_witness :
  num_batches (fst (open_dataset Sample.annotated "data/train.record" false
                                 pairs_adapter)) = Some 3.
Proof.
  destruct (num_batches_and_returned_batches
              Sample.annotated "data/train.record" false pairs_adapter
              _ 2 eq_refl eq_refl eq_refl) as (_ & H & _).
  destruct (H ltac:(discriminate)) as [_ Hn]. exact Hn.
Defined.

(** ** Normal class names *)

Lemma lower_char_idempotent c :
  Str.lower_char (Str.lower_char c) = Str.lower_char c.
Proof. destruct c as [[] [] [] [] [] [] [] []]; reflexivity. Qed.

Lemma is_space_lower_char c :
  Str.is_space (Str.lower_char c) = Str.is_space c.
Proof. destruct c as [[] [] [] [] [] [] [] []]; reflexivity. Qed.

Lemma lower_idempotent s : Str.lower (Str.lower s) = Str.lower s.
Proof.
  induction s as [|c s IH]; cbn; [reflexivity|].
  now rewrite lower_char_idempotent, IH.
Qed.

Lemma lower_lstrip s : Str.lower (Str.lstrip s) = Str.lstrip (Str.lower s).
Proof.
  induction s as [|c s IH]; cbn; [reflexivity|].
  rewrite is_space_lower_char. destruct (Str.is_space c); [exact IH|reflexivity].
Qed.

Lemma lower_rstrip s : Str.lower (Str.rstrip s) = Str.rstrip (Str.lower s).
Proof.
  induction s as [|c s IH]; cbn; [reflexivity|].
  rewrite <- IH, is_space_lower_char.
  destruct (Str.rstrip s) as [|d r]; cbn.
  - destruct (Str.is_space c); reflexivity.
  - reflexivity.
Qed.

Lemma lstrip_idempotent s : Str.lstrip (Str.lstrip s) = Str.lstrip s.
Proof.
  induction s as [|c s IH]; cbn; [reflexivity|].
  destruct (Str.is_space c) eqn:Hc; [exact IH|]. cbn. now rewrite Hc.
Qed.

Lemma rstrip_lstrip_fixed t :
  Str.rstrip t = t -> Str.rstrip (Str.lstrip t) = Str.lstrip t.
Proof.
  induction t as [|c t IH]; [reflexivity|].
  intros H. cbn [Str.lstrip].
  destruct (Str.is_space c) eqn:Hc; [|exact H].
  apply IH. cbn [Str.rstrip] in H.
  destruct (Str.rstrip t) as [|d r].
  - rewrite Hc in H. discriminate.
  - now injection H.
Qed.

Lemma strip_idempotent s : Str.strip (Str.strip s) = Str.strip s.
Proof.
  unfold Str.strip.
  rewrite (rstrip_lstrip_fixed (Str.rstrip s) (rstrip_idempotent s)).
  apply lstrip_idempotent.
Qed.

(** X19. The class name looked up for an object is in normal form:
    lowering and stripping it again changes nothing. So the object is
    looked up under the same name whatever the case and the surrounding
    whitespace of its name text, and a key of the class dictionary that
    is not in normal form, for one a token of the label file that starts
    with a tab, is never matched. *)
Theorem class_names_are_looked_up_in_normal_form (o : ET.element) :
  (forall c, class_name_of o = Ok c -> Str.strip (Str.lower c) = c)
  /\ (forall k, Str.strip (Str.lower k) <> k -> class_name_of o <> Ok k)
  /\ (forall t, Str.strip (Str.lower (Str.strip (Str.lower t)))
                = Str.strip (Str.lower t)).
Proof.
  assert (Hn : forall t, Str.strip (Str.lower (Str.strip (Str.lower t)))
                         = Str.strip (Str.lower t)).
  { intros t. unfold Str.strip at 2.
    rewrite lower_lstrip, lower_rstrip, lower_idempotent.
    apply strip_idempotent. }
  assert (Hc : forall c, class_name_of o = Ok c -> Str.strip (Str.lower c) = c).
  { intros c. unfold class_name_of.
    destruct (ET.find o "name") as [name|]; cbn; [|discriminate].
    destruct (ET.text name) as [t|]; cbn; [|discriminate].
    intros [= <-]. apply Hn. }
  split; [exact Hc|]. split; [|exact Hn].
  intros k Hk H. apply Hk. now apply Hc.
Qed.

(** X19 at the key that is a tab and [dog]. *)
Lemma class_names_are_looked_up_in_normal_form_witness :
  class_name_of Sample.dog <> Ok (String "009" "dog").
Proof.
  destruct (class_names_are_looked_up_in_normal_form Sample.dog)
    as (_ & H & _).
  apply H. discriminate.
Defined.
